(** * ODIN trajectory engine: a shallow embedding of [trajectory-engine.ts]

    The engine computes with JavaScript numbers.  The embedding is written
    once, against an interface of the number operations the code uses, and
    read at two number systems:

    - [IEEE754.binary64]: IEEE 754 double precision, as the Standard Library
      specifies it ([spec_float], 53 bits of mantissa, exponents up to 1024).
      Addition, subtraction, product, quotient, square root and the
      comparisons are bit exact and evaluate inside Rocq.  The transcendental
      functions of [Math] are left to the host and stay abstract there.
    - [Exact.xreal]: the real numbers extended with [+Infinity], [-Infinity]
      and [NaN].  Arithmetic is exact (no rounding, no overflow, one zero)
      and the special values propagate as in IEEE 754, so the algebraic
      properties can be proved with the real analysis of the Standard Library.

    Exceptions and [console.warn] are explicit: a computation takes the
    console and returns either a value or the error thrown, with the console
    it leaves behind. *)

From Stdlib Require Import ZArith QArith Reals Lra Lia List String Bool.
From Stdlib Require Import Floats.SpecFloat.
Import ListNotations.

Set Implicit Arguments.

(** ** JavaScript numbers *)

(** The operators and the exactly specified functions of ECMAScript numbers. *)
Class JSNumber (num : Type) : Type := {
  lit : Q -> num;                       (* a numeric literal *)
  add : num -> num -> num;
  sub : num -> num -> num;
  mul : num -> num -> num;
  div : num -> num -> num;
  neg : num -> num;
  ltb : num -> num -> bool;             (* a < b *)
  leb : num -> num -> bool;             (* a <= b *)
  eqb : num -> num -> bool;             (* a === b *)
  isNaN : num -> bool;
  isFinite : num -> bool;
  Math_sqrt : num -> num;
  Math_abs : num -> num;
  Math_max : num -> num -> num;
  Math_min : num -> num -> num;
  Math_sign : num -> num
}.

(** The part of [Math] (and of number formatting) whose results the host
    approximates, together with the conversions the loops need. *)
Class JSMath (num : Type) : Type := {
  Math_PI : num;
  Math_pow : num -> num -> num;
  Math_exp : num -> num;
  Math_log : num -> num;
  Math_sin : num -> num;
  Math_cos : num -> num;
  Math_asin : num -> num;
  Math_asinh : num -> num;
  Math_atan2 : num -> num -> num;
  Math_floor : num -> num;
  Math_round : num -> num;
  toFixed : nat -> num -> num;          (* Number(x.toFixed(d)) *)
  toCount : num -> nat                  (* how many k = 1, 2, ... satisfy k <= x *)
}.

Arguments lit {num _} q%_Q.

Declare Scope js_scope.
Delimit Scope js_scope with js.
Infix "+" := add : js_scope.
Infix "-" := sub : js_scope.
Infix "*" := mul : js_scope.
Infix "/" := div : js_scope.
Notation "- a" := (neg a) : js_scope.
Infix "<?" := ltb (at level 70, no associativity) : js_scope.
Infix "<=?" := leb (at level 70, no associativity) : js_scope.
Infix "=?" := eqb (at level 70, no associativity) : js_scope.
Notation "a >? b" := (ltb b a) (at level 70, no associativity) : js_scope.
Notation "a >=? b" := (leb b a) (at level 70, no associativity) : js_scope.

Section NumberHelpers.
Context {num : Type} {N : JSNumber num}.

(** A loop counter read as a number. *)
Definition ofNat (n : nat) : num := lit (inject_Z (Z.of_nat n)).

(** ToBoolean on a number: [0] and [NaN] are falsy. *)
Definition truthy (a : num) : bool := negb (eqb a (lit 0) || isNaN a).
End NumberHelpers.

(** ** IEEE 754 double precision *)

Module IEEE754.

Definition prec : Z := 53.
Definition emax : Z := 1024.

Definition binary64 : Type := spec_float.

Definition ofZ (z : Z) : binary64 := binary_normalize prec emax z 0 false.

(** A decimal literal [n / 10^k] is read as the double nearest to it: the
    correctly rounded quotient of two integers that are themselves doubles
    (for every literal of the engine, numerator and denominator are below
    2^53). *)
Definition ofQ (q : Q) : binary64 :=
  SFdiv prec emax (ofZ (Qnum q)) (ofZ (Zpos (Qden q))).

Definition is_nan (a : binary64) : bool :=
  match a with S754_nan => true | _ => false end.

Definition is_finite (a : binary64) : bool :=
  match a with S754_zero _ | S754_finite _ _ _ => true | _ => false end.

(** [Math.max]: [NaN] if either argument is, and [+0] above [-0]. *)
Definition max64 (a b : binary64) : binary64 :=
  match a, b with
  | S754_nan, _ | _, S754_nan => S754_nan
  | S754_zero sa, S754_zero sb => S754_zero (sa && sb)
  | _, _ => if SFltb a b then b else a
  end.

Definition min64 (a b : binary64) : binary64 :=
  match a, b with
  | S754_nan, _ | _, S754_nan => S754_nan
  | S754_zero sa, S754_zero sb => S754_zero (sa || sb)
  | _, _ => if SFltb b a then b else a
  end.

Definition sign64 (a : binary64) : binary64 :=
  match a with
  | S754_nan => S754_nan
  | S754_zero s => S754_zero s
  | S754_infinity s | S754_finite s _ _ => if s then SFopp (ofZ 1) else ofZ 1
  end.

#[global] Instance binary64_number : JSNumber binary64 := {|
  lit := ofQ;
  add := SFadd prec emax;
  sub := SFsub prec emax;
  mul := SFmul prec emax;
  div := SFdiv prec emax;
  neg := SFopp;
  ltb := SFltb;
  leb := SFleb;
  eqb := SFeqb;
  isNaN := is_nan;
  isFinite := is_finite;
  Math_sqrt := SFsqrt prec emax;
  Math_abs := SFabs;
  Math_max := max64;
  Math_min := min64;
  Math_sign := sign64
|}.

End IEEE754.

(** ** Exact arithmetic with the IEEE special values *)

Module Exact.

Inductive xreal : Type := Fin (r : R) | PInf | NInf | XNaN.

Definition Rltb (a b : R) : bool := if Rlt_dec a b then true else false.
Definition Rleb (a b : R) : bool := if Rle_dec a b then true else false.
Definition Reqb (a b : R) : bool := if Req_dec_T a b then true else false.

Local Open Scope R_scope.

Definition xlit (q : Q) : xreal := Fin (IZR (Qnum q) / IZR (Zpos (Qden q))).

Definition xadd (a b : xreal) : xreal :=
  match a, b with
  | XNaN, _ | _, XNaN => XNaN
  | Fin x, Fin y => Fin (x + y)
  | PInf, NInf | NInf, PInf => XNaN
  | PInf, _ | _, PInf => PInf
  | NInf, _ | _, NInf => NInf
  end.

Definition xsub (a b : xreal) : xreal :=
  match a, b with
  | XNaN, _ | _, XNaN => XNaN
  | Fin x, Fin y => Fin (x - y)
  | PInf, PInf | NInf, NInf => XNaN
  | PInf, _ | _, NInf => PInf
  | NInf, _ | _, PInf => NInf
  end.

(** An infinity times a finite factor: the sign of the factor decides. *)
Definition scale_inf (positive : bool) (x : R) : xreal :=
  if Reqb x 0 then XNaN
  else if Bool.eqb positive (Rltb 0 x) then PInf else NInf.

Definition xmul (a b : xreal) : xreal :=
  match a, b with
  | XNaN, _ | _, XNaN => XNaN
  | Fin x, Fin y => Fin (x * y)
  | Fin x, PInf | PInf, Fin x => scale_inf true x
  | Fin x, NInf | NInf, Fin x => scale_inf false x
  | PInf, PInf | NInf, NInf => PInf
  | PInf, NInf | NInf, PInf => NInf
  end.

(** Division.  The one zero of this model counts as [+0]: [x / 0] is the
    infinity with the sign of [x], and [0 / 0] is [NaN]. *)
Definition xdiv (a b : xreal) : xreal :=
  match a, b with
  | XNaN, _ | _, XNaN => XNaN
  | Fin x, Fin y =>
      if Reqb y 0
      then (if Reqb x 0 then XNaN else if Rltb 0 x then PInf else NInf)
      else Fin (x / y)
  | Fin _, (PInf | NInf) => Fin 0
  | PInf, Fin y => if Rltb y 0 then NInf else PInf
  | NInf, Fin y => if Rltb y 0 then PInf else NInf
  | _, _ => XNaN
  end.

Definition xneg (a : xreal) : xreal :=
  match a with
  | Fin x => Fin (- x) | PInf => NInf | NInf => PInf | XNaN => XNaN
  end.

Definition xltb (a b : xreal) : bool :=
  match a, b with
  | XNaN, _ | _, XNaN => false
  | Fin x, Fin y => Rltb x y
  | NInf, (Fin _ | PInf) => true
  | Fin _, PInf => true
  | _, _ => false
  end.

Definition xleb (a b : xreal) : bool :=
  match a, b with
  | XNaN, _ | _, XNaN => false
  | Fin x, Fin y => Rleb x y
  | NInf, _ => true
  | _, PInf => true
  | _, _ => false
  end.

Definition xeqb (a b : xreal) : bool :=
  match a, b with
  | Fin x, Fin y => Reqb x y
  | PInf, PInf | NInf, NInf => true
  | _, _ => false
  end.

Definition xisNaN (a : xreal) : bool :=
  match a with XNaN => true | _ => false end.

Definition xisFinite (a : xreal) : bool :=
  match a with Fin _ => true | _ => false end.

Definition xsqrt (a : xreal) : xreal :=
  match a with
  | Fin x => if Rltb x 0 then XNaN else Fin (sqrt x)
  | PInf => PInf
  | _ => XNaN
  end.

Definition xabs (a : xreal) : xreal :=
  match a with
  | Fin x => Fin (Rabs x) | PInf | NInf => PInf | XNaN => XNaN
  end.

Definition xmax (a b : xreal) : xreal :=
  match a, b with
  | XNaN, _ | _, XNaN => XNaN
  | _, _ => if xltb a b then b else a
  end.

Definition xmin (a b : xreal) : xreal :=
  match a, b with
  | XNaN, _ | _, XNaN => XNaN
  | _, _ => if xltb b a then b else a
  end.

Definition xsign (a : xreal) : xreal :=
  match a with
  | XNaN => XNaN
  | PInf => Fin 1
  | NInf => Fin (-1)
  | Fin x => if Rltb 0 x then Fin 1 else if Rltb x 0 then Fin (-1) else Fin 0
  end.

#[global] Instance xreal_number : JSNumber xreal := {|
  lit := xlit;
  add := xadd;
  sub := xsub;
  mul := xmul;
  div := xdiv;
  neg := xneg;
  ltb := xltb;
  leb := xleb;
  eqb := xeqb;
  isNaN := xisNaN;
  isFinite := xisFinite;
  Math_sqrt := xsqrt;
  Math_abs := xabs;
  Math_max := xmax;
  Math_min := xmin;
  Math_sign := xsign
|}.

(** *** The [Math] functions on exact numbers *)

Definition is_integer (x : R) : bool := Reqb (IZR (Int_part x)) x.

(** [Math.pow], following the case list of Number::exponentiate. *)
Definition xpow (base expo : xreal) : xreal :=
  match expo with
  | XNaN => XNaN
  | Fin e =>
      if Reqb e 0 then Fin 1
      else match base with
           | XNaN => XNaN
           | Fin b =>
               if Rltb 0 b then Fin (Rpower b e)
               else if Reqb b 0 then (if Rltb 0 e then Fin 0 else PInf)
               else if is_integer e then Fin (powerRZ b (Int_part e))
               else XNaN
           | PInf => if Rltb 0 e then PInf else Fin 0
           | NInf =>
               if Rltb 0 e
               then (if is_integer e && Z.odd (Int_part e) then NInf else PInf)
               else Fin 0
           end
  | PInf =>
      match base with
      | XNaN => XNaN
      | Fin b => if Rltb 1 (Rabs b) then PInf
                 else if Reqb (Rabs b) 1 then XNaN else Fin 0
      | _ => PInf
      end
  | NInf =>
      match base with
      | XNaN => XNaN
      | Fin b => if Rltb 1 (Rabs b) then Fin 0
                 else if Reqb (Rabs b) 1 then XNaN else PInf
      | _ => Fin 0
      end
  end.

Definition xexp (a : xreal) : xreal :=
  match a with
  | Fin x => Fin (exp x) | PInf => PInf | NInf => Fin 0 | XNaN => XNaN
  end.

Definition xlog (a : xreal) : xreal :=
  match a with
  | Fin x => if Rltb x 0 then XNaN else if Reqb x 0 then NInf else Fin (ln x)
  | PInf => PInf
  | _ => XNaN
  end.

Definition xsin (a : xreal) : xreal :=
  match a with Fin x => Fin (sin x) | _ => XNaN end.

Definition xcos (a : xreal) : xreal :=
  match a with Fin x => Fin (cos x) | _ => XNaN end.

(** [Math.asin] is [NaN] outside [-1, 1]. *)
Definition xasin (a : xreal) : xreal :=
  match a with
  | Fin x => if Rltb 1 x || Rltb x (-1) then XNaN else Fin (asin x)
  | _ => XNaN
  end.

Definition xasinh (a : xreal) : xreal :=
  match a with
  | Fin x => Fin (arcsinh x) | PInf => PInf | NInf => NInf | XNaN => XNaN
  end.

Definition xatan2 (y x : xreal) : xreal :=
  match y, x with
  | XNaN, _ | _, XNaN => XNaN
  | Fin b, Fin a =>
      if Rltb 0 a then Fin (atan (b / a))
      else if Rltb a 0
           then (if Rleb 0 b then Fin (atan (b / a) + PI) else Fin (atan (b / a) - PI))
           else if Rltb 0 b then Fin (PI / 2)
                else if Rltb b 0 then Fin (- PI / 2) else Fin 0
  | Fin _, PInf => Fin 0
  | Fin b, NInf => if Rleb 0 b then Fin PI else Fin (- PI)
  | PInf, Fin _ => Fin (PI / 2)
  | NInf, Fin _ => Fin (- PI / 2)
  | PInf, PInf => Fin (PI / 4)
  | PInf, NInf => Fin (3 * PI / 4)
  | NInf, PInf => Fin (- PI / 4)
  | NInf, NInf => Fin (- 3 * PI / 4)
  end.

Definition xfloor (a : xreal) : xreal :=
  match a with Fin x => Fin (IZR (Int_part x)) | _ => a end.

(** [Math.round] is the floor of [x + 1/2]. *)
Definition xround (a : xreal) : xreal :=
  match a with Fin x => Fin (IZR (Int_part (x + / 2))) | _ => a end.

(** [Number(x.toFixed(d))]: the multiple of [10^-d] nearest to [x], ties
    away from zero; numbers of magnitude [1e21] and above, and the special
    values, print as themselves. *)
Definition xtoFixed (d : nat) (a : xreal) : xreal :=
  match a with
  | Fin x =>
      if Rleb (10 ^ 21) (Rabs x) then a
      else let n := IZR (Int_part (Rabs x * 10 ^ d + / 2)) / 10 ^ d in
           if Rltb x 0 then Fin (- n) else Fin n
  | _ => a
  end.

Definition xtoCount (a : xreal) : nat :=
  match a with Fin x => Z.to_nat (Int_part x) | _ => O end.

#[global] Instance xreal_math : JSMath xreal := {|
  Math_PI := Fin PI;
  Math_pow := xpow;
  Math_exp := xexp;
  Math_log := xlog;
  Math_sin := xsin;
  Math_cos := xcos;
  Math_asin := xasin;
  Math_asinh := xasinh;
  Math_atan2 := xatan2;
  Math_floor := xfloor;
  Math_round := xround;
  toFixed := xtoFixed;
  toCount := xtoCount
|}.

End Exact.

(** ** Exceptions and the console *)

Section Effects.
Variable num : Type.

(** One constructor for each [throw new Error(...)] of the engine, with
    the numbers its message interpolates. *)
Inductive Error : Type :=
| TimeNegative                          (* Time cannot be negative *)
| TimeNotFinite                         (* Time must be finite *)
| VelocityNotFinite                     (* Velocity must be finite *)
| MissionTimeTooShort                   (* Mission time too short (minimum 6 minutes) *)
| MissionTimeTooLong                    (* Mission time too long (maximum 1 year) *)
| DeltaVNegative                        (* Delta-V cannot be negative *)
| DeltaVTooLarge                        (* Delta-V exceeds reasonable chemical propulsion limits *)
| InvalidPositionVectors                (* Invalid position vectors: magnitudes too small *)
| TimeOfFlightNotPositive               (* Time of flight must be positive *)
| MuNotPositive                         (* Gravitational parameter must be positive *)
| DegenerateLambert                     (* Degenerate Lambert problem: positions too close *)
| ImpossibleGeometry                    (* Lambert problem: impossible geometry (lambda >= 1) *)
| TimeOfFlightTooShort (T_min T : num)  (* Time of flight too short. Minimum: .., given: .. *)
| MultiRevNotImplemented                (* Multi-revolution Lambert transfers not implemented *)
| DerivativeTooSmall                    (* Izzo solver: derivative too small in Householder iteration *)
| DidNotConverge (maxIterations : nat)  (* Izzo solver did not converge after .. iterations *)
| InvalidSemiMajorAxis                  (* Invalid semi-major axis in Lagrange coefficient calculation *)
| SingularSolution                      (* Lambert solver: g coefficient too small, singular solution *)
| VInfinityOutOfRange                   (* Hyperbolic excess velocity out of realistic range (0-5 km/s) *)
| TargetRadiusOutOfRange                (* Target orbit radius out of valid range *)
| DryMassInvalid                        (* Dry mass must be positive and finite *)
| SpecificImpulseInvalid                (* Specific impulse must be positive and finite *)
| ThrustToWeightInvalid                 (* Thrust-to-weight ratio must be between 0 and 2.0 *)
| InvalidMassRatio                      (* Invalid mass ratio calculated from Tsiolkovsky equation *)
| NegativePropellantMass                (* Negative propellant mass calculated *)
| NegativeBurnTime                      (* Negative burn time calculated *)
| InvalidLaunchDate                     (* Invalid launch date provided *)
| InvalidTransferType (t : string).     (* Invalid transfer type: .. *)

(** One constructor for each [console.warn]. *)
Inductive Warning : Type :=
| DeterminantError (err : num)          (* Lagrange coefficients determinant error: .. *)
| HighPropellantRatio (ratio : num)     (* Very high propellant-to-dry mass ratio: .. *)
| LongBurnTime (hours : num).           (* Long burn time .. hours may require multiple burn phases *)

Definition Console : Type := list Warning.

Inductive Outcome (A : Type) : Type :=
| Return (a : A)
| Throw (e : Error).

(** A computation reads the console it is started on only to append. *)
Definition Eff (A : Type) : Type := Console -> Outcome A * Console.

Definition ret {A : Type} (a : A) : Eff A := fun c => (Return a, c).

Definition bind {A B : Type} (m : Eff A) (k : A -> Eff B) : Eff B :=
  fun c => match m c with
           | (Return a, c') => k a c'
           | (Throw _ e, c') => (Throw _ e, c')
           end.

Definition throw {A : Type} (e : Error) : Eff A := fun c => (Throw A e, c).

Definition warn (w : Warning) : Eff unit := fun c => (Return tt, c ++ [w]).

(** [if (b) { throw e; }] *)
Definition throwIf (b : bool) (e : Error) : Eff unit :=
  if b then throw e else ret tt.

(** What the caller observes of a run: the value or the error. *)
Definition outcome {A : Type} (m : Eff A) (c : Console) : Outcome A := fst (m c).

End Effects.

Arguments Return {num A} a.
Arguments Throw {num A} e.
Arguments ret {num A} a _.
Arguments throw {num A} e _.
Arguments TimeNegative {num}.
Arguments TimeNotFinite {num}.
Arguments VelocityNotFinite {num}.
Arguments MissionTimeTooShort {num}.
Arguments MissionTimeTooLong {num}.
Arguments DeltaVNegative {num}.
Arguments DeltaVTooLarge {num}.
Arguments InvalidPositionVectors {num}.
Arguments TimeOfFlightNotPositive {num}.
Arguments MuNotPositive {num}.
Arguments DegenerateLambert {num}.
Arguments ImpossibleGeometry {num}.
Arguments MultiRevNotImplemented {num}.
Arguments DerivativeTooSmall {num}.
Arguments DidNotConverge {num} maxIterations.
Arguments InvalidSemiMajorAxis {num}.
Arguments SingularSolution {num}.
Arguments VInfinityOutOfRange {num}.
Arguments TargetRadiusOutOfRange {num}.
Arguments DryMassInvalid {num}.
Arguments SpecificImpulseInvalid {num}.
Arguments ThrustToWeightInvalid {num}.
Arguments InvalidMassRatio {num}.
Arguments NegativePropellantMass {num}.
Arguments NegativeBurnTime {num}.
Arguments InvalidLaunchDate {num}.
Arguments InvalidTransferType {num} t.

Declare Scope eff_scope.
Delimit Scope eff_scope with eff.
Notation "x <- m ;; k" := (bind m (fun x => k))
  (at level 61, m at next level, right associativity) : eff_scope.
Notation "m ;; k" := (bind m (fun _ => k))
  (at level 61, right associativity) : eff_scope.

(** ** The engine *)

(** *** UnitConverter *)

Module UnitConverter.
Section Methods.
Context {num : Type} {N : JSNumber num}.
Local Open Scope js_scope.
Local Open Scope eff_scope.

Definition SECONDS_PER_HOUR : num := lit 3600.
Definition HOURS_PER_SECOND : num := lit 1 / lit 3600.
Definition SECONDS_PER_DAY : num := lit 86400.
Definition METERS_PER_KM : num := lit 1000.
Definition KM_PER_METER : num := lit 1 / lit 1000.
Definition MS_PER_KMS : num := lit 1000.
Definition KMS_PER_MS : num := lit 1 / lit 1000.

Definition hoursToSeconds (hours : num) : Eff num num :=
  throwIf (hours <? lit 0) TimeNegative ;;
  throwIf (negb (isFinite hours)) TimeNotFinite ;;
  ret (hours * SECONDS_PER_HOUR).

Definition secondsToHours (seconds : num) : Eff num num :=
  throwIf (seconds <? lit 0) TimeNegative ;;
  throwIf (negb (isFinite seconds)) TimeNotFinite ;;
  ret (seconds * HOURS_PER_SECOND).

Definition kmPerSecToMPerSec (kmPerSec : num) : Eff num num :=
  throwIf (negb (isFinite kmPerSec)) VelocityNotFinite ;;
  ret (kmPerSec * MS_PER_KMS).

Definition mPerSecToKmPerSec (mPerSec : num) : Eff num num :=
  throwIf (negb (isFinite mPerSec)) VelocityNotFinite ;;
  ret (mPerSec * KMS_PER_MS).

Definition validateMissionTime (hours : num) : Eff num unit :=
  throwIf (hours <? lit 0.1) MissionTimeTooShort ;;
  throwIf (hours >? lit 8760) MissionTimeTooLong ;;
  ret tt.

Definition validateDeltaV (deltaV_kms : num) : Eff num unit :=
  throwIf (deltaV_kms <? lit 0) DeltaVNegative ;;
  throwIf (deltaV_kms >? lit 20) DeltaVTooLarge ;;
  ret tt.

End Methods.
End UnitConverter.

(** *** CONSTANTS *)

Module CONSTANTS.
Section Table.
Context {num : Type} {N : JSNumber num}.

Definition MU_EARTH : num := lit 398600.4418.
Definition MU_MOON : num := lit 4902.7779.
Definition EARTH_RADIUS : num := lit 6371.
Definition MOON_RADIUS : num := lit 1737.
Definition EARTH_MOON_DISTANCE : num := lit 384400.
Definition EARTH_LOW_ORBIT : num := lit 200.
Definition MOON_ORBIT_ALT : num := lit 100.
Definition SPECIFIC_IMPULSE : num := lit 450.
Definition SPACECRAFT_DRY_MASS : num := lit 5000.

End Table.
End CONSTANTS.

(** *** Vector3D *)

Module Vector3D.
Section Methods.
Context {num : Type} {N : JSNumber num}.
Local Open Scope js_scope.

Record t : Type := new { x : num; y : num; z : num }.

Definition add (a b : t) : t :=
  new (x a + x b) (y a + y b) (z a + z b).

Definition subtract (a b : t) : t :=
  new (x a - x b) (y a - y b) (z a - z b).

Definition multiply (v : t) (scalar : num) : t :=
  new (x v * scalar) (y v * scalar) (z v * scalar).

Definition dot (a b : t) : num :=
  x a * x b + y a * y b + z a * z b.

Definition cross (a b : t) : t :=
  new (y a * z b - z a * y b)
      (z a * x b - x a * z b)
      (x a * y b - y a * x b).

Definition magnitude (this : t) : num :=
  Math_sqrt (x this * x this + y this * y this + z this * z this).

Definition normalize (this : t) : t :=
  let mag := magnitude this in
  new (x this / mag) (y this / mag) (z this / mag).

End Methods.
Arguments t num : clear implicits.
End Vector3D.

(** *** The result interfaces *)

Module OrbitalElements.
Section Fields.
Variable num : Type.
Record t : Type := make {
  semiMajorAxis : num;
  eccentricity : num;
  inclination : num;
  rightAscension : num;
  argOfPerigee : num;
  trueAnomaly : num
}.
End Fields.
End OrbitalElements.

Module HohmannResult.
Section Fields.
Variable num : Type.
Record t : Type := make {
  deltaV1 : num;
  deltaV2 : num;
  transferTime : num;
  transferOrbit : OrbitalElements.t num
}.
End Fields.
End HohmannResult.

Inductive SolutionType : Type := prograde_solution | retrograde_solution.

Module LambertResult.
Section Fields.
Variable num : Type.
Record t : Type := make {
  velocityDeparture : Vector3D.t num;
  velocityArrival : Vector3D.t num;
  convergenceIterations : nat;
  solutionType : SolutionType
}.
End Fields.
End LambertResult.

Module FuelOptimization.
Section Fields.
Variable num : Type.
Record t : Type := make {
  massRatio : num;
  propellantMass : num;
  specificImpulse : num;
  burnTime : num
}.
End Fields.
End FuelOptimization.

Module PatchedConicDetails.
Section Fields.
Variable num : Type.
Record t : Type := make {
  lunarSOI : num;
  v_infinity : num;
  v_at_soi_earth_frame : num;
  v_soi_entry_lunar_frame : num;
  moon_orbital_velocity : num;
  energy_balance_check : bool
}.
End Fields.
End PatchedConicDetails.

Inductive Strategy : Type := direct | capture_orbit | weak_stability_boundary.

Module Feasibility.
Record t : Type := make {
  propulsive : bool;
  thermal : bool;
  navigation : bool
}.
End Feasibility.

Module LOIResult.
Section Fields.
Variable num : Type.
Record t : Type := make {
  strategy : Strategy;
  totalDeltaV : num;
  captureOrbitDeltaV : num;
  insertionDeltaV : num;
  captureOrbitElements : OrbitalElements.t num;
  finalOrbitElements : OrbitalElements.t num;
  totalTime : num;
  fuelEfficiency : num;
  feasibility : Feasibility.t
}.
End Fields.
End LOIResult.

(** *** IzzoSolver *)

Module IzzoSolver.
Section Methods.
Context {num : Type} {N : JSNumber num} {M : JSMath num}.
Local Open Scope js_scope.
Local Open Scope eff_scope.

Definition computeMinimumEnergyTime (lambda : num) : num :=
  let T_min := (lit 1 / lit 3) * (lit 1 - lambda * lambda * lambda) in
  T_min.

Definition calculateY (x lambda : num) : num :=
  Math_sqrt (lit 1 - lambda * lambda * (lit 1 - x * x)).

Definition calculateTime (x y : num) : num :=
  if x <? lit 0 then
    let sqrt_neg_x := Math_sqrt (- x) in
    (Math_asinh (sqrt_neg_x * y) + sqrt_neg_x * y) / Math_pow (- x) (lit 1.5)
  else if x >? lit 0 then
    let sqrt_x := Math_sqrt x in
    if sqrt_x * y <=? lit 1 then
      (Math_asin (sqrt_x * y) + sqrt_x * y) / Math_pow x (lit 1.5)
    else
      (Math_PI - Math_asin (sqrt_x * y) + sqrt_x * y) / Math_pow x (lit 1.5)
  else
    (lit 2 / lit 3) * (lit 1 - y * y * y).

Definition calculateTimeDerivative (x y : num) : num :=
  if x <? lit 0 then
    let sqrt_neg_x := Math_sqrt (- x) in
    (lit 3 * Math_asinh (sqrt_neg_x * y) + lit 3 * sqrt_neg_x * y
     + sqrt_neg_x * y * y * y) / (lit 2 * Math_pow (- x) (lit 2.5))
  else if x >? lit 0 then
    let sqrt_x := Math_sqrt x in
    if sqrt_x * y <=? lit 1 then
      (lit 3 * Math_asin (sqrt_x * y) + lit 3 * sqrt_x * y
       - sqrt_x * y * y * y) / (lit 2 * Math_pow x (lit 2.5))
    else
      (lit 3 * (Math_PI - Math_asin (sqrt_x * y)) + lit 3 * sqrt_x * y
       - sqrt_x * y * y * y) / (lit 2 * Math_pow x (lit 2.5))
  else
    - y * y.

Definition calculateTimeSecondDerivative (x y lambda : num) : num :=
  let epsilon := lit 1e-8 in
  let dT_dx_plus :=
    calculateTimeDerivative (x + epsilon) (calculateY (x + epsilon) lambda) in
  let dT_dx_minus :=
    calculateTimeDerivative (x - epsilon) (calculateY (x - epsilon) lambda) in
  (dT_dx_plus - dT_dx_minus) / (lit 2 * epsilon).

(** The initial guess of [solveForX]. *)
Definition initialGuess (lambda T : num) : num :=
  if T >=? lit 1 / lit 3 then
    Math_pow (T * lit 3) (lit 1 / lit 3) - lit 1
  else
    lit 5 * T * T * T / (lit 2 * (lit 1 - lambda * lambda * lambda)).

(** One pass through the body of the [while] loop of [solveForX], started
    at [x].  [None] is the [break] taken once the residual is below the
    tolerance; otherwise the pass returns the displacement it applied and
    the new [x]. *)
Definition householderStep (lambda T tolerance x : num)
  : Eff num (option (num * num)) :=
  let y := calculateY x lambda in
  let T_computed := calculateTime x y in
  let F := T_computed - T in
  if Math_abs F <? tolerance then ret None
  else
    let dT_dx := calculateTimeDerivative x y in
    let d2T_dx2 := calculateTimeSecondDerivative x y lambda in
    let denominator := dT_dx - F * d2T_dx2 / (lit 2 * dT_dx) in
    throwIf (Math_abs denominator <? lit 1e-15) DerivativeTooSmall ;;
    let delta_x := - F / denominator in
    let max_step := lit 0.5 in
    let limited_delta :=
      Math_sign delta_x * Math_min (Math_abs delta_x) max_step in
    let x1 := x + limited_delta in
    let x2 := Math_max (- lit 1) (Math_min x1 (lit 50)) in
    ret (Some (limited_delta, x2)).

(** The [while (iterations < maxIterations && !converged)] loop, with
    [remaining = maxIterations - iterations] passes left.  It returns
    [x], [iterations] and [converged] as the loop leaves them. *)
Fixpoint householderLoop (lambda T tolerance : num) (remaining : nat)
    (x : num) (iterations : nat) : Eff num (num * nat * bool) :=
  match remaining with
  | O => ret (x, iterations, false)
  | S remaining' =>
      r <- householderStep lambda T tolerance x ;;
      match r with
      | None => ret (x, iterations, true)
      | Some (_, x') =>
          householderLoop lambda T tolerance remaining' x' (S iterations)
      end
  end.

Definition solveForX (lambda T tolerance : num) (maxIterations : nat)
  : Eff num num :=
  let x := initialGuess lambda T in
  r <- householderLoop lambda T tolerance maxIterations x 0 ;;
  let '(x, _, converged) := r in
  throwIf (negb converged) (DidNotConverge maxIterations) ;;
  ret x.

Record Lagrange : Type := lagrange { f : num; g : num; fdot : num; gdot : num }.

Definition calculateLagrangeCoefficients
    (x lambda r1_mag r2_mag s T timeOfFlight mu : num) : Eff num Lagrange :=
  let y := calculateY x lambda in
  let a := s / (lit 2 * (lit 1 - x * x)) in
  throwIf (a <=? lit 0) InvalidSemiMajorAxis ;;
  let sqrt_mu := Math_sqrt mu in
  let sqrt_a := Math_sqrt a in
  let f := lit 1 - (a / r1_mag) * (lit 1 - x * x) in
  let g := a * (s - r1_mag - r2_mag) * sqrt_a / (sqrt_mu * r1_mag * y) in
  let gdot := lit 1 - (a / r2_mag) * (lit 1 - x * x) in
  let fdot := (f * gdot - lit 1) / g in
  ret (lagrange f g fdot gdot).

End Methods.
End IzzoSolver.

(** *** LambertSolver *)

Module LambertSolver.
Section Methods.
Context {num : Type} {N : JSNumber num} {M : JSMath num}.
Local Open Scope js_scope.
Local Open Scope eff_scope.

Definition tolerance : num := lit 1e-14.
Definition maxIterations : nat := 30.

(** The intermediate constants of [solve], in the order the code binds
    them. *)
Definition chord (r1 r2 : Vector3D.t num) : num :=
  Vector3D.magnitude (Vector3D.subtract r2 r1).

Definition semiperimeter (r1 r2 : Vector3D.t num) : num :=
  (Vector3D.magnitude r1 + Vector3D.magnitude r2 + chord r1 r2) / lit 2.

Definition transferAngle (r1 r2 : Vector3D.t num) (prograde : bool) : num :=
  let r1_mag := Vector3D.magnitude r1 in
  let r2_mag := Vector3D.magnitude r2 in
  let cos_dnu := Vector3D.dot r1 r2 / (r1_mag * r2_mag) in
  let cos_dnu_clamped := Math_max (- lit 1) (Math_min (lit 1) cos_dnu) in
  let cross_product := Vector3D.cross r1 r2 in
  let sin_dnu := Vector3D.magnitude cross_product / (r1_mag * r2_mag) in
  if prograde then
    let dnu := Math_atan2 sin_dnu cos_dnu_clamped in
    if dnu <? lit 0 then dnu + lit 2 * Math_PI else dnu
  else
    let dnu := Math_atan2 sin_dnu cos_dnu_clamped in
    let dnu := if dnu <? lit 0 then dnu + lit 2 * Math_PI else dnu in
    lit 2 * Math_PI - dnu.

Definition normalizedTime (r1 r2 : Vector3D.t num) (timeOfFlight mu : num) : num :=
  let s := semiperimeter r1 r2 in
  Math_sqrt (lit 2 * mu / (s * s * s)) * timeOfFlight.

Definition lambdaParameter (r1 r2 : Vector3D.t num) (prograde : bool) : num :=
  let r1_mag := Vector3D.magnitude r1 in
  let r2_mag := Vector3D.magnitude r2 in
  let s := semiperimeter r1 r2 in
  let dnu := transferAngle r1 r2 prograde in
  Math_sqrt (r1_mag * r2_mag) * Math_cos (dnu / lit 2) / s.

(** [solve(r1, r2, timeOfFlight, mu = MU_EARTH, prograde = true,
    multiRevs = 0)]; a caller that omits an argument passes its default. *)
Definition solve (r1 r2 : Vector3D.t num) (timeOfFlight mu : num)
    (prograde : bool) (multiRevs : num) : Eff num (LambertResult.t num) :=
  let r1_mag := Vector3D.magnitude r1 in
  let r2_mag := Vector3D.magnitude r2 in
  throwIf ((r1_mag <? lit 1e-6) || (r2_mag <? lit 1e-6)) InvalidPositionVectors ;;
  throwIf (timeOfFlight <=? lit 0) TimeOfFlightNotPositive ;;
  throwIf (mu <=? lit 0) MuNotPositive ;;
  let c := chord r1 r2 in
  let s := semiperimeter r1 r2 in
  throwIf (c <? lit 1e-6) DegenerateLambert ;;
  let T := normalizedTime r1 r2 timeOfFlight mu in
  let lambda := lambdaParameter r1 r2 prograde in
  throwIf (Math_abs lambda >=? lit 1) ImpossibleGeometry ;;
  x <- (if multiRevs =? lit 0 then
          let T_min := IzzoSolver.computeMinimumEnergyTime lambda in
          throwIf (T <? T_min) (TimeOfFlightTooShort T_min T) ;;
          IzzoSolver.solveForX lambda T tolerance maxIterations
        else
          throw MultiRevNotImplemented) ;;
  co <- IzzoSolver.calculateLagrangeCoefficients
          x lambda r1_mag r2_mag s T timeOfFlight mu ;;
  let f := IzzoSolver.f co in
  let g := IzzoSolver.g co in
  let fdot := IzzoSolver.fdot co in
  let gdot := IzzoSolver.gdot co in
  let determinant := f * gdot - fdot * g in
  (if Math_abs (determinant - lit 1) >? lit 1e-10
   then warn (DeterminantError (Math_abs (determinant - lit 1)))
   else ret tt) ;;
  throwIf (Math_abs g <? lit 1e-15) SingularSolution ;;
  let v1 := Vector3D.multiply
              (Vector3D.subtract r2 (Vector3D.multiply r1 f))
              (lit 1 / g) in
  let v2 := Vector3D.add
              (Vector3D.multiply v1 fdot)
              (Vector3D.multiply r1 (gdot / g)) in
  ret (LambertResult.make v1 v2 maxIterations
         (if prograde then prograde_solution else retrograde_solution)).

End Methods.
End LambertSolver.

(** *** HohmannTransfer *)

Module EarthMoonTransfer.
Section Fields.
Variable num : Type.
(** The object literal [calculateEarthMoonTransfer] returns. *)
Record t : Type := make {
  earthEscape : HohmannResult.t num;
  lunarCapture : HohmannResult.t num;
  totalDeltaV : num;
  totalTime : num;
  lunarSOI : num;
  v_infinity : num;
  patchedConicDetails : PatchedConicDetails.t num
}.
End Fields.
End EarthMoonTransfer.

Module HohmannTransfer.
Section Methods.
Context {num : Type} {N : JSNumber num} {M : JSMath num}.
Local Open Scope js_scope.
Local Open Scope eff_scope.

Definition getLunarSOI : num :=
  let earthMoonDistance := CONSTANTS.EARTH_MOON_DISTANCE in
  let massRatio := CONSTANTS.MU_MOON / CONSTANTS.MU_EARTH in
  earthMoonDistance * Math_pow massRatio (lit 2 / lit 5).

(** [calculate(r1, r2, mu = MU_EARTH)] *)
Definition calculate (r1 r2 mu : num) : Eff num (HohmannResult.t num) :=
  let a_transfer := (r1 + r2) / lit 2 in
  let v1_circular := Math_sqrt (mu / r1) in
  let v2_circular := Math_sqrt (mu / r2) in
  let v1_transfer := Math_sqrt (mu * (lit 2 / r1 - lit 1 / a_transfer)) in
  let v2_transfer := Math_sqrt (mu * (lit 2 / r2 - lit 1 / a_transfer)) in
  let deltaV1 := Math_abs (v1_transfer - v1_circular) in
  let deltaV2 := Math_abs (v2_circular - v2_transfer) in
  let transferTimeSeconds :=
    Math_PI * Math_sqrt (Math_pow a_transfer (lit 3) / mu) in
  transferTime <- UnitConverter.secondsToHours transferTimeSeconds ;;
  let transferOrbit :=
    OrbitalElements.make a_transfer (Math_abs (r2 - r1) / (r1 + r2))
      (lit 0) (lit 0) (lit 0) (lit 0) in
  ret (HohmannResult.make deltaV1 deltaV2 transferTime transferOrbit).

Definition calculateTransferTime (r1 r2 mu : num) : num :=
  let a := (r1 + r2) / lit 2 in
  let period := lit 2 * Math_PI * Math_sqrt (Math_pow a (lit 3) / mu) in
  period / lit 2.

Definition calculateLunarCaptureTime (r_soi r_parking v_infinity : num) : num :=
  let characteristic_time :=
    Math_sqrt (Math_pow r_soi (lit 3) / CONSTANTS.MU_MOON) in
  let hyperbolic_factor :=
    lit 1 + (v_infinity * v_infinity * r_soi) / (lit 2 * CONSTANTS.MU_MOON) in
  characteristic_time * Math_log hyperbolic_factor.

Definition validateEnergyBalance (r1 r2 v1 v2 : num) : bool :=
  let energy1 := v1 * v1 / lit 2 - CONSTANTS.MU_EARTH / r1 in
  let energy2 := v2 * v2 / lit 2 - CONSTANTS.MU_EARTH / r2 in
  let energy_error := Math_abs (energy1 - energy2) / Math_abs energy1 in
  energy_error <? lit 1e-6.

Definition calculateEarthMoonTransfer : Eff num (EarthMoonTransfer.t num) :=
  let r_earth_parking := CONSTANTS.EARTH_RADIUS + CONSTANTS.EARTH_LOW_ORBIT in
  let r_moon_parking := CONSTANTS.MOON_RADIUS + CONSTANTS.MOON_ORBIT_ALT in
  let lunarSOI := getLunarSOI in
  let r_earth_moon := CONSTANTS.EARTH_MOON_DISTANCE in
  let r_soi_boundary := r_earth_moon - lunarSOI in
  let v_earth_circular := Math_sqrt (CONSTANTS.MU_EARTH / r_earth_parking) in
  let specific_energy_transfer :=
    - CONSTANTS.MU_EARTH / (lit 2 * r_soi_boundary) in
  let v_departure_magnitude :=
    Math_sqrt (lit 2 * (specific_energy_transfer
                        + CONSTANTS.MU_EARTH / r_earth_parking)) in
  let deltaV_earth_escape := v_departure_magnitude - v_earth_circular in
  let v_at_soi_earth_frame :=
    Math_sqrt (lit 2 * CONSTANTS.MU_EARTH / r_soi_boundary) in
  let v_moon_orbital := Math_sqrt (CONSTANTS.MU_EARTH / r_earth_moon) in
  let v_infinity := Math_abs (v_at_soi_earth_frame - v_moon_orbital) in
  let v_soi_entry_lunar_frame :=
    Math_sqrt (v_infinity * v_infinity + lit 2 * CONSTANTS.MU_MOON / lunarSOI) in
  let v_periapsis_capture :=
    Math_sqrt (CONSTANTS.MU_MOON
               * (lit 2 / r_moon_parking - lit 2 / (lunarSOI + r_moon_parking))) in
  let v_lunar_circular := Math_sqrt (CONSTANTS.MU_MOON / r_moon_parking) in
  let deltaV_lunar_capture := v_soi_entry_lunar_frame - v_periapsis_capture in
  let deltaV_lunar_insertion := v_periapsis_capture - v_lunar_circular in
  let total_lunar_deltaV := deltaV_lunar_capture + deltaV_lunar_insertion in
  let earthTransferTime :=
    calculateTransferTime r_earth_parking r_soi_boundary CONSTANTS.MU_EARTH in
  let lunarCaptureTime :=
    calculateLunarCaptureTime lunarSOI r_moon_parking v_infinity in
  earthTransferHours <- UnitConverter.secondsToHours earthTransferTime ;;
  let earthEscape :=
    HohmannResult.make deltaV_earth_escape (lit 0) earthTransferHours
      (OrbitalElements.make
         ((r_earth_parking + r_soi_boundary) / lit 2)
         (Math_abs (r_soi_boundary - r_earth_parking)
          / (r_earth_parking + r_soi_boundary))
         (lit 0) (lit 0) (lit 0) (lit 0)) in
  lunarCaptureHours <- UnitConverter.secondsToHours lunarCaptureTime ;;
  let lunarCapture :=
    HohmannResult.make deltaV_lunar_capture deltaV_lunar_insertion
      lunarCaptureHours
      (OrbitalElements.make
         ((lunarSOI + r_moon_parking) / lit 2)
         ((lunarSOI - r_moon_parking) / (lunarSOI + r_moon_parking))
         (lit 0) (lit 0) (lit 0) (lit 0)) in
  let patchedConicDetails :=
    PatchedConicDetails.make lunarSOI v_infinity v_at_soi_earth_frame
      v_soi_entry_lunar_frame v_moon_orbital
      (validateEnergyBalance r_earth_parking r_soi_boundary
         v_departure_magnitude v_at_soi_earth_frame) in
  totalHours <- UnitConverter.secondsToHours (earthTransferTime + lunarCaptureTime) ;;
  ret (EarthMoonTransfer.make earthEscape lunarCapture
         (deltaV_earth_escape + total_lunar_deltaV)
         totalHours lunarSOI v_infinity patchedConicDetails).

End Methods.
End HohmannTransfer.

(** *** LunarOrbitInsertion *)

Module LunarOrbitInsertion.
Section Methods.
Context {num : Type} {N : JSNumber num} {M : JSMath num}.
Local Open Scope js_scope.
Local Open Scope eff_scope.

Definition circularElements (r_target : num) : OrbitalElements.t num :=
  OrbitalElements.make r_target (lit 0) (lit 0) (lit 0) (lit 0) (lit 0).

Definition assessFeasibility (totalDeltaV r_target : num) : Feasibility.t :=
  Feasibility.make
    (totalDeltaV <? lit 2.5)
    (r_target >? CONSTANTS.MOON_RADIUS + lit 10)
    (totalDeltaV <? lit 3).

Definition getOptimalPeriapsis (v_infinity r_target : num) : num :=
  let min_periapsis := CONSTANTS.MOON_RADIUS + lit 15 in
  let max_periapsis := r_target * lit 0.8 in
  let thermal_factor := Math_min (v_infinity / lit 2) (lit 1) in
  let optimal_periapsis :=
    min_periapsis + thermal_factor * (max_periapsis - min_periapsis) in
  optimal_periapsis.

Definition calculateDirectInsertion (v_infinity r_target : num) : LOIResult.t num :=
  let v_periapsis_hyperbolic :=
    Math_sqrt (v_infinity * v_infinity + lit 2 * CONSTANTS.MU_MOON / r_target) in
  let v_circular := Math_sqrt (CONSTANTS.MU_MOON / r_target) in
  let totalDeltaV := v_periapsis_hyperbolic - v_circular in
  let feasibility := assessFeasibility totalDeltaV r_target in
  let finalOrbitElements := circularElements r_target in
  LOIResult.make direct totalDeltaV (lit 0) totalDeltaV
    finalOrbitElements finalOrbitElements (lit 0.1) (lit 100) feasibility.

Definition calculateHighEnergyCapture (v_infinity r_target r_periapsis : num)
  : Eff num (LOIResult.t num) :=
  let r_intermediate := r_target * lit 3 in
  let v_periapsis_hyperbolic :=
    Math_sqrt (v_infinity * v_infinity + lit 2 * CONSTANTS.MU_MOON / r_periapsis) in
  let energy_intermediate := - CONSTANTS.MU_MOON / (r_periapsis + r_intermediate) in
  let v_periapsis_intermediate :=
    Math_sqrt (lit 2 * (energy_intermediate + CONSTANTS.MU_MOON / r_periapsis)) in
  let captureOrbitDeltaV := v_periapsis_hyperbolic - v_periapsis_intermediate in
  let v_intermediate :=
    Math_sqrt (CONSTANTS.MU_MOON
               * (lit 2 / r_intermediate - lit 2 / (r_periapsis + r_intermediate))) in
  let v_circular := Math_sqrt (CONSTANTS.MU_MOON / r_target) in
  let insertionDeltaV := Math_abs (v_circular - v_intermediate) in
  let totalDeltaV := captureOrbitDeltaV + insertionDeltaV in
  let a_intermediate := (r_periapsis + r_intermediate) / lit 2 in
  let period :=
    lit 2 * Math_PI
    * Math_sqrt (Math_pow a_intermediate (lit 3) / CONSTANTS.MU_MOON) in
  totalTime <- UnitConverter.secondsToHours period ;;
  let captureOrbitElements :=
    OrbitalElements.make a_intermediate
      ((r_intermediate - r_periapsis) / (r_intermediate + r_periapsis))
      (lit 0) (lit 0) (lit 0) (lit 0) in
  let finalOrbitElements := circularElements r_target in
  let feasibility := assessFeasibility totalDeltaV r_target in
  ret (LOIResult.make capture_orbit totalDeltaV captureOrbitDeltaV
         insertionDeltaV captureOrbitElements finalOrbitElements totalTime
         (lit 0) feasibility).

Definition calculateCaptureOrbitInsertion (v_infinity r_target r_periapsis : num)
  : Eff num (LOIResult.t num) :=
  let v_periapsis_hyperbolic :=
    Math_sqrt (v_infinity * v_infinity + lit 2 * CONSTANTS.MU_MOON / r_periapsis) in
  let specific_energy_target := - CONSTANTS.MU_MOON / (lit 2 * r_target) in
  let v_periapsis_capture :=
    Math_sqrt (lit 2 * (specific_energy_target + CONSTANTS.MU_MOON / r_periapsis)) in
  let captureOrbitDeltaV := v_periapsis_hyperbolic - v_periapsis_capture in
  let r_apoapsis :=
    CONSTANTS.MU_MOON / (lit 2 * specific_energy_target) - r_periapsis in
  if r_apoapsis >? CONSTANTS.MOON_RADIUS * lit 100 then
    calculateHighEnergyCapture v_infinity r_target r_periapsis
  else
    let v_apoapsis_capture :=
      Math_sqrt (lit 2 * (specific_energy_target + CONSTANTS.MU_MOON / r_apoapsis)) in
    let v_circular := Math_sqrt (CONSTANTS.MU_MOON / r_target) in
    let insertionDeltaV := Math_abs (v_circular - v_apoapsis_capture) in
    let totalDeltaV := captureOrbitDeltaV + insertionDeltaV in
    let a_capture := (r_periapsis + r_apoapsis) / lit 2 in
    let period_capture :=
      lit 2 * Math_PI
      * Math_sqrt (Math_pow a_capture (lit 3) / CONSTANTS.MU_MOON) in
    totalTime <- UnitConverter.secondsToHours (period_capture / lit 2) ;;
    let captureOrbitElements :=
      OrbitalElements.make a_capture
        ((r_apoapsis - r_periapsis) / (r_apoapsis + r_periapsis))
        (lit 0) (lit 0) (lit 0) (lit 0) in
    let finalOrbitElements := circularElements r_target in
    let feasibility := assessFeasibility totalDeltaV r_target in
    ret (LOIResult.make capture_orbit totalDeltaV captureOrbitDeltaV
           insertionDeltaV captureOrbitElements finalOrbitElements totalTime
           (lit 0) feasibility).

(** [{ ...r, strategy: s, fuelEfficiency: e }] *)
Definition withStrategy (r : LOIResult.t num) (s : Strategy) (e : num)
  : LOIResult.t num :=
  LOIResult.make s (LOIResult.totalDeltaV r) (LOIResult.captureOrbitDeltaV r)
    (LOIResult.insertionDeltaV r) (LOIResult.captureOrbitElements r)
    (LOIResult.finalOrbitElements r) (LOIResult.totalTime r) e
    (LOIResult.feasibility r).

(** [calculateOptimalLOI(v_infinity, r_target, r_periapsis?)]: an omitted
    [r_periapsis] is [None]; [r_periapsis || default] also falls back to
    the default when the number given is falsy. *)
Definition calculateOptimalLOI (v_infinity r_target : num)
    (r_periapsis : option num) : Eff num (LOIResult.t num) :=
  throwIf ((v_infinity <=? lit 0) || (v_infinity >? lit 5)) VInfinityOutOfRange ;;
  throwIf ((r_target <=? CONSTANTS.MOON_RADIUS)
           || (r_target >? CONSTANTS.MOON_RADIUS * lit 10))
          TargetRadiusOutOfRange ;;
  let directResult := calculateDirectInsertion v_infinity r_target in
  captureOrbitResult <-
    calculateCaptureOrbitInsertion v_infinity r_target
      (match r_periapsis with
       | Some r => if truthy r then r else getOptimalPeriapsis v_infinity r_target
       | None => getOptimalPeriapsis v_infinity r_target
       end) ;;
  if LOIResult.totalDeltaV captureOrbitResult <? LOIResult.totalDeltaV directResult
  then
    ret (withStrategy captureOrbitResult capture_orbit
           ((LOIResult.totalDeltaV directResult
             / LOIResult.totalDeltaV captureOrbitResult - lit 1) * lit 100))
  else
    ret (withStrategy directResult direct (lit 100)).

End Methods.
End LunarOrbitInsertion.

(** *** FuelOptimizer *)

Module FuelOptimizer.
Section Methods.
Context {num : Type} {N : JSNumber num} {M : JSMath num}.
Local Open Scope js_scope.
Local Open Scope eff_scope.

Definition calculateGravityLossFactor (burnTime twRatio : num) : num :=
  if burnTime <? lit 60 then lit 0
  else
    let timeFactor := Math_min (burnTime / lit 600) (lit 1) in
    let thrustFactor := Math_max (lit 0.1) (lit 1 / twRatio) in
    lit 0.05 * timeFactor * thrustFactor.

Definition calculateVariableMassBurnTime (m0 mf twRatio ve g0 : num) : num :=
  let F := twRatio * m0 * g0 in
  let massFlowRate := F / ve in
  let propellantMass := m0 - mf in
  let burnTimeConstantThrust := propellantMass / massFlowRate in
  if twRatio >? lit 0.5 then
    let characteristicVelocity := ve * Math_log (m0 / mf) in
    let gravityLossFactor :=
      calculateGravityLossFactor burnTimeConstantThrust twRatio in
    let correctedBurnTime := burnTimeConstantThrust * (lit 1 + gravityLossFactor) in
    Math_min correctedBurnTime (burnTimeConstantThrust * lit 1.2)
  else
    burnTimeConstantThrust.

(** [calculate(deltaV, dryMass = SPACECRAFT_DRY_MASS,
    specificImpulse = SPECIFIC_IMPULSE, thrustToWeightRatio = 0.3)] *)
Definition calculate (deltaV dryMass specificImpulse thrustToWeightRatio : num)
  : Eff num (FuelOptimization.t num) :=
  UnitConverter.validateDeltaV deltaV ;;
  throwIf ((dryMass <=? lit 0) || negb (isFinite dryMass)) DryMassInvalid ;;
  throwIf ((specificImpulse <=? lit 0) || negb (isFinite specificImpulse))
          SpecificImpulseInvalid ;;
  throwIf ((thrustToWeightRatio <=? lit 0) || (thrustToWeightRatio >? lit 2))
          ThrustToWeightInvalid ;;
  deltaV_ms <- UnitConverter.kmPerSecToMPerSec deltaV ;;
  let g0 := lit 9.80665 in
  let ve := specificImpulse * g0 in
  let massRatio := Math_exp (deltaV_ms / ve) in
  throwIf (negb (isFinite massRatio) || (massRatio <? lit 1)) InvalidMassRatio ;;
  let totalMass := dryMass * massRatio in
  let propellantMass := totalMass - dryMass in
  throwIf (propellantMass <? lit 0) NegativePropellantMass ;;
  (if propellantMass >? dryMass * lit 10
   then warn (HighPropellantRatio (toFixed 2 (propellantMass / dryMass)))
   else ret tt) ;;
  let burnTime :=
    calculateVariableMassBurnTime totalMass dryMass thrustToWeightRatio ve g0 in
  throwIf (burnTime <? lit 0) NegativeBurnTime ;;
  (if burnTime >? UnitConverter.SECONDS_PER_HOUR
   then hours <- UnitConverter.secondsToHours burnTime ;;
        warn (LongBurnTime (toFixed 1 hours))
   else ret tt) ;;
  ret (FuelOptimization.make (toFixed 4 massRatio) (toFixed 1 propellantMass)
         specificImpulse (toFixed 1 burnTime)).

End Methods.
End FuelOptimizer.

(** *** The helper functions of the engine *)

Section Helpers.
Context {num : Type} {N : JSNumber num} {M : JSMath num}.
Local Open Scope js_scope.

(** The values [i] takes in [for (let i = 0; i <= n; i++)]. *)
Definition upFrom0 (n : num) : list nat :=
  if lit 0 <=? n then seq 0 (S (toCount n)) else [].

(** The values [i] takes in [for (let i = 1; i <= n; i++)]. *)
Definition upFrom1 (n : num) : list nat := seq 1 (toCount n).

Definition generatePatchedConicTrajectoryPoints
    (r_earth r_moon lunarSOI numPoints : num) : list (Vector3D.t num) :=
  let totalDistance := r_moon in
  let soiTransition := r_moon - lunarSOI in
  let earthPhasePoints := Math_floor (numPoints * lit 0.8) in
  let lunarPhasePoints := numPoints - earthPhasePoints in
  let a_earth := (r_earth + soiTransition) / lit 2 in
  let e_earth := Math_abs (soiTransition - r_earth) / (r_earth + soiTransition) in
  let earthPhase :=
    map (fun i : nat =>
           let theta := (Math_PI * ofNat i) / earthPhasePoints in
           let r := a_earth * (lit 1 - e_earth * e_earth)
                    / (lit 1 + e_earth * Math_cos theta) in
           Vector3D.new (r * Math_cos theta) (r * Math_sin theta) (lit 0))
        (upFrom0 earthPhasePoints) in
  let r_moon_parking := CONSTANTS.MOON_RADIUS + CONSTANTS.MOON_ORBIT_ALT in
  let lunarPhase :=
    map (fun i : nat =>
           let t := ofNat i / lunarPhasePoints in
           let r := soiTransition + t * (r_moon - soiTransition) in
           let curvature :=
             Math_sin (t * Math_PI / lit 2) * lunarSOI * lit 0.1 in
           Vector3D.new r curvature (lit 0))
        (upFrom1 lunarPhasePoints) in
  earthPhase ++ lunarPhase.

Definition generateLambertTrajectoryPoints
    (r1 r2 : Vector3D.t num) (solution : LambertResult.t num) (numPoints : num)
  : list (Vector3D.t num) :=
  map (fun i : nat =>
         let t := ofNat i / numPoints in
         Vector3D.add (Vector3D.multiply r1 (lit 1 - t)) (Vector3D.multiply r2 t))
      (upFrom0 numPoints).

Definition assessTrajectoryRisks (type : string) (deltaV flightTime : num)
  : list string :=
  (if deltaV >? lit 4
   then ["High delta-V requirement increases fuel load and complexity"%string]
   else [])
  ++ (if flightTime >? lit 120
      then ["Extended flight time increases exposure to space weather"%string]
      else [])
  ++ (if String.eqb type "lambert"
      then ["Lambert solution may require precise timing and navigation"%string]
      else [])
  ++ ["Monitor solar activity during launch window"%string;
      "Debris avoidance maneuvers may be required"%string].

Definition calculateEfficiency (deltaV r1 r2 : num) : num :=
  let mu := CONSTANTS.MU_EARTH in
  let v1_circular := Math_sqrt (mu / r1) in
  let v2_circular := Math_sqrt (mu / r2) in
  let a_transfer := (r1 + r2) / lit 2 in
  let v1_transfer := Math_sqrt (mu * (lit 2 / r1 - lit 1 / a_transfer)) in
  let v2_transfer := Math_sqrt (mu * (lit 2 / r2 - lit 1 / a_transfer)) in
  let theoretical_min :=
    Math_abs (v1_transfer - v1_circular) + Math_abs (v2_circular - v2_transfer) in
  Math_max (lit 0) (Math_min (lit 100) ((theoretical_min / deltaV) * lit 100)).

End Helpers.

(** *** TrajectoryEngine *)

Module Calculations.
Section Fields.
Variable num : Type.
Record t : Type := make {
  hohmannTransfer : option (HohmannResult.t num);
  lambertSolution : option (LambertResult.t num);
  fuelOptimization : FuelOptimization.t num
}.
End Fields.
End Calculations.

Module TrajectoryResult.
Section Fields.
Variable num : Type.
Record t : Type := make {
  totalDeltaV : num;
  flightTime : num;
  fuelMass : num;
  efficiency : num;
  trajectoryPoints : list (Vector3D.t num);
  orbitalElements : list (OrbitalElements.t num);
  riskFactors : list string;
  calculations : Calculations.t num
}.
End Fields.
End TrajectoryResult.

(** A [Date], known to the engine through [getTime()] alone. *)
Record Date (num : Type) : Type := { getTime : num }.

Module TrajectoryEngine.
Section Methods.
Context {num : Type} {N : JSNumber num} {M : JSMath num}.
Local Open Scope js_scope.
Local Open Scope eff_scope.

Definition validTypes : list string :=
  ["hohmann"; "lambert"; "bi_elliptic"]%string.

(** What the two transfer branches leave in the [let] variables. *)
Record Branch : Type := branch {
  b_totalDeltaV : num;
  b_flightTime : num;
  b_hohmannResult : option (HohmannResult.t num);
  b_lambertResult : option (LambertResult.t num);
  b_trajectoryPoints : list (Vector3D.t num);
  b_orbitalElements : list (OrbitalElements.t num)
}.

(** [generateEarthMoonTrajectory(launchDate, transferType = 'hohmann',
    flightTime = 72)]; [None] is a [launchDate] that is null or undefined. *)
Definition generateEarthMoonTrajectory (launchDate : option (Date num))
    (transferType : string) (flightTime : num)
  : Eff num (TrajectoryResult.t num) :=
  throwIf (match launchDate with
           | None => true
           | Some d => isNaN (getTime d)
           end) InvalidLaunchDate ;;
  UnitConverter.validateMissionTime flightTime ;;
  throwIf (negb (existsb (String.eqb transferType) validTypes))
          (InvalidTransferType transferType) ;;
  let r_earth := CONSTANTS.EARTH_RADIUS + CONSTANTS.EARTH_LOW_ORBIT in
  let r_moon := CONSTANTS.MOON_RADIUS + CONSTANTS.MOON_ORBIT_ALT in
  b <- (if String.eqb transferType "hohmann" then
          patchedConicTransfer <- HohmannTransfer.calculateEarthMoonTransfer ;;
          ret (branch
                 (EarthMoonTransfer.totalDeltaV patchedConicTransfer)
                 (EarthMoonTransfer.totalTime patchedConicTransfer)
                 (Some (EarthMoonTransfer.earthEscape patchedConicTransfer))
                 None
                 (generatePatchedConicTrajectoryPoints r_earth
                    CONSTANTS.EARTH_MOON_DISTANCE
                    (EarthMoonTransfer.lunarSOI patchedConicTransfer)
                    (lit 100))
                 [HohmannResult.transferOrbit
                    (EarthMoonTransfer.earthEscape patchedConicTransfer);
                  HohmannResult.transferOrbit
                    (EarthMoonTransfer.lunarCapture patchedConicTransfer)])
        else if String.eqb transferType "lambert" then
          let r1 := Vector3D.new r_earth (lit 0) (lit 0) in
          let r2 := Vector3D.new CONSTANTS.EARTH_MOON_DISTANCE (lit 0) (lit 0) in
          flightTimeSeconds <- UnitConverter.hoursToSeconds flightTime ;;
          lambertResult <-
            LambertSolver.solve r1 r2 flightTimeSeconds CONSTANTS.MU_EARTH
              true (lit 0) ;;
          let v_earth_circular := Math_sqrt (CONSTANTS.MU_EARTH / r_earth) in
          let deltaV_departure :=
            Vector3D.magnitude (LambertResult.velocityDeparture lambertResult)
            - v_earth_circular in
          let v_moon_circular := Math_sqrt (CONSTANTS.MU_MOON / r_moon) in
          let deltaV_arrival :=
            Vector3D.magnitude (LambertResult.velocityArrival lambertResult)
            - v_moon_circular in
          ret (branch
                 (Math_abs deltaV_departure + Math_abs deltaV_arrival)
                 flightTime None (Some lambertResult)
                 (generateLambertTrajectoryPoints r1 r2 lambertResult (lit 100))
                 [])
        else
          ret (branch (lit 0) flightTime None None [] [])) ;;
  let totalDeltaV := b_totalDeltaV b in
  let flightTime := b_flightTime b in
  fuelOptimization <-
    FuelOptimizer.calculate totalDeltaV CONSTANTS.SPACECRAFT_DRY_MASS
      CONSTANTS.SPECIFIC_IMPULSE (lit 0.3) ;;
  let riskFactors := assessTrajectoryRisks transferType totalDeltaV flightTime in
  let efficiency :=
    calculateEfficiency totalDeltaV r_earth CONSTANTS.EARTH_MOON_DISTANCE in
  ret (TrajectoryResult.make
         (Math_round (totalDeltaV * lit 1000) / lit 1000)
         (Math_round (flightTime * lit 10) / lit 10)
         (Math_round (FuelOptimization.propellantMass fuelOptimization))
         (Math_round (efficiency * lit 10) / lit 10)
         (b_trajectoryPoints b)
         (b_orbitalElements b)
         riskFactors
         (Calculations.make (b_hohmannResult b) (b_lambertResult b)
            fuelOptimization)).

End Methods.
End TrajectoryEngine.

(** *** generateHohmannTrajectoryPoints *)

Section HohmannPoints.
Context {num : Type} {N : JSNumber num} {M : JSMath num}.
Local Open Scope js_scope.

Definition generateHohmannTrajectoryPoints (r1 r2 numPoints : num)
  : list (Vector3D.t num) :=
  let a := (r1 + r2) / lit 2 in
  let e := Math_abs (r2 - r1) / (r1 + r2) in
  map (fun i : nat =>
         let theta := (Math_PI * ofNat i) / numPoints in
         let r := a * (lit 1 - e * e) / (lit 1 + e * Math_cos theta) in
         Vector3D.new (r * Math_cos theta) (r * Math_sin theta) (lit 0))
      (upFrom0 numPoints).

End HohmannPoints.

(** *** NumericalValidator *)

Module NumericalValidator.

Inductive CentralBody : Type := earth | moon.

Section Outcomes.
Variable num : Type.

(** One constructor for each [throw new Error(...)] of the validator, with
    what its message interpolates. *)
Inductive Error : Type :=
| SemiMajorAxisBelowSurface (a : num) (body : CentralBody) (radius : num)
| SemiMajorAxisTooLarge (a : num) (body : CentralBody)
| InvalidEccentricity (e : num)
| PeriapsisBelowSurface (periapsis : num) (body : CentralBody)
| InvalidInclination (i : num)
| InvalidRightAscension (raan : num)
| InvalidArgOfPerigee (w : num)
| InvalidTrueAnomaly (nu : num)
| PositionBelowSurface (r : num) (body : CentralBody)
| VelocityExceedsLimits (v limit : num)
| VelocityTooLow (v : num)
| NonFinitePositionOrVelocity
| TransferRadiiBelowSurface (body : CentralBody) (radius : num)
| TransferTimeNotPositive
| TransferTimeTooLong (t : num)
| TransferTimeTooShort (t : num)
| FailedToConverge (maxIterations error : num)
| NonFiniteError
| NegativeDeltaV (context : string) (deltaV : num)
| ExcessiveDeltaV (context : string) (deltaV : num)
| NonFiniteDeltaV (context : string)
| EnergyConservationViolated (context : string) (energyError tolerance : num)
| NonFiniteEnergy (context : string).

(** One constructor for each [console.warn] of the validator. *)
Inductive Warning : Type :=
| LargeConvergenceError (error tolerance : num)
| HighDeltaV (context : string) (deltaV : num).

(** A validator returns nothing: a run either throws ([Some e]) or gets to
    its end ([None]), and leaves the console with what it appended. *)
Definition Check : Type := list Warning -> option Error * list Warning.

Definition pass : Check := fun c => (None, c).

(** [if (b) { throw e; }] *)
Definition rejectIf (b : bool) (e : Error) : Check :=
  fun c => if b then (Some e, c) else (None, c).

(** [if (b) { console.warn(w); }] *)
Definition warnIf (b : bool) (w : Warning) : Check :=
  fun c => if b then (None, c ++ [w]) else (None, c).

(** One statement after the other. *)
Definition andThen (m k : Check) : Check :=
  fun c => match m c with
           | (None, c') => k c'
           | (Some e, c') => (Some e, c')
           end.

End Outcomes.

Arguments pass {num} _.
Arguments rejectIf {num} b e _.
Arguments warnIf {num} b w _.
Arguments andThen {num} m k _.
Arguments NonFinitePositionOrVelocity {num}.
Arguments TransferTimeNotPositive {num}.
Arguments NonFiniteError {num}.
Arguments NonFiniteDeltaV {num} context.
Arguments NonFiniteEnergy {num} context.

Section Methods.
Context {num : Type} {N : JSNumber num} {M : JSMath num}.
Local Open Scope js_scope.

Local Infix ">>" := andThen (at level 61, right associativity).

Definition muOf (centralBody : CentralBody) : num :=
  match centralBody with
  | earth => CONSTANTS.MU_EARTH
  | moon => CONSTANTS.MU_MOON
  end.

Definition radiusOf (centralBody : CentralBody) : num :=
  match centralBody with
  | earth => CONSTANTS.EARTH_RADIUS
  | moon => CONSTANTS.MOON_RADIUS
  end.

Definition validateOrbitalElements (elements : OrbitalElements.t num)
    (centralBody : CentralBody) : Check num :=
  let mu := muOf centralBody in
  let radius := radiusOf centralBody in
  let a := OrbitalElements.semiMajorAxis elements in
  let e := OrbitalElements.eccentricity elements in
  rejectIf (a <=? radius) (SemiMajorAxisBelowSurface a centralBody radius) >>
  rejectIf (a >? radius * lit 1000) (SemiMajorAxisTooLarge a centralBody) >>
  rejectIf ((e <? lit 0) || (e >=? lit 1)) (InvalidEccentricity e) >>
  let periapsis := a * (lit 1 - e) in
  rejectIf (periapsis <=? radius) (PeriapsisBelowSurface periapsis centralBody) >>
  let i := OrbitalElements.inclination elements in
  rejectIf ((i <? lit 0) || (i >? lit 180)) (InvalidInclination i) >>
  let raan := OrbitalElements.rightAscension elements in
  rejectIf ((raan <? lit 0) || (raan >=? lit 360)) (InvalidRightAscension raan) >>
  let w := OrbitalElements.argOfPerigee elements in
  rejectIf ((w <? lit 0) || (w >=? lit 360)) (InvalidArgOfPerigee w) >>
  let nu := OrbitalElements.trueAnomaly elements in
  rejectIf ((nu <? lit 0) || (nu >=? lit 360)) (InvalidTrueAnomaly nu).

(** [a ** 2] is [Math.pow(a, 2)]. *)
Definition validateVelocityVector (position velocity : Vector3D.t num)
    (centralBody : CentralBody) : Check num :=
  let mu := muOf centralBody in
  let radius := radiusOf centralBody in
  let r := Math_sqrt (Math_pow (Vector3D.x position) (lit 2)
                      + Math_pow (Vector3D.y position) (lit 2)
                      + Math_pow (Vector3D.z position) (lit 2)) in
  let v := Math_sqrt (Math_pow (Vector3D.x velocity) (lit 2)
                      + Math_pow (Vector3D.y velocity) (lit 2)
                      + Math_pow (Vector3D.z velocity) (lit 2)) in
  rejectIf (r <=? radius) (PositionBelowSurface r centralBody) >>
  let v_escape := Math_sqrt (lit 2 * mu / r) in
  rejectIf (v >? v_escape * lit 1.5)
           (VelocityExceedsLimits v (v_escape * lit 1.5)) >>
  let v_circular := Math_sqrt (mu / r) in
  rejectIf (v <? v_circular * lit 0.1) (VelocityTooLow v) >>
  rejectIf (negb (isFinite r) || negb (isFinite v)) NonFinitePositionOrVelocity.

Definition validateTransferParameters (r1 r2 transferTime : num)
    (centralBody : CentralBody) : Check num :=
  let mu := muOf centralBody in
  let radius := radiusOf centralBody in
  rejectIf ((r1 <=? radius) || (r2 <=? radius))
           (TransferRadiiBelowSurface centralBody radius) >>
  rejectIf (transferTime <=? lit 0) TransferTimeNotPositive >>
  let max_period :=
    lit 2 * Math_PI
    * Math_sqrt (Math_pow (Math_max r1 r2 * lit 10) (lit 3) / mu) in
  rejectIf (transferTime >? max_period) (TransferTimeTooLong transferTime) >>
  let min_period :=
    lit 2 * Math_PI
    * Math_sqrt (Math_pow ((r1 + r2) / lit 2) (lit 3) / mu) in
  rejectIf (transferTime <? min_period / lit 4) (TransferTimeTooShort transferTime).

(** [validateConvergence(iterations, error, maxIterations = 100,
    tolerance = 1e-12)] *)
Definition validateConvergence (iterations error maxIterations tolerance : num)
  : Check num :=
  rejectIf (iterations >=? maxIterations) (FailedToConverge maxIterations error) >>
  warnIf (error >? tolerance * lit 1000) (LargeConvergenceError error tolerance) >>
  rejectIf (negb (isFinite error)) NonFiniteError.

Definition validateDeltaV (deltaV : num) (context : string) : Check num :=
  rejectIf (deltaV <? lit 0) (NegativeDeltaV context deltaV) >>
  rejectIf (deltaV >? lit 15) (ExcessiveDeltaV context deltaV) >>
  warnIf (deltaV >? lit 10) (HighDeltaV context deltaV) >>
  rejectIf (negb (isFinite deltaV)) (NonFiniteDeltaV context).

(** [validateEnergyConservation(energy1, energy2, tolerance = 1e-6,
    context = 'calculation')] *)
Definition validateEnergyConservation (energy1 energy2 tolerance : num)
    (context : string) : Check num :=
  let energyError := Math_abs (energy1 - energy2) / Math_abs energy1 in
  rejectIf (energyError >? tolerance)
           (EnergyConservationViolated context energyError tolerance) >>
  rejectIf (negb (isFinite energy1) || negb (isFinite energy2))
           (NonFiniteEnergy context).

End Methods.
End NumericalValidator.

(** * Properties *)

(** ** Vocabulary *)

(** A call fails when it throws, and succeeds when it returns, whatever the
    console holds when it starts. *)
Definition fails {num A : Type} (m : Eff num A) : Prop :=
  forall c, exists e, outcome m c = Throw e.

Definition succeeds {num A : Type} (m : Eff num A) : Prop :=
  forall c, exists a, outcome m c = Return a.

Definition failsWith {num A : Type} (m : Eff num A) (e : Error num) : Prop :=
  forall c, outcome m c = Throw e.

Definition returns {num A : Type} (m : Eff num A) (a : A) : Prop :=
  forall c, outcome m c = Return a.

(** The error of a time of flight below the minimum-energy time. *)
Definition isTimeTooShort {num : Type} (e : Error num) : Prop :=
  match e with TimeOfFlightTooShort _ _ => True | _ => False end.

(** The Euclidean norm of a triple of reals. *)
Definition norm3 (a b c : R) : R := sqrt (a * a + b * b + c * c).

(** A vector with real components. *)
Definition vec (a b c : R) : Vector3D.t Exact.xreal :=
  Vector3D.new (Exact.Fin a) (Exact.Fin b) (Exact.Fin c).

(** The two errors [calculateOptimalLOI] throws for parameters outside the
    supported envelope. *)
Definition isOutOfRange {num : Type} (e : Error num) : Prop :=
  e = VInfinityOutOfRange \/ e = TargetRadiusOutOfRange.

(** A vector all of whose components are finite numbers, and a vector with a
    [NaN] among its components. *)
Definition allFinite {num : Type} {N : JSNumber num} (v : Vector3D.t num) : bool :=
  isFinite (Vector3D.x v) && isFinite (Vector3D.y v) && isFinite (Vector3D.z v).

Definition anyNaN {num : Type} {N : JSNumber num} (v : Vector3D.t num) : bool :=
  isNaN (Vector3D.x v) || isNaN (Vector3D.y v) || isNaN (Vector3D.z v).

Definition anyFinite {num : Type} {N : JSNumber num} (v : Vector3D.t num) : bool :=
  isFinite (Vector3D.x v) || isFinite (Vector3D.y v) || isFinite (Vector3D.z v).

(** A double that is a number (a zero, a finite value or an infinity) of the
    given sign, and a double that is a number and not negative. *)
Definition signed (s : bool) (x : IEEE754.binary64) : Prop :=
  match x with
  | S754_zero s' | S754_infinity s' | S754_finite s' _ _ => s' = s
  | S754_nan => False
  end.

Definition nonneg (x : IEEE754.binary64) : Prop :=
  match x with
  | S754_zero _ => True
  | S754_infinity s | S754_finite s _ _ => s = false
  | S754_nan => False
  end.

(** The errors [LambertSolver.solve] can end with; the did-not-converge
    error carries the iteration cap of the solver. *)
Definition isLambertError {num : Type} (e : Error num) : Prop :=
  match e with
  | InvalidPositionVectors | TimeOfFlightNotPositive | MuNotPositive
  | DegenerateLambert | ImpossibleGeometry | TimeOfFlightTooShort _ _
  | MultiRevNotImplemented | DerivativeTooSmall | InvalidSemiMajorAxis
  | SingularSolution => True
  | DidNotConverge n => n = 30%nat
  | _ => False
  end.

(** The speed at radius [r] on the ellipse that joins the radii [r] and
    [r'], by the vis-viva equation, as [HohmannTransfer.calculate] writes it. *)
Definition transferSpeed (mu r r' : R) : R :=
  sqrt (mu * (2 / 1 / r - 1 / 1 / ((r + r') / (2 / 1)))).

(** The radius (km) and the gravitational parameter (km^3/s^2) the
    validator looks up for a central body. *)
Definition bodyRadius (body : NumericalValidator.CentralBody) : R :=
  match body with
  | NumericalValidator.earth => 6371
  | NumericalValidator.moon => 1737
  end.

Definition bodyMu (body : NumericalValidator.CentralBody) : R :=
  match body with
  | NumericalValidator.earth => 398600.4418
  | NumericalValidator.moon => 4902.7779
  end.

(** ** The effect layer *)

Section EffectLemmas.
Context {num : Type}.

Lemma outcome_ret (A : Type) (a : A) (c : Console num) :
  outcome (ret a) c = Return a.
Proof. reflexivity. Qed.

Lemma outcome_throw (A : Type) (e : Error num) (c : Console num) :
  outcome (throw e : Eff num A) c = Throw e.
Proof. reflexivity. Qed.

Lemma bind_throwIf_true (A : Type) (e : Error num) (k : unit -> Eff num A) c :
  bind (throwIf true e) k c = (Throw e, c).
Proof. reflexivity. Qed.

Lemma bind_throwIf_false (A : Type) (e : Error num) (k : unit -> Eff num A) c :
  bind (throwIf false e) k c = k tt c.
Proof. reflexivity. Qed.

Lemma bind_ret (A B : Type) (a : A) (k : A -> Eff num B) c :
  bind (ret a) k c = k a c.
Proof. reflexivity. Qed.

Lemma fails_not_succeeds (A : Type) (m : Eff num A) :
  fails m -> ~ succeeds m.
Proof.
  intros Hf Hs. destruct (Hf []) as [e He]. destruct (Hs []) as [a Ha].
  rewrite He in Ha. discriminate.
Qed.

End EffectLemmas.

(** ** Comparisons of exact numbers *)

Section ExactComparisons.
Import Exact.
Local Open Scope R_scope.

Lemma Rltb_true a b : a < b -> Rltb a b = true.
Proof. intro H. unfold Rltb. destruct (Rlt_dec a b); [reflexivity | contradiction]. Qed.

Lemma Rltb_false a b : ~ a < b -> Rltb a b = false.
Proof. intro H. unfold Rltb. destruct (Rlt_dec a b); [contradiction | reflexivity]. Qed.

Lemma Rltb_iff a b : Rltb a b = true <-> a < b.
Proof. unfold Rltb. destruct (Rlt_dec a b); split; intros; try discriminate; tauto. Qed.

Lemma Rleb_true a b : a <= b -> Rleb a b = true.
Proof. intro H. unfold Rleb. destruct (Rle_dec a b); [reflexivity | contradiction]. Qed.

Lemma Rleb_false a b : ~ a <= b -> Rleb a b = false.
Proof. intro H. unfold Rleb. destruct (Rle_dec a b); [contradiction | reflexivity]. Qed.

Lemma Rleb_iff a b : Rleb a b = true <-> a <= b.
Proof. unfold Rleb. destruct (Rle_dec a b); split; intros; try discriminate; tauto. Qed.

Lemma Reqb_true a b : a = b -> Reqb a b = true.
Proof. intro H. unfold Reqb. destruct (Req_dec_T a b); [reflexivity | contradiction]. Qed.

Lemma Reqb_false a b : a <> b -> Reqb a b = false.
Proof. intro H. unfold Reqb. destruct (Req_dec_T a b); [contradiction | reflexivity]. Qed.

End ExactComparisons.

(** ** UnitConverter.validateMissionTime *)

Section MissionTime.
Context {num : Type} {N : JSNumber num}.
Local Open Scope js_scope.

Lemma validateMissionTime_run (hours : num) (c : Console num) :
  UnitConverter.validateMissionTime hours c =
  (if hours <? lit 0.1 then Throw MissionTimeTooShort
   else if hours >? lit 8760 then Throw MissionTimeTooLong
   else Return tt, c).
Proof.
  unfold UnitConverter.validateMissionTime.
  destruct (hours <? lit 0.1); [reflexivity |].
  rewrite bind_throwIf_false.
  destruct (hours >? lit 8760); reflexivity.
Qed.

Lemma validateMissionTime_fails (hours : num) :
  fails (UnitConverter.validateMissionTime hours)
  <-> (hours <? lit 0.1) = true \/ (hours >? lit 8760) = true.
Proof.
  unfold fails, outcome. split.
  - intros H. destruct (H []) as [e He].
    rewrite validateMissionTime_run in He. simpl in He.
    destruct (hours <? lit 0.1); [now left |].
    destruct (hours >? lit 8760); [now right | discriminate].
  - intros H c. rewrite validateMissionTime_run. simpl.
    destruct (hours <? lit 0.1); [eauto |].
    destruct (hours >? lit 8760); [eauto |].
    destruct H; discriminate.
Qed.

Lemma validateMissionTime_succeeds (hours : num) :
  succeeds (UnitConverter.validateMissionTime hours)
  <-> (hours <? lit 0.1) = false /\ (hours >? lit 8760) = false.
Proof.
  unfold succeeds, outcome. split.
  - intros H. destruct (H []) as [e He].
    rewrite validateMissionTime_run in He. simpl in He.
    destruct (hours <? lit 0.1); [discriminate |].
    destruct (hours >? lit 8760); [discriminate | now split].
  - intros [H1 H2] c. rewrite validateMissionTime_run, H1, H2. simpl. eauto.
Qed.

End MissionTime.

(** C6.  [UnitConverter.validateMissionTime(hours)] fails exactly when
    [hours < 0.1] or [hours > 8760]: in every number system (first part),
    and so for every real number of hours (second part); on IEEE doubles
    the calls at 0.05 and 8761 fail and the calls at 0.1 and 8760 succeed. *)
Theorem validateMissionTime_bounds :
  (forall (num : Type) (N : JSNumber num) (hours : num),
      fails (UnitConverter.validateMissionTime hours)
      <-> (hours <? lit 0.1)%js = true \/ (hours >? lit 8760)%js = true)
  /\ (forall hours : R,
         fails (UnitConverter.validateMissionTime (Exact.Fin hours))
         <-> (hours < 0.1 \/ hours > 8760)%R)
  /\ fails (UnitConverter.validateMissionTime (lit 0.05 : IEEE754.binary64))
  /\ succeeds (UnitConverter.validateMissionTime (lit 0.1 : IEEE754.binary64))
  /\ succeeds (UnitConverter.validateMissionTime (lit 8760 : IEEE754.binary64))
  /\ fails (UnitConverter.validateMissionTime (lit 8761 : IEEE754.binary64)).
Proof.
  split; [| split; [| repeat split]].
  - intros. apply validateMissionTime_fails.
  - intros hours. rewrite validateMissionTime_fails. cbn.
    rewrite !Rltb_iff. lra.
  - apply validateMissionTime_fails. left. vm_compute. reflexivity.
  - apply validateMissionTime_succeeds. split; vm_compute; reflexivity.
  - apply validateMissionTime_succeeds. split; vm_compute; reflexivity.
  - apply validateMissionTime_fails. right. vm_compute. reflexivity.
Qed.

(** ** IzzoSolver.solveForX: the shape of the loop *)

Section HouseholderShape.
Context {num : Type} {N : JSNumber num} {M : JSMath num}.
Local Open Scope js_scope.

(** The only error a pass of the loop throws is the small-derivative one. *)
Lemma householderStep_throws lambda T tol x c e c' :
  IzzoSolver.householderStep lambda T tol x c = (Throw e, c') ->
  e = DerivativeTooSmall /\ c' = c.
Proof.
  unfold IzzoSolver.householderStep.
  destruct (Math_abs _ <? tol); [discriminate |].
  match goal with |- context [throwIf ?b _] => destruct b end.
  - rewrite bind_throwIf_true. intros H. inversion H. auto.
  - rewrite bind_throwIf_false. discriminate.
Qed.

(** A pass leaves the console as it found it. *)
Lemma householderStep_console lambda T tol x c r c' :
  IzzoSolver.householderStep lambda T tol x c = (r, c') -> c' = c.
Proof.
  unfold IzzoSolver.householderStep.
  destruct (Math_abs _ <? tol); [intros H; inversion H; reflexivity |].
  match goal with |- context [throwIf ?b _] => destruct b end.
  - rewrite bind_throwIf_true. intros H. inversion H. reflexivity.
  - rewrite bind_throwIf_false. intros H. inversion H. reflexivity.
Qed.

Lemma householderLoop_S lambda T tol k x iterations c :
  IzzoSolver.householderLoop lambda T tol (S k) x iterations c =
  match IzzoSolver.householderStep lambda T tol x c with
  | (Return None, c') => (Return (x, iterations, true), c')
  | (Return (Some (_, x')), c') =>
      IzzoSolver.householderLoop lambda T tol k x' (S iterations) c'
  | (Throw e, c') => (Throw e, c')
  end.
Proof.
  simpl. unfold bind.
  destruct (IzzoSolver.householderStep lambda T tol x c) as [[[[d x'] |] | e] c'];
    reflexivity.
Qed.

(** The loop stops by itself: it makes at most [remaining] passes, and it
    ends in one of three ways. *)
Lemma householderLoop_ends lambda T tol remaining :
  forall x iterations c,
    (exists x' n, (n <= remaining)%nat /\
       IzzoSolver.householderLoop lambda T tol remaining x iterations c
       = (Return (x', (iterations + n)%nat, true), c)
       /\ IzzoSolver.householderStep lambda T tol x' c = (Return None, c))
    \/ (exists x',
       IzzoSolver.householderLoop lambda T tol remaining x iterations c
       = (Return (x', (iterations + remaining)%nat, false), c))
    \/ IzzoSolver.householderLoop lambda T tol remaining x iterations c
       = (Throw DerivativeTooSmall, c).
Proof.
  induction remaining as [| k IH]; intros x iterations c.
  - right. left. exists x. simpl. rewrite Nat.add_0_r. reflexivity.
  - rewrite householderLoop_S.
    destruct (IzzoSolver.householderStep lambda T tol x c) as [[r | e] c'] eqn:Hs.
    + pose proof (householderStep_console _ _ _ _ _ Hs) as ->.
      destruct r as [[d x'] |].
      * destruct (IH x' (S iterations) c) as [(x'' & n & Hn & Hl & Hc) | [(x'' & Hl) | Hl]].
        -- left. exists x'', (S n). split; [lia |]. split; [| exact Hc].
           rewrite Hl, <- plus_n_Sm. reflexivity.
        -- right. left. exists x''. rewrite Hl, <- plus_n_Sm. reflexivity.
        -- right. right. exact Hl.
      * left. exists x, O. split; [lia |]. split; [| exact Hs].
        rewrite Nat.add_0_r. reflexivity.
    + destruct (householderStep_throws _ _ _ _ _ Hs) as [-> ->].
      right. right. reflexivity.
Qed.

(** [solveForX] returns a root, or throws one of two errors. *)
Lemma solveForX_ends lambda T tol maxIterations c :
  (exists x, IzzoSolver.solveForX lambda T tol maxIterations c = (Return x, c)
             /\ IzzoSolver.householderStep lambda T tol x c = (Return None, c))
  \/ IzzoSolver.solveForX lambda T tol maxIterations c
     = (Throw (DidNotConverge maxIterations), c)
  \/ IzzoSolver.solveForX lambda T tol maxIterations c
     = (Throw DerivativeTooSmall, c).
Proof.
  unfold IzzoSolver.solveForX, bind.
  destruct (householderLoop_ends lambda T tol maxIterations
              (IzzoSolver.initialGuess lambda T) 0 c)
    as [(x' & n & Hn & Hl & Hc) | [(x' & Hl) | Hl]]; rewrite Hl; simpl.
  - left. exists x'. split; [reflexivity | exact Hc].
  - right. left. reflexivity.
  - right. right. reflexivity.
Qed.

(** The pass that breaks out of the loop is the one that found the residual
    below the tolerance. *)
Lemma householderStep_converged lambda T tol x c :
  IzzoSolver.householderStep lambda T tol x c = (Return None, c) <->
  (Math_abs (IzzoSolver.calculateTime x (IzzoSolver.calculateY x lambda) - T) <? tol) = true.
Proof.
  unfold IzzoSolver.householderStep.
  destruct (Math_abs _ <? tol).
  - split; reflexivity.
  - split; [| discriminate].
    match goal with |- context [throwIf ?b _] => destruct b end.
    + rewrite bind_throwIf_true. discriminate.
    + rewrite bind_throwIf_false. discriminate.
Qed.

End HouseholderShape.

(** X1.  [IzzoSolver.solveForX] always ends, after at most [maxIterations]
    passes of its loop and without writing to the console, in one of three
    ways: it returns an [x] whose residual [|calculateTime(x, y(x)) - T|] is
    below the tolerance, it throws the did-not-converge error that carries
    [maxIterations], or it throws the derivative-too-small error. *)
Theorem solveForX_three_endings :
  forall (num : Type) (N : JSNumber num) (M : JSMath num)
         (lambda T tolerance : num) (maxIterations : nat) (c : Console num),
    (exists x,
        IzzoSolver.solveForX lambda T tolerance maxIterations c = (Return x, c)
        /\ (Math_abs (IzzoSolver.calculateTime x (IzzoSolver.calculateY x lambda) - T)
            <? tolerance)%js = true)
    \/ IzzoSolver.solveForX lambda T tolerance maxIterations c
       = (Throw (DidNotConverge maxIterations), c)
    \/ IzzoSolver.solveForX lambda T tolerance maxIterations c
       = (Throw DerivativeTooSmall, c).
Proof.
  intros num N M lambda T tolerance maxIterations c.
  destruct (solveForX_ends lambda T tolerance maxIterations c)
    as [(x & Hx & Hs) | [H | H]].
  - left. exists x. split; [exact Hx |].
    apply householderStep_converged in Hs. exact Hs.
  - right. left. exact H.
  - right. right. exact H.
Qed.

(** ** LambertSolver.solve: the guards *)


Section LambertGuards.
Context {num : Type} {N : JSNumber num} {M : JSMath num}.
Local Open Scope js_scope.

Variables r1 r2 : Vector3D.t num.
Variables timeOfFlight mu : num.
Variable prograde : bool.
Variable multiRevs : num.

Lemma solve_invalid_positions c :
  (Vector3D.magnitude r1 <? lit 1e-6) || (Vector3D.magnitude r2 <? lit 1e-6) = true ->
  LambertSolver.solve r1 r2 timeOfFlight mu prograde multiRevs c
  = (Throw InvalidPositionVectors, c).
Proof. intros H. unfold LambertSolver.solve. rewrite H. reflexivity. Qed.

(** The inputs pass the three guards that come before the chord is looked at. *)
Hypothesis magnitudes_ok :
  (Vector3D.magnitude r1 <? lit 1e-6) || (Vector3D.magnitude r2 <? lit 1e-6) = false.
Hypothesis time_ok : (timeOfFlight <=? lit 0) = false.
Hypothesis mu_ok : (mu <=? lit 0) = false.

Lemma solve_degenerate c :
  (LambertSolver.chord r1 r2 <? lit 1e-6) = true ->
  LambertSolver.solve r1 r2 timeOfFlight mu prograde multiRevs c
  = (Throw DegenerateLambert, c).
Proof.
  intros H. unfold LambertSolver.solve.
  rewrite magnitudes_ok, time_ok, mu_ok, H. reflexivity.
Qed.

(** ... and the chord, the geometry and the revolution count are accepted. *)
Hypothesis chord_ok : (LambertSolver.chord r1 r2 <? lit 1e-6) = false.
Hypothesis lambda_ok :
  (Math_abs (LambertSolver.lambdaParameter r1 r2 prograde) >=? lit 1) = false.
Hypothesis single_revolution : (multiRevs =? lit 0) = true.

Lemma solve_too_short c :
  (LambertSolver.normalizedTime r1 r2 timeOfFlight mu
   <? IzzoSolver.computeMinimumEnergyTime (LambertSolver.lambdaParameter r1 r2 prograde))
  = true ->
  LambertSolver.solve r1 r2 timeOfFlight mu prograde multiRevs c
  = (Throw (TimeOfFlightTooShort
              (IzzoSolver.computeMinimumEnergyTime
                 (LambertSolver.lambdaParameter r1 r2 prograde))
              (LambertSolver.normalizedTime r1 r2 timeOfFlight mu)), c).
Proof.
  intros H. unfold LambertSolver.solve.
  rewrite magnitudes_ok, time_ok, mu_ok, chord_ok, lambda_ok, single_revolution, H.
  reflexivity.
Qed.

(** Once the time of flight is accepted, whatever [solve] still throws comes
    from the root finder or from the recovery of the velocities. *)
Lemma solve_later_errors c e c' :
  (LambertSolver.normalizedTime r1 r2 timeOfFlight mu
   <? IzzoSolver.computeMinimumEnergyTime (LambertSolver.lambdaParameter r1 r2 prograde))
  = false ->
  LambertSolver.solve r1 r2 timeOfFlight mu prograde multiRevs c = (Throw e, c') ->
  e = DidNotConverge LambertSolver.maxIterations \/ e = DerivativeTooSmall
  \/ e = InvalidSemiMajorAxis \/ e = SingularSolution.
Proof.
  intros H. unfold LambertSolver.solve.
  rewrite magnitudes_ok, time_ok, mu_ok, chord_ok, lambda_ok, single_revolution, H.
  rewrite !bind_throwIf_false.
  set (lambda := LambertSolver.lambdaParameter r1 r2 prograde).
  set (T := LambertSolver.normalizedTime r1 r2 timeOfFlight mu).
  unfold bind at 1. unfold bind at 1. cbn [throwIf ret].
  destruct (solveForX_ends lambda T LambertSolver.tolerance LambertSolver.maxIterations c)
    as [(x & Hx & _) | [Hx | Hx]]; rewrite Hx.
  2: { intros E. inversion E. auto. }
  2: { intros E. inversion E. auto. }
  unfold IzzoSolver.calculateLagrangeCoefficients, bind, throwIf, warn, ret, throw.
  repeat match goal with
         | |- context [if ?b then _ else _] => destruct b
         end;
    intros E; inversion E; auto.
Qed.

Lemma solve_too_short_iff :
  (forall c, exists e,
      outcome (LambertSolver.solve r1 r2 timeOfFlight mu prograde multiRevs) c = Throw e
      /\ isTimeTooShort e)
  <-> (LambertSolver.normalizedTime r1 r2 timeOfFlight mu
       <? IzzoSolver.computeMinimumEnergyTime (LambertSolver.lambdaParameter r1 r2 prograde))
      = true.
Proof.
  split.
  - intros H. destruct (H []) as (e & He & Hk).
    destruct (_ <? IzzoSolver.computeMinimumEnergyTime _) eqn:Hlt; [reflexivity |].
    exfalso. unfold outcome in He.
    destruct (LambertSolver.solve r1 r2 timeOfFlight mu prograde multiRevs [])
      as [o c'] eqn:Hs.
    simpl in He. subst o.
    destruct (solve_later_errors _ Hlt Hs) as [-> | [-> | [-> | ->]]]; exact Hk.
  - intros H c. eexists. unfold outcome. rewrite (solve_too_short c H).
    split; [reflexivity | exact I].
Qed.

End LambertGuards.

(** ** Vectors of exact numbers *)

Section ExactVectors.
Import Exact.
Local Open Scope R_scope.

Lemma magnitude_vec a b c : Vector3D.magnitude (vec a b c) = Fin (norm3 a b c).
Proof.
  unfold Vector3D.magnitude, vec, norm3. cbn.
  rewrite Rltb_false by nra. reflexivity.
Qed.

Lemma chord_vec a1 b1 c1 a2 b2 c2 :
  LambertSolver.chord (vec a1 b1 c1) (vec a2 b2 c2)
  = Fin (norm3 (a2 - a1) (b2 - b1) (c2 - c1)).
Proof. unfold LambertSolver.chord. apply magnitude_vec. Qed.

Lemma norm3_0 : norm3 0 0 0 = 0.
Proof.
  unfold norm3. replace (0 * 0 + 0 * 0 + 0 * 0) with 0 by ring. apply sqrt_0.
Qed.

Lemma norm3_axis a : 0 <= a -> norm3 a 0 0 = a.
Proof.
  intros H. unfold norm3. replace (a * a + 0 * 0 + 0 * 0) with (a * a) by ring.
  apply sqrt_square. exact H.
Qed.

End ExactVectors.

(** ** C8: coincident positions *)

(** C8, as the code has it.  [LambertSolver.solve] fails with the
    degenerate-geometry error whenever the chord |r2 - r1| is below 1e-6 km,
    provided the inputs got past the guards that come first: both position
    magnitudes at least 1e-6 km, a positive time of flight and a positive
    gravitational parameter.  First for every number system, in the words of
    the guards; then for real inputs; last the call
    solve((7000,0,0), (7000,0,0), 3600, 398600.4418) on IEEE doubles, with
    any implementation of [Math]. *)
Theorem solve_degenerate_geometry :
  (forall (num : Type) (N : JSNumber num) (M : JSMath num)
          (r1 r2 : Vector3D.t num) (timeOfFlight mu : num)
          (prograde : bool) (multiRevs : num),
      ((Vector3D.magnitude r1 <? lit 1e-6) || (Vector3D.magnitude r2 <? lit 1e-6))%js = false ->
      (timeOfFlight <=? lit 0)%js = false ->
      (mu <=? lit 0)%js = false ->
      (LambertSolver.chord r1 r2 <? lit 1e-6)%js = true ->
      failsWith (LambertSolver.solve r1 r2 timeOfFlight mu prograde multiRevs)
                DegenerateLambert)
  /\ (forall (a1 b1 c1 a2 b2 c2 timeOfFlight mu : R)
             (prograde : bool) (multiRevs : Exact.xreal),
         (1e-6 <= norm3 a1 b1 c1)%R -> (1e-6 <= norm3 a2 b2 c2)%R ->
         (0 < timeOfFlight)%R -> (0 < mu)%R ->
         (norm3 (a2 - a1) (b2 - b1) (c2 - c1) < 1e-6)%R ->
         failsWith (LambertSolver.solve (vec a1 b1 c1) (vec a2 b2 c2)
                      (Exact.Fin timeOfFlight) (Exact.Fin mu) prograde multiRevs)
                   DegenerateLambert)
  /\ (forall M : JSMath IEEE754.binary64,
         failsWith (LambertSolver.solve (num := IEEE754.binary64)
                      (Vector3D.new (lit 7000) (lit 0) (lit 0))
                      (Vector3D.new (lit 7000) (lit 0) (lit 0))
                      (lit 3600) (lit 398600.4418) true (lit 0))
                   DegenerateLambert).
Proof.
  split; [| split].
  - intros num N M r1 r2 timeOfFlight mu prograde multiRevs Hm Ht Hmu Hc c.
    unfold outcome. rewrite solve_degenerate; auto.
  - intros a1 b1 c1 a2 b2 c2 timeOfFlight mu prograde multiRevs H1 H2 Ht Hmu Hc c.
    unfold outcome. rewrite solve_degenerate; auto.
    + rewrite !magnitude_vec. cbn. rewrite !Rltb_false by lra. reflexivity.
    + cbn. apply Rleb_false. lra.
    + cbn. apply Rleb_false. lra.
    + rewrite chord_vec. cbn. apply Rltb_true. lra.
  - intros M c. unfold outcome.
    rewrite solve_degenerate; [reflexivity | vm_compute; reflexivity ..].
Qed.

(** A run of the theorem above: two real positions one nanometre apart. *)
Lemma solve_degenerate_geometry_witness :
  (1e-6 <= norm3 7000 0 0)%R /\ (0 < 3600)%R /\ (0 < 398600.4418)%R
  /\ (norm3 (7000 - 7000) (0 - 0) (0 - 0) < 1e-6)%R
  /\ failsWith (LambertSolver.solve (vec 7000 0 0) (vec 7000 0 0)
                  (Exact.Fin 3600) (Exact.Fin 398600.4418) true (Exact.Fin 0))
               DegenerateLambert.
Proof.
  assert (H1 : (1e-6 <= norm3 7000 0 0)%R) by (rewrite norm3_axis; lra).
  assert (H2 : (norm3 (7000 - 7000) (0 - 0) (0 - 0) < 1e-6)%R).
  { replace (7000 - 7000)%R with 0%R by ring. replace (0 - 0)%R with 0%R by ring.
    rewrite norm3_0. lra. }
  split; [exact H1 |]. split; [lra |]. split; [lra |]. split; [exact H2 |].
  apply (proj1 (proj2 solve_degenerate_geometry)); auto; lra.
Defined.

(** C8 as stated fails where a guard that comes first fires: with both
    positions at the origin the chord is 0, the time of flight and the
    gravitational parameter are positive, and the call fails with the
    invalid-position error, on exact numbers and on IEEE doubles alike. *)
Lemma solve_origin_not_degenerate :
  ((LambertSolver.chord (vec 0 0 0) (vec 0 0 0) <? lit 1e-6)%js = true
   /\ outcome (LambertSolver.solve (vec 0 0 0) (vec 0 0 0)
                 (lit 3600) (lit 398600.4418) true (lit 0)) []
      = Throw InvalidPositionVectors)
  /\ (forall M : JSMath IEEE754.binary64,
        (LambertSolver.chord (Vector3D.new (lit 0) (lit 0) (lit 0))
                             (Vector3D.new (lit 0) (lit 0) (lit 0 : IEEE754.binary64))
         <? lit 1e-6)%js = true
        /\ outcome (LambertSolver.solve (num := IEEE754.binary64)
                      (Vector3D.new (lit 0) (lit 0) (lit 0))
                      (Vector3D.new (lit 0) (lit 0) (lit 0))
                      (lit 3600) (lit 398600.4418) true (lit 0)) []
           = Throw InvalidPositionVectors).
Proof.
  split; [split |].
  - rewrite chord_vec. cbn. apply Rltb_true.
    replace (0 - 0)%R with 0%R by ring. rewrite norm3_0. lra.
  - unfold outcome. rewrite solve_invalid_positions; [reflexivity |].
    rewrite !magnitude_vec, norm3_0. cbn. rewrite Rltb_true by lra. reflexivity.
  - intros M. split; [vm_compute; reflexivity |].
    unfold outcome. rewrite solve_invalid_positions; [reflexivity |].
    vm_compute. reflexivity.
Qed.

(** ** Evaluating exact numbers *)

Section ExactEvaluation.
Import Exact.
Local Open Scope R_scope.

Lemma lit_Fin q : lit q = Fin (IZR (Qnum q) / IZR (Zpos (Qden q))).
Proof. reflexivity. Qed.

Lemma add_Fin a b : add (Fin a) (Fin b) = Fin (a + b).
Proof. reflexivity. Qed.

Lemma sub_Fin a b : sub (Fin a) (Fin b) = Fin (a - b).
Proof. reflexivity. Qed.

Lemma mul_Fin a b : mul (Fin a) (Fin b) = Fin (a * b).
Proof. reflexivity. Qed.

Lemma neg_Fin a : neg (Fin a) = Fin (- a).
Proof. reflexivity. Qed.

Lemma div_Fin a b : b <> 0 -> div (Fin a) (Fin b) = Fin (a / b).
Proof. intros H. cbn. rewrite (Reqb_false H). reflexivity. Qed.

Lemma div_Fin_0 a : 0 < a -> div (Fin a) (Fin 0) = PInf.
Proof.
  intros H. cbn. rewrite Reqb_true by reflexivity.
  rewrite Reqb_false by lra. rewrite Rltb_true by lra. reflexivity.
Qed.

Lemma div_0_0 : div (Fin 0) (Fin 0) = XNaN.
Proof. cbn. rewrite !Reqb_true by reflexivity. reflexivity. Qed.

Lemma sqrt_Fin a : 0 <= a -> Math_sqrt (Fin a) = Fin (sqrt a).
Proof. intros H. cbn. rewrite Rltb_false by lra. reflexivity. Qed.

Lemma abs_Fin a : Math_abs (Fin a) = Fin (Rabs a).
Proof. reflexivity. Qed.

Lemma ltb_Fin a b : ltb (Fin a) (Fin b) = Rltb a b.
Proof. reflexivity. Qed.

Lemma leb_Fin a b : leb (Fin a) (Fin b) = Rleb a b.
Proof. reflexivity. Qed.

Lemma eqb_Fin a b : eqb (Fin a) (Fin b) = Reqb a b.
Proof. reflexivity. Qed.

Lemma isFinite_Fin a : isFinite (Fin a) = true.
Proof. reflexivity. Qed.

Lemma isNaN_Fin a : isNaN (Fin a) = false.
Proof. reflexivity. Qed.

Lemma max_Fin a b : Math_max (Fin a) (Fin b) = Fin (Rmax a b).
Proof.
  cbn. unfold Rmax, Rltb.
  destruct (Rlt_dec a b), (Rle_dec a b);
    try reflexivity; try (exfalso; lra); f_equal; lra.
Qed.

Lemma min_Fin a b : Math_min (Fin a) (Fin b) = Fin (Rmin a b).
Proof.
  cbn. unfold Rmin, Rltb.
  destruct (Rlt_dec b a), (Rle_dec a b);
    try reflexivity; try (exfalso; lra); f_equal; lra.
Qed.

Lemma pow_Fin a e : 0 < a -> e <> 0 -> Math_pow (Fin a) (Fin e) = Fin (Rpower a e).
Proof.
  intros Ha He. cbn. rewrite (Reqb_false He), Rltb_true by exact Ha. reflexivity.
Qed.

Lemma exp_Fin a : Math_exp (Fin a) = Fin (exp a).
Proof. reflexivity. Qed.

Lemma log_Fin a : 0 < a -> Math_log (Fin a) = Fin (ln a).
Proof.
  intros H. cbn. rewrite Rltb_false by lra. rewrite Reqb_false by lra. reflexivity.
Qed.

Lemma cos_Fin a : Math_cos (Fin a) = Fin (cos a).
Proof. reflexivity. Qed.

Lemma sin_Fin a : Math_sin (Fin a) = Fin (sin a).
Proof. reflexivity. Qed.

Lemma PI_Fin : Math_PI = Fin PI.
Proof. reflexivity. Qed.

Lemma round_Fin a : Math_round (Fin a) = Fin (IZR (Int_part (a + / 2))).
Proof. reflexivity. Qed.

Lemma asin_Fin_above a : 1 < a -> Math_asin (Fin a) = XNaN.
Proof. intros H. cbn. rewrite Rltb_true by exact H. reflexivity. Qed.

End ExactEvaluation.

(** Arithmetic on finite exact numbers, pushed inside [Fin]. *)
Ltac fin_arith :=
  repeat first
    [ rewrite lit_Fin | rewrite add_Fin | rewrite sub_Fin | rewrite mul_Fin
    | rewrite neg_Fin | rewrite abs_Fin | rewrite ltb_Fin | rewrite leb_Fin
    | rewrite eqb_Fin | rewrite max_Fin | rewrite min_Fin | rewrite exp_Fin
    | rewrite cos_Fin | rewrite sin_Fin | rewrite PI_Fin | rewrite isFinite_Fin
    | rewrite isNaN_Fin | rewrite round_Fin ];
  repeat match goal with
         | |- context [Qnum ?q] =>
             let v := eval vm_compute in (Qnum q) in change (Qnum q) with v
         | |- context [Qden ?q] =>
             let v := eval vm_compute in (Qden q) in change (Qden q) with v
         end.

(** ** Positions on opposite sides of the attracting body *)

Section OppositePositions.
Import Exact.
Local Open Scope R_scope.

Lemma norm3_axis_neg a : a <= 0 -> norm3 a 0 0 = - a.
Proof.
  intros H. unfold norm3.
  replace (a * a + 0 * 0 + 0 * 0) with ((- a) * (- a)) by ring.
  apply sqrt_square. lra.
Qed.

Lemma atan2_0_neg a : a < 0 -> Math_atan2 (Fin 0) (Fin a) = Fin PI.
Proof.
  intros H. cbn. rewrite Rltb_false by lra. rewrite Rltb_true by lra.
  rewrite Rleb_true by lra. f_equal.
  replace (0 / a) with 0 by (field; lra). rewrite atan_0. ring.
Qed.

(** Two positions on opposite sides of the attracting body: the transfer
    angle is a half turn and the shape parameter vanishes. *)
Lemma transferAngle_opposite :
  LambertSolver.transferAngle (vec 7000 0 0) (vec (-8000) 0 0) true = Fin PI.
Proof.
  unfold LambertSolver.transferAngle. cbv zeta.
  rewrite !magnitude_vec.
  rewrite norm3_axis by lra. rewrite norm3_axis_neg by lra.
  unfold Vector3D.dot, Vector3D.cross, vec. cbn [Vector3D.x Vector3D.y Vector3D.z].
  fin_arith.
  change (Vector3D.magnitude
            {| Vector3D.x := Fin ?a; Vector3D.y := Fin ?b; Vector3D.z := Fin ?c |})
    with (Vector3D.magnitude (vec a b c)).
  rewrite magnitude_vec.
  replace (0 * 0 - 0 * 0) with 0 by ring.
  replace (0 * -8000 - 7000 * 0) with 0 by ring.
  replace (7000 * 0 - 0 * -8000) with 0 by ring.
  rewrite norm3_0.
  rewrite !div_Fin by lra. fin_arith.
  replace (0 / (7000 * - (-8000))) with 0 by (field; lra).
  replace ((7000 * -8000 + 0 * 0 + 0 * 0) / (7000 * - (-8000))) with (-1)
    by (field; lra).
  replace (Rmin (1 / 1) (-1)) with (-1) by (rewrite Rmin_right; lra).
  replace (Rmax (- (1 / 1)) (-1)) with (-1) by (rewrite Rmax_right; lra).
  rewrite atan2_0_neg by lra.
  fin_arith. pose proof PI_RGT_0. rewrite Rltb_false by lra. reflexivity.
Qed.

Lemma semiperimeter_opposite :
  LambertSolver.semiperimeter (vec 7000 0 0) (vec (-8000) 0 0) = Fin 15000.
Proof.
  unfold LambertSolver.semiperimeter. rewrite chord_vec, !magnitude_vec.
  rewrite norm3_axis by lra. rewrite norm3_axis_neg by lra.
  replace (0 - 0) with 0 by ring. rewrite norm3_axis_neg by lra.
  fin_arith. rewrite div_Fin by lra. f_equal. lra.
Qed.

Lemma lambda_opposite :
  LambertSolver.lambdaParameter (vec 7000 0 0) (vec (-8000) 0 0) true = Fin 0.
Proof.
  unfold LambertSolver.lambdaParameter. cbv zeta.
  rewrite transferAngle_opposite, semiperimeter_opposite, !magnitude_vec.
  rewrite norm3_axis by lra. rewrite norm3_axis_neg by lra.
  fin_arith. rewrite sqrt_Fin by lra. rewrite div_Fin by lra. fin_arith.
  rewrite div_Fin by lra. f_equal.
  replace (PI / (2 / 1)) with (PI / 2) by (field; lra).
  rewrite cos_PI2. field.
Qed.

Lemma computeMinimumEnergyTime_Fin lambda :
  IzzoSolver.computeMinimumEnergyTime (Fin lambda) = Fin ((1 - lambda ^ 3) / 3).
Proof.
  unfold IzzoSolver.computeMinimumEnergyTime. cbv zeta. fin_arith.
  rewrite div_Fin by lra. fin_arith. f_equal. field.
Qed.

End OppositePositions.

(** ** C2: the envelope of calculateOptimalLOI *)

Section LOIGuards.
Context {num : Type} {N : JSNumber num} {M : JSMath num}.
Local Open Scope js_scope.

Lemma secondsToHours_throws seconds c e c' :
  UnitConverter.secondsToHours seconds c = (Throw e, c') ->
  e = TimeNegative \/ e = TimeNotFinite.
Proof.
  unfold UnitConverter.secondsToHours, bind, throwIf, ret, throw.
  repeat match goal with
         | |- context [if ?b then _ else _] => destruct b
         end;
    cbn; intros E; inversion E; auto.
Qed.

Lemma calculateHighEnergyCapture_throws v_infinity r_target r_periapsis c e c' :
  LunarOrbitInsertion.calculateHighEnergyCapture v_infinity r_target r_periapsis c
  = (Throw e, c') ->
  e = TimeNegative \/ e = TimeNotFinite.
Proof.
  unfold LunarOrbitInsertion.calculateHighEnergyCapture. cbv zeta.
  unfold bind at 1.
  destruct (UnitConverter.secondsToHours _ c) as [[h | e0] c0] eqn:Hs.
  - discriminate.
  - intros E. inversion E. subst. eapply secondsToHours_throws. exact Hs.
Qed.

Lemma calculateCaptureOrbitInsertion_throws v_infinity r_target r_periapsis c e c' :
  LunarOrbitInsertion.calculateCaptureOrbitInsertion v_infinity r_target r_periapsis c
  = (Throw e, c') ->
  e = TimeNegative \/ e = TimeNotFinite.
Proof.
  unfold LunarOrbitInsertion.calculateCaptureOrbitInsertion. cbv zeta.
  match goal with |- context [if ?b then _ else _] => destruct b end.
  - apply calculateHighEnergyCapture_throws.
  - unfold bind at 1.
    destruct (UnitConverter.secondsToHours _ c) as [[h | e0] c0] eqn:Hs.
    + discriminate.
    + intros E. inversion E. subst. eapply secondsToHours_throws. exact Hs.
Qed.

(** What [calculateOptimalLOI] does with its two guards. *)
Lemma calculateOptimalLOI_guards v_infinity r_target r_periapsis c :
  (if (v_infinity <=? lit 0) || (v_infinity >? lit 5) then
     LunarOrbitInsertion.calculateOptimalLOI v_infinity r_target r_periapsis c
     = (Throw VInfinityOutOfRange, c)
   else if (r_target <=? CONSTANTS.MOON_RADIUS)
           || (r_target >? CONSTANTS.MOON_RADIUS * lit 10) then
     LunarOrbitInsertion.calculateOptimalLOI v_infinity r_target r_periapsis c
     = (Throw TargetRadiusOutOfRange, c)
   else
     forall e c',
       LunarOrbitInsertion.calculateOptimalLOI v_infinity r_target r_periapsis c
       = (Throw e, c') ->
       e = TimeNegative \/ e = TimeNotFinite).
Proof.
  unfold LunarOrbitInsertion.calculateOptimalLOI. cbv zeta.
  destruct ((v_infinity <=? lit 0) || (v_infinity >? lit 5)); [reflexivity |].
  destruct ((r_target <=? CONSTANTS.MOON_RADIUS)
            || (r_target >? CONSTANTS.MOON_RADIUS * lit 10)); [reflexivity |].
  intros e c'. rewrite !bind_throwIf_false. unfold bind at 1.
  destruct (LunarOrbitInsertion.calculateCaptureOrbitInsertion _ _ _ c)
    as [[r | e0] c0] eqn:Hs.
  - destruct (_ <? _); discriminate.
  - intros E. inversion E. subst.
    eapply calculateCaptureOrbitInsertion_throws. exact Hs.
Qed.

Lemma calculateOptimalLOI_out_of_range v_infinity r_target r_periapsis :
  (forall c, exists e,
      outcome (LunarOrbitInsertion.calculateOptimalLOI v_infinity r_target r_periapsis) c
      = Throw e /\ isOutOfRange e)
  <-> (v_infinity <=? lit 0) || (v_infinity >? lit 5)
      || ((r_target <=? CONSTANTS.MOON_RADIUS)
          || (r_target >? CONSTANTS.MOON_RADIUS * lit 10)) = true.
Proof.
  unfold outcome, isOutOfRange. split.
  - intros H. destruct (H []) as (e & He & Hk).
    pose proof (calculateOptimalLOI_guards v_infinity r_target r_periapsis []) as G.
    destruct ((v_infinity <=? lit 0) || (v_infinity >? lit 5)); [reflexivity |].
    destruct ((r_target <=? CONSTANTS.MOON_RADIUS)
              || (r_target >? CONSTANTS.MOON_RADIUS * lit 10)); [reflexivity |].
    exfalso.
    destruct (LunarOrbitInsertion.calculateOptimalLOI v_infinity r_target r_periapsis [])
      as [o c'] eqn:Hs.
    simpl in He. subst o.
    destruct (G e c' eq_refl) as [-> | ->]; destruct Hk; discriminate.
  - intros H c.
    pose proof (calculateOptimalLOI_guards v_infinity r_target r_periapsis c) as G.
    destruct ((v_infinity <=? lit 0) || (v_infinity >? lit 5)).
    + rewrite G. eexists. split; [reflexivity | left; reflexivity].
    + destruct ((r_target <=? CONSTANTS.MOON_RADIUS)
                || (r_target >? CONSTANTS.MOON_RADIUS * lit 10)).
      * rewrite G. eexists. split; [reflexivity | right; reflexivity].
      * discriminate.
Qed.

End LOIGuards.

(** C2, as the code has it.  [calculateOptimalLOI] fails with an
    out-of-range error exactly when [v_infinity] is outside (0, 5] km/s or
    [r_target] is outside the half-open interval (R_moon, 10 R_moon], with
    R_moon = 1737 km: the radius R_moon itself is rejected.  First for every
    number system, in the words of the guards; then for real arguments;
    last, on IEEE doubles and with any implementation of [Math], the call at
    v_infinity = 6.0, r_target = 2000 and the call at v_infinity = 1,
    r_target = 1737, which both fail. *)
Theorem calculateOptimalLOI_envelope :
  (forall (num : Type) (N : JSNumber num) (M : JSMath num)
          (v_infinity r_target : num) (r_periapsis : option num),
      (forall c, exists e,
          outcome (LunarOrbitInsertion.calculateOptimalLOI v_infinity r_target r_periapsis) c
          = Throw e /\ isOutOfRange e)
      <-> ((v_infinity <=? lit 0) || (v_infinity >? lit 5)
           || ((r_target <=? CONSTANTS.MOON_RADIUS)
               || (r_target >? CONSTANTS.MOON_RADIUS * lit 10)))%js = true)
  /\ (forall (v_infinity r_target : R) (r_periapsis : option Exact.xreal),
         (forall c, exists e,
             outcome (LunarOrbitInsertion.calculateOptimalLOI
                        (Exact.Fin v_infinity) (Exact.Fin r_target) r_periapsis) c
             = Throw e /\ isOutOfRange e)
         <-> (~ (0 < v_infinity <= 5) \/ ~ (1737 < r_target <= 10 * 1737))%R)
  /\ (forall M : JSMath IEEE754.binary64,
         failsWith (LunarOrbitInsertion.calculateOptimalLOI (num := IEEE754.binary64)
                      (lit 6.0) (lit 2000) None)
                   VInfinityOutOfRange)
  /\ (forall M : JSMath IEEE754.binary64,
         failsWith (LunarOrbitInsertion.calculateOptimalLOI (num := IEEE754.binary64)
                      (lit 1) (lit 1737) None)
                   TargetRadiusOutOfRange).
Proof.
  split; [| split; [| split]].
  - intros. apply calculateOptimalLOI_out_of_range.
  - intros v_infinity r_target r_periapsis.
    rewrite calculateOptimalLOI_out_of_range.
    unfold CONSTANTS.MOON_RADIUS. fin_arith.
    rewrite !orb_true_iff, !Rleb_iff, !Rltb_iff. lra.
  - intros M c.
    pose proof (calculateOptimalLOI_guards (num := IEEE754.binary64)
                  (lit 6.0) (lit 2000) None c) as G.
    exact (f_equal fst G).
  - intros M c.
    pose proof (calculateOptimalLOI_guards (num := IEEE754.binary64)
                  (lit 1) (lit 1737) None c) as G.
    exact (f_equal fst G).
Qed.

(** C2 as stated fails at the lower end of the radius interval: with a valid
    [v_infinity] of 1 km/s and [r_target] exactly R_moon = 1737 km the call
    is rejected as out of range, on exact numbers and on IEEE doubles. *)
Lemma calculateOptimalLOI_rejects_moon_radius :
  outcome (LunarOrbitInsertion.calculateOptimalLOI
             (Exact.Fin 1) (Exact.Fin 1737) None) []
  = Throw TargetRadiusOutOfRange
  /\ (forall M : JSMath IEEE754.binary64,
        outcome (LunarOrbitInsertion.calculateOptimalLOI (num := IEEE754.binary64)
                   (lit 1) CONSTANTS.MOON_RADIUS None) []
        = Throw TargetRadiusOutOfRange).
Proof.
  split.
  - pose proof (calculateOptimalLOI_guards (Exact.Fin 1) (Exact.Fin 1737) None []) as G.
    unfold CONSTANTS.MOON_RADIUS in G. revert G. fin_arith.
    rewrite (Rleb_false (a := 1) (b := 0 / 1)) by lra.
    rewrite (Rltb_false (a := 5 / 1) (b := 1)) by lra.
    rewrite (Rleb_true (a := 1737) (b := 1737 / 1)) by lra.
    cbn [orb]. intros G. exact (f_equal fst G).
  - intros M.
    pose proof (calculateOptimalLOI_guards (num := IEEE754.binary64)
                  (lit 1) CONSTANTS.MOON_RADIUS None []) as G.
    exact (f_equal fst G).
Qed.

(** Comparisons of reals that linear arithmetic decides. *)
Ltac decide_cmp :=
  repeat match goal with
         | |- context [Exact.Rltb ?a ?b] =>
             first [ rewrite (@Rltb_true a b) by lra
                   | rewrite (@Rltb_false a b) by lra ]
         | |- context [Exact.Rleb ?a ?b] =>
             first [ rewrite (@Rleb_true a b) by lra
                   | rewrite (@Rleb_false a b) by lra ]
         | |- context [Exact.Reqb ?a ?b] =>
             first [ rewrite (@Reqb_true a b) by lra
                   | rewrite (@Reqb_false a b) by lra ]
         end.

(** One step of a computation whose guards are decided. *)
Ltac eff_step := cbn [bind throwIf ret throw warn orb andb negb].

(** ** C7: the rocket equation at zero delta-V *)

Section ZeroDeltaV.
Import Exact.
Local Open Scope R_scope.

Lemma Int_part_half (z : Z) : Int_part (IZR z + / 2) = z.
Proof.
  unfold Int_part.
  rewrite <- (tech_up (IZR z + / 2) (z + 1)).
  - lia.
  - rewrite plus_IZR. lra.
  - rewrite plus_IZR. lra.
Qed.

(** A natural number below 1e21 prints, with any number of decimals, as
    itself. *)
Lemma toFixed_natural d (z : Z) :
  (0 <= z)%Z -> IZR z < 10 ^ 21 -> toFixed d (Fin (IZR z)) = Fin (IZR z).
Proof.
  intros Hz Hlt. cbn. unfold xtoFixed.
  assert (H0 : 0 <= IZR z) by (apply IZR_le; exact Hz).
  rewrite Rabs_pos_eq by exact H0.
  rewrite Rleb_false by lra. rewrite Rltb_false by lra.
  f_equal.
  assert (Hp : 10 ^ d = IZR (10 ^ Z.of_nat d)).
  { rewrite pow_IZR. reflexivity. }
  rewrite Hp, <- mult_IZR, Int_part_half, mult_IZR.
  field. rewrite <- Hp. apply pow_nonzero. lra.
Qed.

Variables dryMass specificImpulse thrustToWeightRatio : R.
Hypothesis dryMass_pos : 0 < dryMass.
Hypothesis specificImpulse_pos : 0 < specificImpulse.
Hypothesis thrustToWeightRatio_pos : 0 < thrustToWeightRatio.
Hypothesis thrustToWeightRatio_max : thrustToWeightRatio <= 2.

(** With no propellant to burn the burn takes no time, on either branch of
    the thrust-to-weight test. *)
Lemma burnTime_no_propellant ve g0 :
  0 < ve -> 0 < g0 ->
  FuelOptimizer.calculateVariableMassBurnTime
    (Fin dryMass) (Fin dryMass) (Fin thrustToWeightRatio) (Fin ve) (Fin g0) = Fin 0.
Proof.
  intros Hve Hg.
  unfold FuelOptimizer.calculateVariableMassBurnTime. cbv zeta.
  fin_arith.
  assert (HF : 0 < thrustToWeightRatio * dryMass * g0).
  { apply Rmult_lt_0_compat; [apply Rmult_lt_0_compat |]; assumption. }
  assert (Hm : 0 < thrustToWeightRatio * dryMass * g0 / ve).
  { apply Rdiv_lt_0_compat; assumption. }
  rewrite !div_Fin by lra.
  replace ((dryMass - dryMass) / (thrustToWeightRatio * dryMass * g0 / ve)) with 0
    by (field; lra).
  destruct (Rltb (5 / 10) thrustToWeightRatio).
  - unfold FuelOptimizer.calculateGravityLossFactor. fin_arith.
    rewrite Rltb_true by lra. fin_arith.
    f_equal.
    replace (0 * (1 / 1 + 0 / 1)) with 0 by lra.
    replace (0 * (12 / 10)) with 0 by lra.
    apply Rmin_left. lra.
  - reflexivity.
Qed.

Lemma calculate_zero_deltaV c :
  FuelOptimizer.calculate (lit 0) (Fin dryMass) (Fin specificImpulse)
    (Fin thrustToWeightRatio) c
  = (Return (FuelOptimization.make (Fin 1) (Fin 0) (Fin specificImpulse) (Fin 0)), c).
Proof.
  unfold FuelOptimizer.calculate.
  unfold UnitConverter.validateDeltaV, UnitConverter.kmPerSecToMPerSec,
    UnitConverter.MS_PER_KMS, UnitConverter.SECONDS_PER_HOUR.
  cbv zeta. fin_arith. decide_cmp. eff_step.
  assert (Hve : 0 < specificImpulse * (980665 / 100000)) by lra.
  rewrite !div_Fin by lra.
  replace (0 / 1 * (1000 / 1) / (specificImpulse * (980665 / 100000))) with 0
    by (field; lra).
  fin_arith. rewrite exp_0.
  replace (dryMass * 1 - dryMass) with 0 by ring.
  replace (Fin (dryMass * 1)) with (Fin dryMass) by (f_equal; ring).
  rewrite burnTime_no_propellant by lra.
  fin_arith. decide_cmp. eff_step.
  change 1 with (IZR 1). change 0 with (IZR 0).
  rewrite !toFixed_natural; try lia; try lra.
  reflexivity.
Qed.

End ZeroDeltaV.

(** C7.  For every dry mass > 0, specific impulse > 0 and thrust-to-weight
    ratio in (0, 2], [FuelOptimizer.calculate(0, dryMass, specificImpulse,
    thrustToWeightRatio)] returns, with massRatio = 1 and propellantMass = 0
    (and a burn time of 0, and nothing written to the console). *)
Theorem calculate_zero_deltaV_identity :
  forall dryMass specificImpulse thrustToWeightRatio : R,
    (0 < dryMass)%R -> (0 < specificImpulse)%R ->
    (0 < thrustToWeightRatio <= 2)%R ->
    forall c,
      FuelOptimizer.calculate (lit 0) (Exact.Fin dryMass) (Exact.Fin specificImpulse)
        (Exact.Fin thrustToWeightRatio) c
      = (Return {| FuelOptimization.massRatio := Exact.Fin 1;
                   FuelOptimization.propellantMass := Exact.Fin 0;
                   FuelOptimization.specificImpulse := Exact.Fin specificImpulse;
                   FuelOptimization.burnTime := Exact.Fin 0 |}, c).
Proof.
  intros dryMass specificImpulse thrustToWeightRatio Hm Hi [Ht1 Ht2] c.
  apply calculate_zero_deltaV; assumption.
Qed.

(** A run of the theorem above with the defaults of the engine: 5000 kg,
    450 s and a thrust-to-weight ratio of 0.3. *)
Lemma calculate_zero_deltaV_identity_witness :
  (0 < 5000)%R /\ (0 < 450)%R /\ (0 < 0.3 <= 2)%R
  /\ FuelOptimizer.calculate (lit 0) (Exact.Fin 5000) (Exact.Fin 450)
       (Exact.Fin 0.3) []
     = (Return {| FuelOptimization.massRatio := Exact.Fin 1;
                  FuelOptimization.propellantMass := Exact.Fin 0;
                  FuelOptimization.specificImpulse := Exact.Fin 450;
                  FuelOptimization.burnTime := Exact.Fin 0 |}, []).
Proof.
  assert (H1 : (0 < 5000)%R) by lra.
  assert (H2 : (0 < 450)%R) by lra.
  assert (H3 : (0 < 0.3 <= 2)%R) by lra.
  split; [exact H1 |]. split; [exact H2 |]. split; [exact H3 |].
  exact (calculate_zero_deltaV_identity H1 H2 H3 []).
Defined.

(** ** C10: the transfer type that no branch handles *)

(** C10.  With a valid launch date and a flight time in [0.1, 8760] hours,
    [generateEarthMoonTrajectory(launchDate, 'bi_elliptic', flightTime)]
    passes the validation, runs neither transfer branch and returns a
    result with totalDeltaV = 0, no trajectory point, no orbital element,
    fuelMass = 0, and neither a hohmannTransfer nor a lambertSolution
    record. *)
Theorem generate_bi_elliptic_is_empty :
  forall (launchDate : Date Exact.xreal) (flightTime : R) (c : Console Exact.xreal),
    isNaN (getTime launchDate) = false ->
    (0.1 <= flightTime <= 8760)%R ->
    exists r,
      TrajectoryEngine.generateEarthMoonTrajectory
        (Some launchDate) "bi_elliptic" (Exact.Fin flightTime) c
      = (Return r, c)
      /\ TrajectoryResult.totalDeltaV r = Exact.Fin 0
      /\ TrajectoryResult.trajectoryPoints r = []
      /\ TrajectoryResult.orbitalElements r = []
      /\ TrajectoryResult.fuelMass r = Exact.Fin 0
      /\ Calculations.hohmannTransfer (TrajectoryResult.calculations r) = None
      /\ Calculations.lambertSolution (TrajectoryResult.calculations r) = None.
Proof.
  intros d flightTime c Hd Hf.
  unfold TrajectoryEngine.generateEarthMoonTrajectory.
  rewrite Hd. unfold UnitConverter.validateMissionTime.
  cbv zeta. fin_arith. decide_cmp.
  change (existsb (String.eqb "bi_elliptic") TrajectoryEngine.validTypes) with true.
  change (String.eqb "bi_elliptic" "hohmann") with false.
  change (String.eqb "bi_elliptic" "lambert") with false.
  eff_step.
  unfold CONSTANTS.SPACECRAFT_DRY_MASS, CONSTANTS.SPECIFIC_IMPULSE.
  cbn [TrajectoryEngine.b_totalDeltaV].
  fin_arith.
  unfold bind at 1.
  rewrite (@calculate_zero_deltaV (5000 / 1) (450 / 1) (3 / 10)) by lra.
  eff_step.
  eexists. split; [reflexivity |].
  cbn [TrajectoryResult.totalDeltaV TrajectoryResult.trajectoryPoints
       TrajectoryResult.orbitalElements TrajectoryResult.fuelMass
       TrajectoryResult.calculations Calculations.hohmannTransfer
       Calculations.lambertSolution FuelOptimization.propellantMass
       TrajectoryEngine.b_trajectoryPoints TrajectoryEngine.b_orbitalElements
       TrajectoryEngine.b_hohmannResult TrajectoryEngine.b_lambertResult].
  repeat split.
  - rewrite div_Fin by lra. f_equal.
    replace (0 / 1 * (1000 / 1) + / 2)%R with (IZR 0 + / 2)%R by lra.
    rewrite Int_part_half. lra.
  - fin_arith. f_equal.
    replace (0 + / 2)%R with (IZR 0 + / 2)%R by lra.
    rewrite Int_part_half. reflexivity.
Qed.

(** A run of the theorem above: a launch at time 0 and the default 72 hours. *)
Lemma generate_bi_elliptic_is_empty_witness :
  isNaN (getTime {| getTime := Exact.Fin 0 |}) = false
  /\ (0.1 <= 72 <= 8760)%R
  /\ exists r,
      TrajectoryEngine.generateEarthMoonTrajectory
        (Some {| getTime := Exact.Fin 0 |}) "bi_elliptic" (Exact.Fin 72) []
      = (Return r, [])
      /\ TrajectoryResult.totalDeltaV r = Exact.Fin 0
      /\ TrajectoryResult.trajectoryPoints r = []
      /\ TrajectoryResult.orbitalElements r = []
      /\ TrajectoryResult.fuelMass r = Exact.Fin 0
      /\ Calculations.hohmannTransfer (TrajectoryResult.calculations r) = None
      /\ Calculations.lambertSolution (TrajectoryResult.calculations r) = None.
Proof.
  assert (H1 : isNaN (getTime {| getTime := Exact.Fin 0 |}) = false) by reflexivity.
  assert (H2 : (0.1 <= 72 <= 8760)%R) by lra.
  split; [exact H1 |]. split; [exact H2 |].
  exact (generate_bi_elliptic_is_empty {| getTime := Exact.Fin 0 |} [] H1 H2).
Defined.

(** ** C9: finiteness of the vector operations *)

(** *** Rounding on IEEE doubles never turns a number into [NaN] *)

Section Binary64Rounding.
Import IEEE754.

Lemma shr_1_nonneg mrs : (0 <= shr_m mrs)%Z -> (0 <= shr_m (shr_1 mrs))%Z.
Proof.
  destruct mrs as [m r s]. simpl.
  destruct m as [| p | p]; simpl; try lia; destruct p; simpl; lia.
Qed.

Lemma iter_pos_shr_1_nonneg p :
  forall mrs, (0 <= shr_m mrs)%Z -> (0 <= shr_m (iter_pos shr_1 p mrs))%Z.
Proof.
  induction p as [p IH | p IH |]; intros mrs H; simpl.
  - apply IH, IH, shr_1_nonneg, H.
  - apply IH, IH, H.
  - apply shr_1_nonneg, H.
Qed.

Lemma shr_fexp_nonneg m e l :
  (0 <= m)%Z -> (0 <= shr_m (fst (shr_fexp prec emax m e l)))%Z.
Proof.
  intros H. unfold shr_fexp, shr.
  assert (H0 : (0 <= shr_m (shr_record_of_loc m l))%Z).
  { destruct l as [| []]; exact H. }
  destruct (_ - e)%Z; simpl; try exact H0.
  apply iter_pos_shr_1_nonneg, H0.
Qed.

Lemma round_nearest_even_nonneg m l :
  (0 <= m)%Z -> (0 <= round_nearest_even m l)%Z.
Proof.
  intros H. unfold round_nearest_even.
  destruct l as [| []]; try exact H; try lia.
  destruct (Z.even m); lia.
Qed.

Lemma binary_round_aux_signed s m e l :
  (0 <= m)%Z -> signed s (binary_round_aux prec emax s m e l).
Proof.
  intros H. unfold binary_round_aux.
  pose proof (shr_fexp_nonneg e l H) as H1.
  destruct (shr_fexp prec emax m e l) as [mrs' e'].
  simpl in H1.
  pose proof (shr_fexp_nonneg e' loc_Exact
                (round_nearest_even_nonneg (loc_of_shr_record mrs') H1)) as H2.
  destruct (shr_fexp prec emax _ e' loc_Exact) as [mrs'' e''].
  simpl in H2.
  destruct (shr_m mrs'') as [| p | p]; simpl; try reflexivity; try lia.
  destruct (_ <=? _)%Z; reflexivity.
Qed.

Lemma signed_not_nan s x : signed s x -> is_nan x = false.
Proof. destruct x; simpl; intros; try reflexivity; contradiction. Qed.

Lemma signed_false_nonneg x : signed false x -> nonneg x.
Proof. destruct x; simpl; auto. Qed.

Lemma nonneg_not_nan x : nonneg x -> is_nan x = false.
Proof. destruct x; simpl; intros; try reflexivity; contradiction. Qed.

Lemma binary_normalize_not_nan m e :
  is_nan (binary_normalize prec emax m e false) = false.
Proof.
  unfold binary_normalize, binary_round.
  destruct m as [| p | p]; [reflexivity | |];
    destruct (shl_align _ _ _) as [mz ez];
    eapply signed_not_nan, binary_round_aux_signed; lia.
Qed.

Lemma mul_finite_not_nan x y :
  is_finite x = true -> is_finite y = true -> is_nan (SFmul prec emax x y) = false.
Proof.
  destruct x as [sx | sx | | sx mx ex], y as [sy | sy | | sy my ey];
    simpl; intros Hx Hy; try discriminate; try reflexivity.
  eapply signed_not_nan, binary_round_aux_signed. lia.
Qed.

Lemma add_finite_not_nan x y :
  is_finite x = true -> is_finite y = true -> is_nan (SFadd prec emax x y) = false.
Proof.
  destruct x as [sx | sx | | sx mx ex], y as [sy | sy | | sy my ey];
    simpl; intros Hx Hy; try discriminate; try reflexivity.
  - destruct sx, sy; reflexivity.
  - apply binary_normalize_not_nan.
Qed.

Lemma sub_finite_not_nan x y :
  is_finite x = true -> is_finite y = true -> is_nan (SFsub prec emax x y) = false.
Proof.
  destruct x as [sx | sx | | sx mx ex], y as [sy | sy | | sy my ey];
    simpl; intros Hx Hy; try discriminate; try reflexivity.
  - destruct sx, sy; reflexivity.
  - apply binary_normalize_not_nan.
Qed.

Lemma square_nonneg x : is_finite x = true -> nonneg (SFmul prec emax x x).
Proof.
  destruct x as [sx | sx | | sx mx ex]; simpl; intros Hx; try discriminate.
  - exact I.
  - apply signed_false_nonneg.
    replace (xorb sx sx) with false by (destruct sx; reflexivity).
    apply binary_round_aux_signed. lia.
Qed.

Lemma binary_normalize_pos_nonneg (p : positive) e :
  nonneg (binary_normalize prec emax (Zpos p) e false).
Proof.
  unfold binary_normalize, binary_round.
  destruct (shl_align _ _ _) as [mz ez].
  apply signed_false_nonneg, binary_round_aux_signed. lia.
Qed.

Lemma add_nonneg x y : nonneg x -> nonneg y -> nonneg (SFadd prec emax x y).
Proof.
  destruct x as [sx | sx | | sx mx ex], y as [sy | sy | | sy my ey];
    simpl; intros Hx Hy; try contradiction; subst; try exact I; try reflexivity.
  - destruct sx, sy; exact I.
  - apply binary_normalize_pos_nonneg.
Qed.

Lemma sqrt_nonneg x : nonneg x -> nonneg (SFsqrt prec emax x).
Proof.
  destruct x as [sx | sx | | sx mx ex]; simpl; intros Hx; try contradiction; subst.
  - exact I.
  - reflexivity.
  - unfold SFsqrt_core_binary.
    match goal with |- context [Z.sqrtrem ?m] =>
      pose proof (Z.sqrtrem_sqrt m) as Hq; pose proof (Z.sqrt_nonneg m) as Hn;
      destruct (Z.sqrtrem m) as [q r]
    end.
    simpl in Hq. subst q.
    apply signed_false_nonneg, binary_round_aux_signed. exact Hn.
Qed.

Lemma zero_leb_nonneg x : nonneg x -> SFleb (ofQ 0) x = true.
Proof.
  destruct x as [sx | sx | | sx mx ex]; simpl; intros Hx; try contradiction; subst;
    reflexivity.
Qed.

End Binary64Rounding.

(** *** The operations of Vector3D on IEEE doubles *)

Section Binary64Vectors.
Import IEEE754.
Local Open Scope js_scope.

Lemma allFinite_components (v : Vector3D.t binary64) :
  allFinite v = true ->
  is_finite (Vector3D.x v) = true /\ is_finite (Vector3D.y v) = true
  /\ is_finite (Vector3D.z v) = true.
Proof.
  unfold allFinite. cbn [isFinite binary64_number].
  rewrite !andb_true_iff. tauto.
Qed.

Lemma add_never_nan (a b : Vector3D.t binary64) :
  allFinite a = true -> allFinite b = true -> anyNaN (Vector3D.add a b) = false.
Proof.
  intros Ha Hb.
  destruct (allFinite_components a Ha) as (Ha1 & Ha2 & Ha3).
  destruct (allFinite_components b Hb) as (Hb1 & Hb2 & Hb3).
  unfold anyNaN, Vector3D.add. cbn [Vector3D.x Vector3D.y Vector3D.z].
  cbn [isNaN add binary64_number].
  rewrite !add_finite_not_nan by assumption. reflexivity.
Qed.

Lemma subtract_never_nan (a b : Vector3D.t binary64) :
  allFinite a = true -> allFinite b = true -> anyNaN (Vector3D.subtract a b) = false.
Proof.
  intros Ha Hb.
  destruct (allFinite_components a Ha) as (Ha1 & Ha2 & Ha3).
  destruct (allFinite_components b Hb) as (Hb1 & Hb2 & Hb3).
  unfold anyNaN, Vector3D.subtract. cbn [Vector3D.x Vector3D.y Vector3D.z].
  cbn [isNaN sub binary64_number].
  rewrite !sub_finite_not_nan by assumption. reflexivity.
Qed.

Lemma multiply_never_nan (v : Vector3D.t binary64) (scalar : binary64) :
  allFinite v = true -> isFinite scalar = true ->
  anyNaN (Vector3D.multiply v scalar) = false.
Proof.
  intros Hv Hs.
  destruct (allFinite_components v Hv) as (H1 & H2 & H3).
  unfold anyNaN, Vector3D.multiply. cbn [Vector3D.x Vector3D.y Vector3D.z].
  cbn [isNaN mul binary64_number].
  rewrite !mul_finite_not_nan by assumption. reflexivity.
Qed.

Lemma magnitude_nonneg (v : Vector3D.t binary64) :
  allFinite v = true -> nonneg (Vector3D.magnitude v).
Proof.
  intros Hv. destruct (allFinite_components v Hv) as (H1 & H2 & H3).
  unfold Vector3D.magnitude. cbn [Math_sqrt add mul binary64_number].
  apply sqrt_nonneg. repeat apply add_nonneg; apply square_nonneg; assumption.
Qed.

Lemma magnitude_at_least_zero (v : Vector3D.t binary64) :
  allFinite v = true -> (lit 0 <=? Vector3D.magnitude v) = true.
Proof. intros Hv. apply zero_leb_nonneg, magnitude_nonneg, Hv. Qed.

(** A finite number over a zero is an infinity or [NaN]. *)
Lemma div_by_zero_not_finite (a m : binary64) :
  is_finite a = true -> SFeqb m (ofQ 0) = true ->
  is_finite (SFdiv prec emax a m) = false.
Proof.
  destruct a as [sa | sa | | sa ma ea], m as [sm | sm | | sm mm em];
    simpl; intros Ha Hm; try discriminate; try reflexivity;
    destruct sm; discriminate.
Qed.

Lemma normalize_zero_magnitude (v : Vector3D.t binary64) :
  allFinite v = true -> (Vector3D.magnitude v =? lit 0) = true ->
  anyFinite (Vector3D.normalize v) = false.
Proof.
  intros Hv Hm. destruct (allFinite_components v Hv) as (H1 & H2 & H3).
  unfold anyFinite, Vector3D.normalize. cbv zeta.
  cbn [Vector3D.x Vector3D.y Vector3D.z]. cbn [isFinite div binary64_number].
  rewrite !div_by_zero_not_finite by assumption. reflexivity.
Qed.

End Binary64Vectors.

(** *** The operations of Vector3D on exact numbers *)

Section ExactVectorOperations.
Import Exact.
Local Open Scope R_scope.

Lemma norm3_pos a b c : (a, b, c) <> (0, 0, 0) -> 0 < norm3 a b c.
Proof.
  intros H. unfold norm3. apply sqrt_lt_R0.
  destruct (Req_dec_T a 0) as [-> | Ha]; [| nra].
  destruct (Req_dec_T b 0) as [-> | Hb]; [| nra].
  destruct (Req_dec_T c 0) as [-> | Hc]; [| nra].
  contradiction H. reflexivity.
Qed.

Lemma normalize_vec a b c :
  (a, b, c) <> (0, 0, 0) ->
  Vector3D.normalize (vec a b c)
  = vec (a / norm3 a b c) (b / norm3 a b c) (c / norm3 a b c).
Proof.
  intros H. pose proof (norm3_pos H) as Hn.
  unfold Vector3D.normalize. cbv zeta. rewrite magnitude_vec.
  unfold vec. cbn [Vector3D.x Vector3D.y Vector3D.z].
  rewrite !div_Fin by lra. reflexivity.
Qed.

Lemma normalize_vec_0 :
  Vector3D.normalize (vec 0 0 0) = Vector3D.new XNaN XNaN XNaN.
Proof.
  unfold Vector3D.normalize. cbv zeta. rewrite magnitude_vec, norm3_0.
  unfold vec. cbn [Vector3D.x Vector3D.y Vector3D.z].
  rewrite div_0_0. reflexivity.
Qed.

End ExactVectorOperations.

(** C9, as the code has it.  For vectors whose components are all finite
    IEEE doubles: [add], [subtract] and [multiply] by a finite scalar never
    return a [NaN] component (a component is a finite number or, when the
    sum or product overflows, an infinity), and [magnitude()] returns a
    number that is at least 0 (possibly +Infinity); [normalize] of a vector
    whose magnitude is zero returns no finite component.  In exact
    arithmetic, where nothing overflows, [add], [subtract], [multiply] and
    [cross] of finite vectors are finite, [normalize] of a non-zero vector
    is finite, and [normalize] of the zero vector is [NaN] in every
    component. *)
Theorem vector_operations_finiteness :
  (forall a b : Vector3D.t IEEE754.binary64,
      allFinite a = true -> allFinite b = true ->
      anyNaN (Vector3D.add a b) = false /\ anyNaN (Vector3D.subtract a b) = false)
  /\ (forall (v : Vector3D.t IEEE754.binary64) (scalar : IEEE754.binary64),
         allFinite v = true -> isFinite scalar = true ->
         anyNaN (Vector3D.multiply v scalar) = false)
  /\ (forall v : Vector3D.t IEEE754.binary64,
         allFinite v = true -> (lit 0 <=? Vector3D.magnitude v)%js = true)
  /\ (forall v : Vector3D.t IEEE754.binary64,
         allFinite v = true -> (Vector3D.magnitude v =? lit 0)%js = true ->
         anyFinite (Vector3D.normalize v) = false)
  /\ (forall (a1 b1 c1 a2 b2 c2 scalar : R),
         allFinite (Vector3D.add (vec a1 b1 c1) (vec a2 b2 c2)) = true
         /\ allFinite (Vector3D.subtract (vec a1 b1 c1) (vec a2 b2 c2)) = true
         /\ allFinite (Vector3D.multiply (vec a1 b1 c1) (Exact.Fin scalar)) = true
         /\ allFinite (Vector3D.cross (vec a1 b1 c1) (vec a2 b2 c2)) = true
         /\ (lit 0 <=? Vector3D.magnitude (vec a1 b1 c1))%js = true
         /\ ((a1, b1, c1) <> (0, 0, 0)%R ->
             allFinite (Vector3D.normalize (vec a1 b1 c1)) = true))
  /\ Vector3D.normalize (vec 0 0 0)
     = Vector3D.new Exact.XNaN Exact.XNaN Exact.XNaN.
Proof.
  split; [| split; [| split; [| split; [| split]]]].
  - intros a b Ha Hb. split; [apply add_never_nan | apply subtract_never_nan]; assumption.
  - apply multiply_never_nan.
  - apply magnitude_at_least_zero.
  - apply normalize_zero_magnitude.
  - intros a1 b1 c1 a2 b2 c2 scalar.
    repeat split; try reflexivity.
    + rewrite magnitude_vec. fin_arith. apply Rleb_true.
      pose proof (sqrt_pos (a1 * a1 + b1 * b1 + c1 * c1)) as H.
      unfold norm3. lra.
    + intros H. rewrite (normalize_vec H). reflexivity.
  - apply normalize_vec_0.
Qed.

(** A run of the theorem above on IEEE doubles: the vectors (3, 4, 0) and
    (1, 2, 2), the scalar 2, and the zero vector for [normalize]. *)
Lemma vector_operations_finiteness_witness :
  let a : Vector3D.t IEEE754.binary64 := Vector3D.new (lit 3) (lit 4) (lit 0) in
  let b : Vector3D.t IEEE754.binary64 := Vector3D.new (lit 1) (lit 2) (lit 2) in
  let o : Vector3D.t IEEE754.binary64 := Vector3D.new (lit 0) (lit 0) (lit 0) in
  allFinite a = true /\ allFinite b = true /\ allFinite o = true
  /\ isFinite (lit 2 : IEEE754.binary64) = true
  /\ (Vector3D.magnitude o =? lit 0)%js = true
  /\ anyNaN (Vector3D.add a b) = false
  /\ anyNaN (Vector3D.subtract a b) = false
  /\ anyNaN (Vector3D.multiply a (lit 2)) = false
  /\ (lit 0 <=? Vector3D.magnitude a)%js = true
  /\ anyFinite (Vector3D.normalize o) = false.
Proof.
  intros a b o.
  assert (Ha : allFinite a = true) by (vm_compute; reflexivity).
  assert (Hb : allFinite b = true) by (vm_compute; reflexivity).
  assert (Ho : allFinite o = true) by (vm_compute; reflexivity).
  assert (Hs : isFinite (lit 2 : IEEE754.binary64) = true) by (vm_compute; reflexivity).
  assert (Hm : (Vector3D.magnitude o =? lit 0)%js = true) by (vm_compute; reflexivity).
  destruct vector_operations_finiteness as (T1 & T2 & T3 & T4 & _).
  repeat (split; [assumption |]).
  split; [exact (proj1 (T1 a b Ha Hb)) |].
  split; [exact (proj2 (T1 a b Ha Hb)) |].
  split; [exact (T2 a (lit 2) Ha Hs) |].
  split; [exact (T3 a Ha) |].
  exact (T4 o Ho Hm).
Defined.

(** C9 as stated fails on IEEE doubles.  The zero vector is finite and
    [normalize] returns [NaN] in every component for it; the sum of
    (1e308, 0, 0) with itself overflows to +Infinity; and the cross product
    of (0, 1e200, 1e200) with itself has a [NaN] component, the difference
    of two products that both overflowed. *)
Lemma vector_operations_not_finite :
  let o : Vector3D.t IEEE754.binary64 := Vector3D.new (lit 0) (lit 0) (lit 0) in
  let big : Vector3D.t IEEE754.binary64 := Vector3D.new (lit 1e308) (lit 0) (lit 0) in
  let wide : Vector3D.t IEEE754.binary64 := Vector3D.new (lit 0) (lit 1e200) (lit 1e200) in
  (allFinite o = true
   /\ Vector3D.normalize o = Vector3D.new S754_nan S754_nan S754_nan)
  /\ (allFinite big = true
      /\ Vector3D.x (Vector3D.add big big) = S754_infinity false)
  /\ (allFinite wide = true
      /\ Vector3D.x (Vector3D.cross wide wide) = S754_nan).
Proof.
  cbv zeta. repeat split; vm_compute; reflexivity.
Qed.

(** ** C4: the Householder loop and [NaN] *)

(** *** A displacement that is a number is capped and clamped *)

Section HouseholderBounds.
Import Exact.
Local Open Scope R_scope.

Lemma limited_delta_bounded (delta_x : xreal) :
  isNaN delta_x = false ->
  exists d, (Math_sign delta_x * Math_min (Math_abs delta_x) (lit 0.5))%js = Fin d
            /\ Rabs d <= 0.5.
Proof.
  destruct delta_x as [a | | |]; intros H; try discriminate.
  - fin_arith. unfold Math_sign; cbn [xreal_number xsign].
    unfold Rltb. destruct (Rlt_dec 0 a); [| destruct (Rlt_dec a 0)].
    + rewrite mul_Fin. eexists. split; [reflexivity |].
      rewrite Rmult_1_l, Rabs_pos_eq.
      * pose proof (Rmin_r (Rabs a) (5 / 10)). lra.
      * apply Rmin_glb; [apply Rabs_pos | lra].
    + rewrite mul_Fin. eexists. split; [reflexivity |].
      replace (-1 * Rmin (Rabs a) (5 / 10)) with (- Rmin (Rabs a) (5 / 10)) by ring.
      rewrite Rabs_Ropp, Rabs_pos_eq.
      * pose proof (Rmin_r (Rabs a) (5 / 10)). lra.
      * apply Rmin_glb; [apply Rabs_pos | lra].
    + rewrite mul_Fin. eexists. split; [reflexivity |].
      rewrite Rmult_0_l, Rabs_R0. lra.
  - exists (1 * (5 / 10)). split.
    + cbn. reflexivity.
    + rewrite Rabs_pos_eq; lra.
  - exists (-1 * (5 / 10)). split.
    + cbn. reflexivity.
    + rewrite Rabs_left; lra.
Qed.

Lemma clamp_in_range (x : xreal) (d : R) :
  isNaN x = false ->
  exists x', Math_max (- lit 1)%js (Math_min (x + Fin d)%js (lit 50)) = Fin x'
             /\ -1 <= x' <= 50.
Proof.
  destruct x as [a | | |]; intros H; try discriminate.
  - fin_arith. eexists. split; [reflexivity |].
    split.
    + pose proof (Rmax_l (- (1 / 1)) (Rmin (a + d) (50 / 1))). lra.
    + apply Rmax_lub; [lra |]. pose proof (Rmin_r (a + d) (50 / 1)). lra.
  - exists (50 / 1). split; [| lra]. cbn.
    unfold Rltb. destruct (Rlt_dec _ _); [reflexivity | exfalso; lra].
  - exists (- (1 / 1)). split; [| lra]. cbn. reflexivity.
Qed.

(** A pass that starts from a number and applies a displacement that is a
    number moves [x] by at most 0.5 before the clamp and leaves it in
    [-1, 50]. *)
Lemma householderStep_stays_in_range (lambda T tol x d x' : xreal) c c' :
  IzzoSolver.householderStep lambda T tol x c = (Return (Some (d, x')), c') ->
  isNaN x = false -> isNaN d = false ->
  exists rd rx, d = Fin rd /\ x' = Fin rx /\ Rabs rd <= 0.5 /\ -1 <= rx <= 50.
Proof.
  unfold IzzoSolver.householderStep. cbv zeta.
  destruct (_ <? tol)%js; [discriminate |].
  unfold bind, throwIf.
  destruct (_ <? lit 1e-15)%js; [discriminate |].
  cbn [ret].
  set (delta_x := (- _ / _)%js).
  set (limited := (Math_sign delta_x * _)%js).
  set (clamped := Math_max _ _).
  intros H Hx Hd.
  assert (Ed : d = limited) by (injection H; intros; subst; reflexivity).
  assert (Ex : x' = clamped) by (injection H; intros; subst; reflexivity).
  subst d x'. subst clamped.
  assert (Hn : isNaN delta_x = false).
  { subst limited. destruct delta_x; try reflexivity. discriminate Hd. }
  destruct (limited_delta_bounded delta_x Hn) as [rd [Erd Brd]].
  fold limited in Erd. rewrite Erd.
  destruct (clamp_in_range x rd Hx) as [rx [Erx Brx]].
  exists rd, rx. repeat split; try tauto.
Qed.

End HouseholderBounds.

(** *** A [NaN] goes through the cap and the clamp *)

Section NaNPropagation.
Import Exact.
Local Open Scope R_scope.

Lemma add_NaN_l a : add XNaN a = XNaN. Proof. reflexivity. Qed.
Lemma add_NaN_r a : add a XNaN = XNaN. Proof. destruct a; reflexivity. Qed.
Lemma sub_NaN_l a : sub XNaN a = XNaN. Proof. reflexivity. Qed.
Lemma sub_NaN_r a : sub a XNaN = XNaN. Proof. destruct a; reflexivity. Qed.
Lemma mul_NaN_l a : mul XNaN a = XNaN. Proof. reflexivity. Qed.
Lemma mul_NaN_r a : mul a XNaN = XNaN. Proof. destruct a; reflexivity. Qed.
Lemma div_NaN_l a : div XNaN a = XNaN. Proof. reflexivity. Qed.
Lemma div_NaN_r a : div a XNaN = XNaN. Proof. destruct a; reflexivity. Qed.
Lemma neg_NaN : neg XNaN = XNaN. Proof. reflexivity. Qed.
Lemma sqrt_NaN : Math_sqrt XNaN = XNaN. Proof. reflexivity. Qed.
Lemma abs_NaN : Math_abs XNaN = XNaN. Proof. reflexivity. Qed.
Lemma sign_NaN : Math_sign XNaN = XNaN. Proof. reflexivity. Qed.
Lemma ltb_NaN_l a : ltb XNaN a = false. Proof. reflexivity. Qed.
Lemma ltb_NaN_r a : ltb a XNaN = false. Proof. destruct a; reflexivity. Qed.
Lemma leb_NaN_l a : leb XNaN a = false. Proof. reflexivity. Qed.
Lemma leb_NaN_r a : leb a XNaN = false. Proof. destruct a; reflexivity. Qed.
Lemma max_NaN_l a : Math_max XNaN a = XNaN. Proof. reflexivity. Qed.
Lemma max_NaN_r a : Math_max a XNaN = XNaN. Proof. destruct a; reflexivity. Qed.
Lemma min_NaN_l a : Math_min XNaN a = XNaN. Proof. reflexivity. Qed.
Lemma min_NaN_r a : Math_min a XNaN = XNaN. Proof. destruct a; reflexivity. Qed.

End NaNPropagation.

(** Arithmetic with a [NaN] operand. *)
Ltac nan_arith :=
  repeat first
    [ rewrite add_NaN_l | rewrite add_NaN_r | rewrite sub_NaN_l | rewrite sub_NaN_r
    | rewrite mul_NaN_l | rewrite mul_NaN_r | rewrite div_NaN_l | rewrite div_NaN_r
    | rewrite neg_NaN | rewrite sqrt_NaN | rewrite abs_NaN | rewrite sign_NaN
    | rewrite ltb_NaN_l | rewrite ltb_NaN_r | rewrite leb_NaN_l | rewrite leb_NaN_r
    | rewrite max_NaN_l | rewrite max_NaN_r | rewrite min_NaN_l | rewrite min_NaN_r ].

Section HouseholderNaN.
Import Exact.
Local Open Scope R_scope.

Lemma calculateY_NaN lambda : IzzoSolver.calculateY XNaN lambda = XNaN.
Proof. unfold IzzoSolver.calculateY. nan_arith. reflexivity. Qed.

Lemma calculateTime_NaN : IzzoSolver.calculateTime XNaN XNaN = XNaN.
Proof. unfold IzzoSolver.calculateTime. nan_arith. reflexivity. Qed.

Lemma calculateTimeDerivative_NaN : IzzoSolver.calculateTimeDerivative XNaN XNaN = XNaN.
Proof. unfold IzzoSolver.calculateTimeDerivative. nan_arith. reflexivity. Qed.

(** Once [x] is [NaN] a pass of the loop leaves it so. *)
Lemma householderStep_NaN lambda T tol c :
  IzzoSolver.householderStep lambda T tol XNaN c = (Return (Some (XNaN, XNaN)), c).
Proof.
  unfold IzzoSolver.householderStep. cbv zeta.
  rewrite calculateY_NaN, calculateTime_NaN, calculateTimeDerivative_NaN.
  nan_arith. eff_step. nan_arith. reflexivity.
Qed.

Lemma householderLoop_NaN lambda T tol remaining :
  forall iterations c,
    IzzoSolver.householderLoop lambda T tol remaining XNaN iterations c
    = (Return (XNaN, (iterations + remaining)%nat, false), c).
Proof.
  induction remaining as [| k IH]; intros iterations c.
  - simpl. rewrite Nat.add_0_r. reflexivity.
  - rewrite householderLoop_S, householderStep_NaN, IH, <- plus_n_Sm. reflexivity.
Qed.

Lemma sqrt_between lo hi x :
  0 <= lo -> 0 <= hi -> lo * lo < x < hi * hi -> lo < sqrt x < hi.
Proof.
  intros Hlo Hhi [H1 H2]. split.
  - rewrite <- (sqrt_square lo Hlo). apply sqrt_lt_1_alt. nra.
  - rewrite <- (sqrt_square hi Hhi). apply sqrt_lt_1_alt. split; [nra | exact H2].
Qed.

Lemma householderStep_beyond_asin (l t x : R) tol c :
  0 < x -> 0 <= 1 / 1 - l * l * (1 / 1 - x * x) ->
  1 < sqrt x * sqrt (1 / 1 - l * l * (1 / 1 - x * x)) ->
  IzzoSolver.householderStep (Fin l) (Fin t) tol (Fin x) c
  = (Return (Some (XNaN, XNaN)), c).
Proof.
  intros Hx Hq Hs.
  unfold IzzoSolver.householderStep. cbv zeta.
  assert (Hy : IzzoSolver.calculateY (Fin x) (Fin l)
               = Fin (sqrt (1 / 1 - l * l * (1 / 1 - x * x)))).
  { unfold IzzoSolver.calculateY. fin_arith. rewrite sqrt_Fin by lra. reflexivity. }
  rewrite Hy.
  set (y := sqrt (1 / 1 - l * l * (1 / 1 - x * x))) in *.
  assert (Ht : IzzoSolver.calculateTime (Fin x) (Fin y) = XNaN).
  { unfold IzzoSolver.calculateTime. cbv zeta. fin_arith. decide_cmp.
    rewrite sqrt_Fin by lra. fin_arith. decide_cmp.
    rewrite asin_Fin_above by lra. nan_arith. reflexivity. }
  assert (Hd : IzzoSolver.calculateTimeDerivative (Fin x) (Fin y) = XNaN).
  { unfold IzzoSolver.calculateTimeDerivative. cbv zeta. fin_arith. decide_cmp.
    rewrite sqrt_Fin by lra. fin_arith. decide_cmp.
    rewrite asin_Fin_above by lra. nan_arith. reflexivity. }
  rewrite Ht, Hd. nan_arith. eff_step. nan_arith. reflexivity.
Qed.

End HouseholderNaN.

(** C4, at an input that breaks it.  With lambda = 0.99 and T = 0.3 the
    preconditions hold (|lambda| < 1 and T is not below the minimum-energy
    time), the initial guess is about 2.27, and the first pass of the loop
    takes the branch of [calculateTime] that computes [Math.asin] of a number
    above 1, which is [NaN].  The displacement and the new [x] of that pass
    are [NaN]: the displacement is not bounded by 0.5 and [x] is not in
    [-1, 50], since [Math.max] and [Math.min] return [NaN] for a [NaN]
    argument.  [x] stays [NaN], and after 30 passes [solveForX] throws the
    did-not-converge error. *)
Theorem solveForX_nan_escapes_clamp :
  let lambda : Exact.xreal := lit 0.99 in
  let T : Exact.xreal := lit 0.3 in
  (Math_abs lambda >=? lit 1)%js = false
  /\ (T <? IzzoSolver.computeMinimumEnergyTime lambda)%js = false
  /\ IzzoSolver.householderStep lambda T LambertSolver.tolerance
       (IzzoSolver.initialGuess lambda T) []
     = (Return (Some (Exact.XNaN, Exact.XNaN)), [])
  /\ (Math_abs Exact.XNaN <=? lit 0.5)%js = false
  /\ ((- lit 1 <=? Exact.XNaN) && (Exact.XNaN <=? lit 50))%js = false
  /\ IzzoSolver.solveForX lambda T LambertSolver.tolerance LambertSolver.maxIterations []
     = (Throw (DidNotConverge 30), []).
Proof.
  cbv zeta.
  assert (Hg : IzzoSolver.initialGuess (lit 0.99) (lit 0.3 : Exact.xreal)
               = Exact.Fin (5 / 1 * (3 / 10) * (3 / 10) * (3 / 10)
                            / (2 / 1 * (1 / 1 - 99 / 100 * (99 / 100) * (99 / 100))))%R).
  { unfold IzzoSolver.initialGuess. fin_arith. rewrite !div_Fin by lra.
    fin_arith. decide_cmp. reflexivity. }
  assert (Hs : IzzoSolver.householderStep (lit 0.99) (lit 0.3 : Exact.xreal)
                 LambertSolver.tolerance
                 (IzzoSolver.initialGuess (lit 0.99) (lit 0.3)) []
               = (Return (Some (Exact.XNaN, Exact.XNaN)), [])).
  { rewrite Hg. fin_arith.
    set (x0 := (5 / 1 * (3 / 10) * (3 / 10) * (3 / 10)
                / (2 / 1 * (1 / 1 - 99 / 100 * (99 / 100) * (99 / 100))))%R).
    assert (Hx0 : (2.27 < x0 < 2.28)%R) by (unfold x0; lra).
    assert (Hq : (5 < 1 / 1 - 99 / 100 * (99 / 100) * (1 / 1 - x0 * x0) < 6)%R) by nra.
    apply householderStep_beyond_asin; try lra.
    assert (H1 : (1.5 < sqrt x0 < 1.6)%R) by (apply sqrt_between; lra).
    assert (H2 : (2 < sqrt (1 / 1 - 99 / 100 * (99 / 100) * (1 / 1 - x0 * x0)) < 3)%R)
      by (apply sqrt_between; lra).
    nra. }
  split; [| split; [| split; [| split; [| split]]]].
  - fin_arith. apply Rleb_false. rewrite Rabs_pos_eq by lra. lra.
  - rewrite !lit_Fin. rewrite computeMinimumEnergyTime_Fin. fin_arith.
    apply Rltb_false. lra.
  - exact Hs.
  - reflexivity.
  - reflexivity.
  - unfold IzzoSolver.solveForX. cbv zeta. unfold bind at 1.
    change LambertSolver.maxIterations with (S 29).
    rewrite householderLoop_S, Hs, householderLoop_NaN. reflexivity.
Qed.

(** ** C1: the Earth-Moon patched-conic transfer *)

Section EarthMoonTransferValues.
Import Exact.
Local Open Scope R_scope.

Lemma Rpower_two_fifths_between x lo hi :
  0 < x -> 0 <= lo -> 0 <= hi -> lo ^ 5 < x ^ 2 < hi ^ 5 ->
  lo < Rpower x (2 / 5) < hi.
Proof.
  intros Hx Hlo Hhi [H1 H2].
  set (y := Rpower x (2 / 5)).
  assert (Hy : 0 < y) by apply exp_pos.
  assert (Hy5 : y ^ 5 = x ^ 2).
  { rewrite <- (Rpower_pow 5 y Hy), <- (Rpower_pow 2 x Hx). unfold y.
    rewrite Rpower_mult. f_equal. simpl. lra. }
  split.
  - apply Rnot_le_lt. intros Hc.
    assert (y ^ 5 <= lo ^ 5) by (apply pow_incr; lra). lra.
  - apply Rnot_le_lt. intros Hc.
    assert (hi ^ 5 <= y ^ 5) by (apply pow_incr; lra). lra.
Qed.

Lemma getLunarSOI_Fin :
  exists soi, HohmannTransfer.getLunarSOI = Fin soi /\ 66182 < soi < 66186.
Proof.
  unfold HohmannTransfer.getLunarSOI, CONSTANTS.EARTH_MOON_DISTANCE,
    CONSTANTS.MU_MOON, CONSTANTS.MU_EARTH.
  cbv zeta. fin_arith. rewrite !div_Fin by lra.
  rewrite pow_Fin by lra. fin_arith.
  eexists. split; [reflexivity |].
  replace (2 / 1 / (5 / 1)) with (2 / 5) by lra.
  replace (49027779 / 10000 / (3986004418 / 10000)) with (49027779 / 3986004418) by lra.
  assert (H : 0.17217 < Rpower (49027779 / 3986004418) (2 / 5) < 0.17218).
  { apply Rpower_two_fifths_between; lra. }
  lra.
Qed.


Lemma div_between a lo hi y :
  0 < a -> 0 < lo -> lo < y < hi -> a / hi < a / y < a / lo.
Proof.
  intros Ha Hlo [H1 H2]. unfold Rdiv. split.
  - apply Rmult_lt_compat_l; [exact Ha |]. apply Rinv_lt_contravar; [nra | exact H2].
  - apply Rmult_lt_compat_l; [exact Ha |]. apply Rinv_lt_contravar; [nra | exact H1].
Qed.

Lemma ln_nonneg x : 1 <= x -> 0 <= ln x.
Proof.
  intros H. rewrite <- ln_1. destruct H as [H | <-]; [| lra].
  left. apply ln_increasing; lra.
Qed.


Lemma inv_between lo hi y : 0 < lo -> lo < y < hi -> / hi < / y < / lo.
Proof.
  intros Hlo [H1 H2]. split; apply Rinv_lt_contravar; try nra; assumption.
Qed.

Lemma calculateEarthMoonTransfer_run c :
  exists r soi dv,
    HohmannTransfer.calculateEarthMoonTransfer c = (Return r, c)
    /\ EarthMoonTransfer.lunarSOI r = Fin soi /\ 66182 < soi < 66186
    /\ EarthMoonTransfer.totalDeltaV r = Fin dv /\ 2.217 < dv < 2.22
    /\ PatchedConicDetails.energy_balance_check
         (EarthMoonTransfer.patchedConicDetails r) = false.
Proof.
  destruct getLunarSOI_Fin as (soi & Hsoi & Hb).
  unfold HohmannTransfer.calculateEarthMoonTransfer.
  cbv zeta. rewrite Hsoi.
  unfold HohmannTransfer.calculateTransferTime, HohmannTransfer.calculateLunarCaptureTime,
    HohmannTransfer.validateEnergyBalance.
  unfold CONSTANTS.EARTH_MOON_DISTANCE, CONSTANTS.MU_MOON, CONSTANTS.MU_EARTH,
    CONSTANTS.EARTH_RADIUS, CONSTANTS.EARTH_LOW_ORBIT, CONSTANTS.MOON_RADIUS,
    CONSTANTS.MOON_ORBIT_ALT.
  cbv zeta. fin_arith.
  rewrite !Rdiv_1_r.
  rewrite !div_Fin by lra. fin_arith.
  set (r := 384400 - soi) in *.
  assert (Hr : 318214 < r < 318218) by (unfold r; lra).
  assert (I1 : / 636436 < / (2 * r) < / 636428) by (apply inv_between; lra).
  assert (I2 : / 318218 < / r < / 318214) by (apply inv_between; lra).
  assert (I3 : / 66186 < / soi < / 66182) by (apply inv_between; lra).
  assert (I4 : / 68023 < / (soi + (1737 + 100)) < / 68019) by (apply inv_between; lra).
  rewrite !sqrt_Fin by lra. fin_arith.
  set (vsoi := sqrt (2 * (3986004418 / 10000) / r)) in *.
  set (vmoon := sqrt (3986004418 / 10000 / 384400)) in *.
  assert (Hvsoi : 1.5827 < vsoi < 1.5829) by (apply sqrt_between; lra).
  assert (Hvmoon : 1.0183 < vmoon < 1.0184) by (apply sqrt_between; lra).
  rewrite (Rabs_pos_eq (vsoi - vmoon)) by lra.
  assert (Hsq : 0.31843 < (vsoi - vmoon) * (vsoi - vmoon) < 0.31878) by nra.
  rewrite !sqrt_Fin by lra. fin_arith.
  set (ventry := sqrt ((vsoi - vmoon) * (vsoi - vmoon) + 2 * (49027779 / 10000) / soi)) in *.
  set (vec := sqrt (3986004418 / 10000 / (6371 + 200))) in *.
  set (vdep := sqrt (2 * (- (3986004418 / 10000) / (2 * r) + 3986004418 / 10000 / (6371 + 200)))) in *.
  set (vlc := sqrt (49027779 / 10000 / (1737 + 100))) in *.
  set (vpc := sqrt (49027779 / 10000 * (2 / (1737 + 100) - 2 / (soi + (1737 + 100))))) in *.
  assert (Hventry : 0.683 < ventry < 0.6834) by (apply sqrt_between; lra).
  assert (Hvec : 7.788 < vec < 7.789) by (apply sqrt_between; lra).
  assert (Hvdep : 10.957 < vdep < 10.958) by (apply sqrt_between; lra).
  assert (Hvlc : 1.6336 < vlc < 1.6337) by (apply sqrt_between; lra).
  rewrite !pow_Fin by lra.
  rewrite !div_Fin by lra.
  assert (P1 : 0 < Rpower ((6371 + 200 + r) / 2) 3) by apply exp_pos.
  assert (P2 : 0 < Rpower soi 3) by apply exp_pos.
  rewrite !sqrt_Fin by lra. fin_arith.
  rewrite !div_Fin by lra. fin_arith.
  assert (Q1 : 0 <= (vsoi - vmoon) * (vsoi - vmoon) * soi) by nra.
  rewrite log_Fin by lra. fin_arith.
  set (t1 := 2 * PI * sqrt (Rpower ((6371 + 200 + r) / 2) 3 / (3986004418 / 10000)) / 2) in *.
  set (t2 := sqrt (Rpower soi 3 / (49027779 / 10000))
             * ln (1 + (vsoi - vmoon) * (vsoi - vmoon) * soi / (2 * (49027779 / 10000)))) in *.
  assert (Ht1 : 0 <= t1).
  { unfold t1. pose proof PI_RGT_0.
    pose proof (sqrt_pos (Rpower ((6371 + 200 + r) / 2) 3 / (3986004418 / 10000))).
    nra. }
  assert (Ht2 : 0 <= t2).
  { unfold t2. apply Rmult_le_pos; [apply sqrt_pos |]. apply ln_nonneg. lra. }
  assert (E1 : vdep * vdep
               = 2 * (- (3986004418 / 10000) / (2 * r) + 3986004418 / 10000 / (6371 + 200))).
  { unfold vdep. apply sqrt_sqrt. lra. }
  assert (E2 : vsoi * vsoi = 2 * (3986004418 / 10000) / r).
  { unfold vsoi. apply sqrt_sqrt. lra. }
  rewrite E1, E2.
  replace (2 * (- (3986004418 / 10000) / (2 * r) + 3986004418 / 10000 / (6371 + 200)) / 2
           - 3986004418 / 10000 / (6371 + 200)
           - (2 * (3986004418 / 10000) / r / 2 - 3986004418 / 10000 / r))
    with (- (3986004418 / 10000) / (2 * r)) by lra.
  replace (2 * (- (3986004418 / 10000) / (2 * r) + 3986004418 / 10000 / (6371 + 200)) / 2
           - 3986004418 / 10000 / (6371 + 200))
    with (- (3986004418 / 10000) / (2 * r)) by lra.
  rewrite (Rabs_left (- (3986004418 / 10000) / (2 * r))) by lra.
  rewrite div_Fin by lra.
  replace (- (- (3986004418 / 10000) / (2 * r)) / - (- (3986004418 / 10000) / (2 * r)))
    with 1 by (field; lra).
  unfold UnitConverter.secondsToHours, UnitConverter.HOURS_PER_SECOND.
  fin_arith. rewrite !div_Fin by lra. fin_arith. decide_cmp. eff_step.
  do 3 eexists. split; [reflexivity |].
  cbn [EarthMoonTransfer.lunarSOI EarthMoonTransfer.totalDeltaV
       EarthMoonTransfer.patchedConicDetails PatchedConicDetails.energy_balance_check].
  split; [reflexivity |]. split; [exact Hb |]. split; [reflexivity |].
  split; [lra | reflexivity].
Qed.

End EarthMoonTransferValues.

(** C1, evaluated.  With the constants of the repository,
    [calculateEarthMoonTransfer()] returns; its lunarSOI lies between 66182
    and 66186 km (the Hill-sphere value d (mu_Moon / mu_Earth)^(2/5)), its
    totalDeltaV lies between 2.217 and 2.22 km/s, so outside the range from
    3.8 to 4.2 km/s, and energy_balance_check is false: the state at the
    boundary of the sphere of influence is given the escape speed
    sqrt(2 mu / r), whose energy is 0, while the departure state has the
    energy -mu / (2 r) of the transfer orbit, a relative error of 1. *)
Theorem calculateEarthMoonTransfer_values :
  exists r soi dv,
    HohmannTransfer.calculateEarthMoonTransfer [] = (Return r, [])
    /\ EarthMoonTransfer.lunarSOI r = Exact.Fin soi /\ (66182 < soi < 66186)%R
    /\ EarthMoonTransfer.totalDeltaV r = Exact.Fin dv /\ (2.217 < dv < 2.22)%R
    /\ PatchedConicDetails.energy_balance_check
         (EarthMoonTransfer.patchedConicDetails r) = false.
Proof. apply calculateEarthMoonTransfer_run. Qed.

(** * Further properties of the engine *)

(** ** Tools *)

Section IntegerParts.
Local Open Scope R_scope.

Lemma Int_part_IZR (z : Z) : Int_part (IZR z) = z.
Proof.
  unfold Int_part.
  rewrite <- (tech_up (IZR z) (z + 1)).
  - lia.
  - rewrite plus_IZR. lra.
  - rewrite plus_IZR. lra.
Qed.

Lemma Int_part_lower (k : Z) (r : R) : IZR k <= r -> (k <= Int_part r)%Z.
Proof.
  intros H. destruct (base_Int_part r) as [_ H2].
  assert (H3 : IZR k - 1 < IZR (Int_part r)) by lra.
  rewrite <- minus_IZR in H3. apply lt_IZR in H3. lia.
Qed.

End IntegerParts.

Section ExactComparisonsFalse.
Import Exact.
Local Open Scope R_scope.

Lemma Rltb_false_iff a b : Rltb a b = false <-> b <= a.
Proof. unfold Rltb. destruct (Rlt_dec a b); split; intros; try discriminate; lra. Qed.

Lemma Rleb_false_iff a b : Rleb a b = false <-> b < a.
Proof. unfold Rleb. destruct (Rle_dec a b); split; intros; try discriminate; lra. Qed.

Lemma scale_inf_0 (positive : bool) : scale_inf positive 0 = XNaN.
Proof. unfold scale_inf. rewrite (Reqb_true (eq_refl 0)). reflexivity. Qed.

End ExactComparisonsFalse.

(** ** UnitConverter: conversions and validators *)

Section RoundTrips.
Import Exact.
Local Open Scope R_scope.
Local Open Scope eff_scope.

(** X2.  In exact arithmetic the conversions of [UnitConverter] are inverse
    to each other: hours to seconds and back, and seconds to hours and
    back, return a time that is not negative unchanged, and km/s to m/s and
    back (either way round) return every finite velocity unchanged.  On
    IEEE doubles the factor 1/3600 is rounded and the round trip is not
    exact: 57 seconds converted to hours and back is not 57. *)
Theorem conversions_round_trip :
  (forall (x : R) (c : Console xreal),
      0 <= x ->
      (s <- UnitConverter.hoursToSeconds (Fin x) ;; UnitConverter.secondsToHours s) c
      = (Return (Fin x), c)
      /\ (h <- UnitConverter.secondsToHours (Fin x) ;; UnitConverter.hoursToSeconds h) c
         = (Return (Fin x), c))
  /\ (forall (v : R) (c : Console xreal),
         (m <- UnitConverter.kmPerSecToMPerSec (Fin v) ;; UnitConverter.mPerSecToKmPerSec m) c
         = (Return (Fin v), c)
         /\ (k <- UnitConverter.mPerSecToKmPerSec (Fin v) ;; UnitConverter.kmPerSecToMPerSec k) c
            = (Return (Fin v), c))
  /\ (exists back : IEEE754.binary64,
         (h <- UnitConverter.secondsToHours (lit 57 : IEEE754.binary64) ;;
          UnitConverter.hoursToSeconds h) []
         = (Return back, [])
         /\ (back =? lit 57)%js = false).
Proof.
  split; [| split].
  - intros x c Hx.
    unfold UnitConverter.hoursToSeconds, UnitConverter.secondsToHours,
      UnitConverter.SECONDS_PER_HOUR, UnitConverter.HOURS_PER_SECOND.
    split.
    + fin_arith. decide_cmp. eff_step.
      rewrite !div_Fin by lra. fin_arith.
      rewrite Rltb_false by lra. eff_step.
      match goal with
      | |- ret (Fin ?a) _ = (Return (Fin ?b), _) =>
          replace a with b by (field; lra)
      end.
      reflexivity.
    + fin_arith. decide_cmp. eff_step.
      rewrite !div_Fin by lra. fin_arith.
      assert (0 <= x * (1 / 1 / (3600 / 1))) by (apply Rmult_le_pos; lra).
      rewrite Rltb_false by lra. eff_step.
      match goal with
      | |- ret (Fin ?a) _ = (Return (Fin ?b), _) =>
          replace a with b by (field; lra)
      end.
      reflexivity.
  - intros v c.
    unfold UnitConverter.kmPerSecToMPerSec, UnitConverter.mPerSecToKmPerSec,
      UnitConverter.MS_PER_KMS, UnitConverter.KMS_PER_MS.
    split.
    + fin_arith. eff_step. rewrite !div_Fin by lra. fin_arith. eff_step.
      match goal with
      | |- ret (Fin ?a) _ = (Return (Fin ?b), _) =>
          replace a with b by (field; lra)
      end.
      reflexivity.
    + fin_arith. eff_step. rewrite !div_Fin by lra. fin_arith. eff_step.
      match goal with
      | |- ret (Fin ?a) _ = (Return (Fin ?b), _) =>
          replace a with b by (field; lra)
      end.
      reflexivity.
  - eexists. split.
    + vm_compute. reflexivity.
    + vm_compute. reflexivity.
Qed.

(** A mission time of 72 hours, there and back. *)
Lemma conversions_round_trip_witness :
  0 <= 72
  /\ (s <- UnitConverter.hoursToSeconds (Fin 72) ;; UnitConverter.secondsToHours s) []
     = (Return (Fin 72), []).
Proof.
  assert (H : 0 <= 72) by lra.
  split; [exact H |].
  exact (proj1 (proj1 conversions_round_trip 72 [] H)).
Defined.

End RoundTrips.

Section NaNThroughValidators.
Local Open Scope js_scope.

(** X3.  Every comparison with [NaN] is false, so [validateMissionTime]
    and [validateDeltaV] of [UnitConverter] let [NaN] through, on exact
    numbers and on IEEE doubles.  What stops it is a later [isFinite]
    test: [FuelOptimizer.calculate(NaN)] throws 'Velocity must be finite',
    and [generateEarthMoonTrajectory] with the type 'lambert' and a [NaN]
    flight time throws 'Time must be finite'. *)
Theorem validators_accept_NaN :
  (forall c, UnitConverter.validateMissionTime Exact.XNaN c = (Return tt, c))
  /\ (forall c, UnitConverter.validateDeltaV Exact.XNaN c = (Return tt, c))
  /\ (forall c, UnitConverter.validateMissionTime (S754_nan : IEEE754.binary64) c
                = (Return tt, c))
  /\ (forall c, UnitConverter.validateDeltaV (S754_nan : IEEE754.binary64) c
                = (Return tt, c))
  /\ (forall (M : JSMath IEEE754.binary64) c,
         FuelOptimizer.calculate (S754_nan : IEEE754.binary64)
           CONSTANTS.SPACECRAFT_DRY_MASS CONSTANTS.SPECIFIC_IMPULSE (lit 0.3) c
         = (Throw VelocityNotFinite, c))
  /\ (forall (num : Type) (N : JSNumber num) (M : JSMath num)
             (d : Date num) (nan : num) c,
         isNaN (getTime d) = false ->
         (nan <? lit 0.1) = false -> (nan >? lit 8760) = false ->
         (nan <? lit 0) = false -> isFinite nan = false ->
         TrajectoryEngine.generateEarthMoonTrajectory (Some d) "lambert" nan c
         = (Throw TimeNotFinite, c)).
Proof.
  repeat split; try reflexivity.
  intros num N M d nan c Hd H1 H2 H3 H4.
  unfold TrajectoryEngine.generateEarthMoonTrajectory.
    rewrite Hd, bind_throwIf_false.
    unfold bind at 1. rewrite validateMissionTime_run, H1, H2.
    change (existsb (String.eqb "lambert") TrajectoryEngine.validTypes) with true.
    rewrite bind_throwIf_false.
    change (String.eqb "lambert" "hohmann") with false.
    change (String.eqb "lambert" "lambert") with true.
    cbv iota. unfold bind at 1. unfold bind at 1.
    unfold UnitConverter.hoursToSeconds. rewrite H3, H4. reflexivity.
Qed.

(** The [NaN] of exact arithmetic as the flight time of a Lambert transfer. *)
Lemma validators_accept_NaN_witness :
  TrajectoryEngine.generateEarthMoonTrajectory
    (Some {| getTime := Exact.Fin 0 |}) "lambert" Exact.XNaN []
  = (Throw TimeNotFinite, []).
Proof.
  apply (proj2 (proj2 (proj2 (proj2 (proj2 validators_accept_NaN)))));
    reflexivity.
Defined.

End NaNThroughValidators.

(** ** Vector3D in exact arithmetic *)

Section VectorAlgebra.
Import Exact.
Local Open Scope R_scope.

Lemma dot_vec a1 b1 c1 a2 b2 c2 :
  Vector3D.dot (vec a1 b1 c1) (vec a2 b2 c2) = Fin (a1 * a2 + b1 * b2 + c1 * c2).
Proof. reflexivity. Qed.

Lemma cross_vec a1 b1 c1 a2 b2 c2 :
  Vector3D.cross (vec a1 b1 c1) (vec a2 b2 c2)
  = vec (b1 * c2 - c1 * b2) (c1 * a2 - a1 * c2) (a1 * b2 - b1 * a2).
Proof. reflexivity. Qed.

Lemma multiply_vec a b c s :
  Vector3D.multiply (vec a b c) (Fin s) = vec (a * s) (b * s) (c * s).
Proof. reflexivity. Qed.

Lemma norm3_nonneg a b c : 0 <= norm3 a b c.
Proof. unfold norm3. apply sqrt_pos. Qed.

Lemma norm3_square a b c : norm3 a b c * norm3 a b c = a * a + b * b + c * c.
Proof. unfold norm3. apply sqrt_sqrt. nra. Qed.

(** Lagrange's identity: the squares of the dot product and of the magnitude
    of the cross product add up to the product of the squared magnitudes. *)
Lemma lagrange_identity a1 b1 c1 a2 b2 c2 :
  (a1 * a2 + b1 * b2 + c1 * c2) * (a1 * a2 + b1 * b2 + c1 * c2)
  + norm3 (b1 * c2 - c1 * b2) (c1 * a2 - a1 * c2) (a1 * b2 - b1 * a2)
    * norm3 (b1 * c2 - c1 * b2) (c1 * a2 - a1 * c2) (a1 * b2 - b1 * a2)
  = norm3 a1 b1 c1 * norm3 a1 b1 c1 * (norm3 a2 b2 c2 * norm3 a2 b2 c2).
Proof. rewrite !norm3_square. ring. Qed.

(** X4.  In exact arithmetic, for vectors [a] and [b] with finite
    components: [cross(a, b)] is orthogonal to [a] and to [b]; [cross(a, a)]
    is the zero vector; [dot] is symmetric; [magnitude(a)] squared is
    [dot(a, a)]; [magnitude(multiply(a, s))] is [|s| * magnitude(a)];
    [|dot(a, b)| <= magnitude(a) * magnitude(b)]; and [normalize] of a
    vector that is not zero has magnitude 1. *)
Theorem vector_identities (a1 b1 c1 a2 b2 c2 s : R) :
  let a := vec a1 b1 c1 in
  let b := vec a2 b2 c2 in
  Vector3D.dot a (Vector3D.cross a b) = Fin 0
  /\ Vector3D.dot b (Vector3D.cross a b) = Fin 0
  /\ Vector3D.cross a a = vec 0 0 0
  /\ Vector3D.dot a b = Vector3D.dot b a
  /\ (Vector3D.magnitude a * Vector3D.magnitude a)%js = Vector3D.dot a a
  /\ Vector3D.magnitude (Vector3D.multiply a (Fin s))
     = (Math_abs (Fin s) * Vector3D.magnitude a)%js
  /\ ((Math_abs (Vector3D.dot a b) <=? Vector3D.magnitude a * Vector3D.magnitude b)%js
      = true)
  /\ ((a1, b1, c1) <> (0, 0, 0) ->
      Vector3D.magnitude (Vector3D.normalize a) = Fin 1).
Proof.
  cbv zeta.
  rewrite !cross_vec, !dot_vec, !multiply_vec, !magnitude_vec.
  repeat split.
  - f_equal. ring.
  - f_equal. ring.
  - unfold vec. f_equal; f_equal; ring.
  - f_equal. ring.
  - fin_arith. f_equal. apply norm3_square.
  - fin_arith. f_equal. unfold norm3 at 1.
    apply sqrt_lem_1.
    + nra.
    + apply Rmult_le_pos; [apply Rabs_pos | apply norm3_nonneg].
    + replace (Rabs s * norm3 a1 b1 c1 * (Rabs s * norm3 a1 b1 c1))
        with (Rabs s * Rabs s * (norm3 a1 b1 c1 * norm3 a1 b1 c1)) by ring.
      rewrite norm3_square, <- Rabs_mult, Rabs_pos_eq by nra. ring.
  - fin_arith. apply Rleb_true.
    pose proof (lagrange_identity a1 b1 c1 a2 b2 c2) as L.
    pose proof (norm3_nonneg a1 b1 c1) as N1.
    pose proof (norm3_nonneg a2 b2 c2) as N2.
    set (d := a1 * a2 + b1 * b2 + c1 * c2) in *.
    set (k := norm3 (b1 * c2 - c1 * b2) (c1 * a2 - a1 * c2) (a1 * b2 - b1 * a2)) in *.
    set (n1 := norm3 a1 b1 c1) in *. set (n2 := norm3 a2 b2 c2) in *.
    assert (0 <= n1 * n2) by (apply Rmult_le_pos; assumption).
    assert (d * d <= n1 * n2 * (n1 * n2)) by nra.
    unfold Rabs. destruct (Rcase_abs d); nra.
  - intros H. rewrite (normalize_vec H), magnitude_vec. f_equal.
    pose proof (norm3_pos H) as Hn. pose proof (norm3_square a1 b1 c1) as Hq.
    unfold norm3 at 1. apply sqrt_lem_1.
    + nra.
    + lra.
    + rewrite Rmult_1_r.
      replace (a1 / norm3 a1 b1 c1 * (a1 / norm3 a1 b1 c1)
               + b1 / norm3 a1 b1 c1 * (b1 / norm3 a1 b1 c1)
               + c1 / norm3 a1 b1 c1 * (c1 / norm3 a1 b1 c1))
        with ((a1 * a1 + b1 * b1 + c1 * c1) / (norm3 a1 b1 c1 * norm3 a1 b1 c1))
        by (field; lra).
      rewrite Hq. field. rewrite <- Hq. nra.
Qed.

Lemma triple_3_4_0_not_zero : (3, 4, 0) <> (0, 0, 0).
Proof. intros H. inversion H. lra. Qed.

(** The vector (3, 4, 0), normalized. *)
Lemma vector_identities_witness :
  (3, 4, 0) <> (0, 0, 0)
  /\ Vector3D.magnitude (Vector3D.normalize (vec 3 4 0)) = Fin 1.
Proof.
  split; [exact triple_3_4_0_not_zero |].
  exact (proj2 (proj2 (proj2 (proj2 (proj2 (proj2 (proj2
           (vector_identities 3 4 0 0 0 0 0)))))))
         triple_3_4_0_not_zero).
Defined.

End VectorAlgebra.

(** ** LambertSolver: the transfer angle *)

Section TransferAngle.
Import Exact.
Local Open Scope R_scope.

Lemma atan_nonneg x : 0 <= x -> 0 <= atan x.
Proof.
  intros [H | <-].
  - left. rewrite <- atan_0. apply atan_increasing. exact H.
  - rewrite atan_0. lra.
Qed.

Lemma atan_nonpos x : x <= 0 -> atan x <= 0.
Proof.
  intros [H | ->].
  - left. rewrite <- atan_0. apply atan_increasing. exact H.
  - rewrite atan_0. lra.
Qed.

(** [Math.atan2] of a sine that is not negative lies in the upper half turn. *)
Lemma atan2_upper_half (ss cc : R) :
  0 <= ss ->
  exists theta, Math_atan2 (Fin ss) (Fin cc) = Fin theta /\ 0 <= theta <= PI.
Proof.
  intros Hs. cbn [Math_atan2 xreal_math xatan2].
  pose proof PI_RGT_0 as Hpi.
  destruct (Rlt_dec 0 cc) as [Hc | Hc].
  - rewrite (Rltb_true Hc). eexists. split; [reflexivity |].
    pose proof (atan_bound (ss / cc)).
    assert (H0 : 0 <= ss / cc).
    { apply Rmult_le_pos; [exact Hs |]. left. apply Rinv_0_lt_compat. exact Hc. }
    pose proof (atan_nonneg H0). lra.
  - rewrite (Rltb_false Hc). destruct (Rlt_dec cc 0) as [Hn | Hn].
    + rewrite (Rltb_true Hn), (Rleb_true Hs). eexists. split; [reflexivity |].
      pose proof (atan_bound (ss / cc)).
      assert (H0 : ss / cc <= 0).
      { unfold Rdiv. assert (/ cc < 0) by (apply Rinv_lt_0_compat; exact Hn). nra. }
      pose proof (atan_nonpos H0). lra.
    + rewrite (Rltb_false Hn). destruct (Rlt_dec 0 ss) as [Hp | Hp].
      * rewrite (Rltb_true Hp). eexists. split; [reflexivity | lra].
      * rewrite (Rltb_false Hp). rewrite Rltb_false by lra.
        eexists. split; [reflexivity | lra].
Qed.

(** X5.  In exact arithmetic, for two positions that are not the origin,
    the transfer angle [dnu] that [LambertSolver.solve] computes is a number
    theta in [0, pi] when [prograde] is true and [2 pi - theta], in
    [pi, 2 pi], when it is false: the sine it feeds to [Math.atan2] is a
    magnitude over a product of magnitudes and never negative, so the
    branch [if (dnu < 0) dnu += 2 * Math.PI] is never taken, and the flag
    alone, not the geometry, picks the short or the long way. *)
Theorem transferAngle_range (a1 b1 c1 a2 b2 c2 : R) :
  (a1, b1, c1) <> (0, 0, 0) -> (a2, b2, c2) <> (0, 0, 0) ->
  exists theta,
    0 <= theta <= PI
    /\ LambertSolver.transferAngle (vec a1 b1 c1) (vec a2 b2 c2) true = Fin theta
    /\ LambertSolver.transferAngle (vec a1 b1 c1) (vec a2 b2 c2) false
       = Fin (2 * PI - theta).
Proof.
  intros H1 H2.
  pose proof (norm3_pos H1) as N1. pose proof (norm3_pos H2) as N2.
  assert (N12 : 0 < norm3 a1 b1 c1 * norm3 a2 b2 c2)
    by (apply Rmult_lt_0_compat; assumption).
  unfold LambertSolver.transferAngle. cbv zeta.
  rewrite cross_vec, dot_vec, !magnitude_vec. fin_arith.
  rewrite !div_Fin by lra. fin_arith.
  set (ss := norm3 (b1 * c2 - c1 * b2) (c1 * a2 - a1 * c2) (a1 * b2 - b1 * a2)
             / (norm3 a1 b1 c1 * norm3 a2 b2 c2)).
  set (cc := Rmax (- (1 / 1))
               (Rmin (1 / 1) ((a1 * a2 + b1 * b2 + c1 * c2)
                              / (norm3 a1 b1 c1 * norm3 a2 b2 c2)))).
  assert (Hs : 0 <= ss).
  { unfold ss. apply Rmult_le_pos; [apply norm3_nonneg |].
    left. apply Rinv_0_lt_compat. exact N12. }
  destruct (atan2_upper_half cc Hs) as (theta & Et & Ht).
  exists theta. rewrite Et. fin_arith.
  rewrite Rltb_false by lra.
  split; [exact Ht |]. split; [reflexivity |].
  fin_arith. f_equal. lra.
Qed.

Lemma triple_0_8000_0_not_zero : (0, 8000, 0) <> (0, 0, 0).
Proof. intros H. inversion H. lra. Qed.

Lemma triple_7000_0_0_not_zero : (7000, 0, 0) <> (0, 0, 0).
Proof. intros H. inversion H. lra. Qed.

(** From (7000, 0, 0) to (0, 8000, 0). *)
Lemma transferAngle_range_witness :
  (7000, 0, 0) <> (0, 0, 0) /\ (0, 8000, 0) <> (0, 0, 0)
  /\ exists theta,
      0 <= theta <= PI
      /\ LambertSolver.transferAngle (vec 7000 0 0) (vec 0 8000 0) true = Fin theta
      /\ LambertSolver.transferAngle (vec 7000 0 0) (vec 0 8000 0) false
         = Fin (2 * PI - theta).
Proof.
  split; [exact triple_7000_0_0_not_zero |].
  split; [exact triple_0_8000_0_not_zero |].
  exact (transferAngle_range triple_7000_0_0_not_zero triple_0_8000_0_not_zero).
Defined.

End TransferAngle.

(** ** C3: a time of flight below the minimum-energy time *)

Section TimeTooShort.
Import Exact.
Local Open Scope R_scope.

(** [Math.atan2] gives back the angle of the upper half turn whose sine and
    cosine it is handed. *)
Lemma atan2_unit (ss cc : R) :
  0 <= ss -> ss * ss + cc * cc = 1 ->
  exists theta,
    Math_atan2 (Fin ss) (Fin cc) = Fin theta /\ 0 <= theta <= PI /\ cos theta = cc.
Proof.
  intros Hs Hu. cbn [Math_atan2 xreal_math xatan2].
  pose proof PI_RGT_0 as Hpi.
  assert (Hroot : forall c, 0 < c -> c * c + ss * ss = 1 ->
                            sqrt (1 + (ss / c)²) = 1 / c).
  { intros c Hc Hc1. apply sqrt_lem_1.
    - unfold Rsqr. nra.
    - unfold Rdiv. rewrite Rmult_1_l. left. apply Rinv_0_lt_compat. exact Hc.
    - unfold Rsqr. field_simplify; [| lra | lra].
      replace (c ^ 2 + ss ^ 2) with 1 by (rewrite <- Hc1; ring).
      field. lra. }
  destruct (Rlt_dec 0 cc) as [Hc | Hc].
  - rewrite (Rltb_true Hc). eexists. split; [reflexivity |]. split.
    + pose proof (atan_bound (ss / cc)).
      assert (H0 : 0 <= ss / cc).
      { apply Rmult_le_pos; [exact Hs |]. left. apply Rinv_0_lt_compat. exact Hc. }
      pose proof (atan_nonneg H0). lra.
    + rewrite cos_atan, (Hroot cc Hc) by lra. field. lra.
  - rewrite (Rltb_false Hc). destruct (Rlt_dec cc 0) as [Hn | Hn].
    + rewrite (Rltb_true Hn), (Rleb_true Hs). eexists. split; [reflexivity |]. split.
      * pose proof (atan_bound (ss / cc)).
        assert (H0 : ss / cc <= 0).
        { unfold Rdiv. assert (/ cc < 0) by (apply Rinv_lt_0_compat; exact Hn). nra. }
        pose proof (atan_nonpos H0). lra.
      * rewrite neg_cos, cos_atan.
        replace ((ss / cc)²) with ((ss / - cc)²)
          by (unfold Rsqr; field; lra).
        rewrite (Hroot (- cc)) by lra. field. lra.
    + rewrite (Rltb_false Hn).
      assert (cc = 0) by lra. subst cc.
      assert (Hp : 0 < ss) by nra.
      rewrite (Rltb_true Hp). eexists. split; [reflexivity |].
      split; [lra | apply cos_PI2].
Qed.


Lemma semiperimeter_vec a1 b1 c1 a2 b2 c2 :
  LambertSolver.semiperimeter (vec a1 b1 c1) (vec a2 b2 c2)
  = Fin ((norm3 a1 b1 c1 + norm3 a2 b2 c2 + norm3 (a2 - a1) (b2 - b1) (c2 - c1)) / 2).
Proof.
  unfold LambertSolver.semiperimeter. rewrite chord_vec, !magnitude_vec.
  fin_arith. rewrite div_Fin by lra. f_equal. lra.
Qed.

(** The transfer angle of [solve] is the angle between the two positions,
    taken the short way when [prograde] is true and the long way otherwise. *)
Lemma transferAngle_geometry a1 b1 c1 a2 b2 c2 :
  0 < norm3 a1 b1 c1 -> 0 < norm3 a2 b2 c2 ->
  exists theta,
    0 <= theta <= PI
    /\ cos theta = (a1 * a2 + b1 * b2 + c1 * c2) / (norm3 a1 b1 c1 * norm3 a2 b2 c2)
    /\ LambertSolver.transferAngle (vec a1 b1 c1) (vec a2 b2 c2) true = Fin theta
    /\ LambertSolver.transferAngle (vec a1 b1 c1) (vec a2 b2 c2) false
       = Fin (2 * PI - theta).
Proof.
  intros N1 N2.
  assert (N12 : 0 < norm3 a1 b1 c1 * norm3 a2 b2 c2)
    by (apply Rmult_lt_0_compat; assumption).
  unfold LambertSolver.transferAngle. cbv zeta.
  rewrite cross_vec, dot_vec, !magnitude_vec. fin_arith.
  rewrite !div_Fin by lra. fin_arith.
  pose proof (lagrange_identity a1 b1 c1 a2 b2 c2) as L.
  set (k := norm3 (b1 * c2 - c1 * b2) (c1 * a2 - a1 * c2) (a1 * b2 - b1 * a2)) in *.
  set (d := a1 * a2 + b1 * b2 + c1 * c2) in *.
  set (n := norm3 a1 b1 c1 * norm3 a2 b2 c2) in *.
  assert (Hk : 0 <= k) by apply norm3_nonneg.
  assert (Hdn : d * d + k * k = n * n) by (rewrite L; unfold n; ring).
  assert (Hs : 0 <= k / n).
  { apply Rmult_le_pos; [exact Hk |]. left. apply Rinv_0_lt_compat. exact N12. }
  assert (Hc : -1 <= d / n <= 1).
  { assert (Hin : 0 < / n) by (apply Rinv_0_lt_compat; exact N12).
    assert (- n <= d <= n) by nra.
    unfold Rdiv. split.
    - replace (-1) with (- n * / n) by (field; lra).
      apply Rmult_le_compat_r; lra.
    - replace 1 with (n * / n) by (field; lra).
      apply Rmult_le_compat_r; lra. }
  replace (Rmax (- (1 / 1)) (Rmin (1 / 1) (d / n))) with (d / n).
  2: { rewrite Rmin_right by lra. rewrite Rmax_right by lra. reflexivity. }
  assert (Hu : k / n * (k / n) + d / n * (d / n) = 1).
  { replace (k / n * (k / n) + d / n * (d / n)) with ((d * d + k * k) / (n * n))
      by (field; lra).
    rewrite Hdn. field. lra. }
  destruct (atan2_unit Hs Hu) as (theta & Et & Ht & Hcos).
  exists theta. rewrite Et. fin_arith.
  rewrite Rltb_false by lra.
  split; [exact Ht |]. split; [exact Hcos |]. split; [reflexivity |].
  fin_arith. f_equal. lra.
Qed.

Lemma normalizedTime_vec a1 b1 c1 a2 b2 c2 T mu :
  let s := (norm3 a1 b1 c1 + norm3 a2 b2 c2 + norm3 (a2 - a1) (b2 - b1) (c2 - c1)) / 2 in
  0 < s -> 0 < mu ->
  LambertSolver.normalizedTime (vec a1 b1 c1) (vec a2 b2 c2) (Fin T) (Fin mu)
  = Fin (sqrt (2 * mu / s ^ 3) * T).
Proof.
  intros s Hs Hmu. unfold LambertSolver.normalizedTime. cbv zeta.
  rewrite semiperimeter_vec. fold s. fin_arith.
  assert (H3 : 0 < s * s * s)
    by (apply Rmult_lt_0_compat; [apply Rmult_lt_0_compat |]; exact Hs).
  rewrite div_Fin by lra.
  replace (2 / 1 * mu / (s * s * s)) with (2 * mu / s ^ 3) by (field; lra).
  rewrite sqrt_Fin.
  - fin_arith. reflexivity.
  - apply Rmult_le_pos; [lra |]. left. apply Rinv_0_lt_compat.
    replace (s ^ 3) with (s * s * s) by ring. exact H3.
Qed.

Lemma lambdaParameter_vec a1 b1 c1 a2 b2 c2 prograde delta_nu :
  let m1 := norm3 a1 b1 c1 in
  let m2 := norm3 a2 b2 c2 in
  let s := (m1 + m2 + norm3 (a2 - a1) (b2 - b1) (c2 - c1)) / 2 in
  0 < s ->
  LambertSolver.transferAngle (vec a1 b1 c1) (vec a2 b2 c2) prograde = Fin delta_nu ->
  LambertSolver.lambdaParameter (vec a1 b1 c1) (vec a2 b2 c2) prograde
  = Fin (sqrt (m1 * m2) * cos (delta_nu / 2) / s).
Proof.
  intros m1 m2 s Hs Ha. unfold LambertSolver.lambdaParameter. cbv zeta.
  rewrite Ha, semiperimeter_vec, !magnitude_vec. fold m1 m2 s. fin_arith.
  rewrite sqrt_Fin
    by (apply Rmult_le_pos; apply norm3_nonneg).
  rewrite div_Fin by lra. fin_arith. rewrite div_Fin by lra.
  replace (delta_nu / (2 / 1)) with (delta_nu / 2) by (field; lra).
  reflexivity.
Qed.

(** With a chord that is not zero the semiperimeter exceeds the geometric
    mean of the two magnitudes, so the shape parameter is below 1 in
    absolute value. *)
Lemma shape_parameter_below_1 (m1 m2 c x : R) :
  0 < m1 -> 0 < m2 -> 0 < c -> -1 <= x <= 1 ->
  Rabs (sqrt (m1 * m2) * x / ((m1 + m2 + c) / 2)) < 1.
Proof.
  intros H1 H2 Hc Hx.
  set (s := (m1 + m2 + c) / 2).
  assert (Hs : 0 < s) by (unfold s; lra).
  assert (Hg : 0 <= sqrt (m1 * m2) < s).
  { split; [apply sqrt_pos |].
    rewrite <- (sqrt_square s) by lra.
    apply sqrt_lt_1_alt. split; [nra |].
    assert (E : s * s - m1 * m2
                = ((m1 - m2) * (m1 - m2) + 2 * c * (m1 + m2) + c * c) / 4)
      by (unfold s; field).
    pose proof (Rle_0_sqr (m1 - m2)) as Q. unfold Rsqr in Q. nra. }
  assert (Hin : 0 < / s) by (apply Rinv_0_lt_compat; exact Hs).
  unfold Rdiv. rewrite !Rabs_mult.
  rewrite (Rabs_pos_eq (sqrt (m1 * m2))) by lra.
  rewrite (Rabs_pos_eq (/ s)) by lra.
  assert (Hax : Rabs x <= 1) by (apply Rabs_le; lra).
  pose proof (Rabs_pos x) as Hx0.
  assert (sqrt (m1 * m2) * Rabs x <= sqrt (m1 * m2)) by nra.
  assert (sqrt (m1 * m2) * Rabs x * / s < s * / s).
  { apply Rmult_lt_compat_r; lra. }
  replace (s * / s) with 1 in * by (field; lra). lra.
Qed.


(** C3.  For real positions, time of flight [T] and [mu] that pass the
    earlier guards of [solve] (both magnitudes and the chord [c] at least
    1e-6, [T > 0], [mu > 0], a revolution count of 0), write
    [s = (|r1| + |r2| + c) / 2], [delta_nu] for the transfer angle (the angle
    theta between the positions when [prograde] is true, [2 pi - theta]
    otherwise), [lambda = sqrt(|r1| |r2|) cos(delta_nu / 2) / s],
    [T_norm = sqrt(2 mu / s^3) T] and [T_min = (1 - lambda^3) / 3].  Then
    [|lambda| < 1] holds by itself, and the call fails with the
    time-too-short error exactly when [T_norm < T_min]; the error then
    carries [T_min] and [T_norm].  In every number system, IEEE doubles
    included, an input that passes the guards fails with that error exactly
    when the comparison [T < T_min] of the code holds of the values it
    computed. *)
Theorem solve_time_too_short :
  (forall (x1 y1 z1 x2 y2 z2 T mu : R) (prograde : bool),
      let r1 := vec x1 y1 z1 in
      let r2 := vec x2 y2 z2 in
      let m1 := norm3 x1 y1 z1 in
      let m2 := norm3 x2 y2 z2 in
      let c := norm3 (x2 - x1) (y2 - y1) (z2 - z1) in
      let s := (m1 + m2 + c) / 2 in
      1e-6 <= m1 -> 1e-6 <= m2 -> 0 < T -> 0 < mu -> 1e-6 <= c ->
      exists theta : R,
        0 <= theta <= PI
        /\ cos theta = (x1 * x2 + y1 * y2 + z1 * z2) / (m1 * m2)
        /\ let delta_nu := if prograde then theta else 2 * PI - theta in
           let lambda := sqrt (m1 * m2) * cos (delta_nu / 2) / s in
           let T_norm := sqrt (2 * mu / s ^ 3) * T in
           let T_min := (1 - lambda ^ 3) / 3 in
           LambertSolver.transferAngle r1 r2 prograde = Fin delta_nu
           /\ Rabs lambda < 1
           /\ ((forall cons, exists e,
                   outcome (LambertSolver.solve r1 r2 (Fin T) (Fin mu) prograde (lit 0))
                     cons
                   = Throw e /\ isTimeTooShort e)
               <-> T_norm < T_min)
           /\ (T_norm < T_min ->
               forall cons,
                 LambertSolver.solve r1 r2 (Fin T) (Fin mu) prograde (lit 0) cons
                 = (Throw (TimeOfFlightTooShort (Fin T_min) (Fin T_norm)), cons)))
  /\ (forall (num : Type) (N : JSNumber num) (M : JSMath num)
             (r1 r2 : Vector3D.t num) (timeOfFlight mu : num)
             (prograde : bool) (multiRevs : num),
         ((Vector3D.magnitude r1 <? lit 1e-6)
          || (Vector3D.magnitude r2 <? lit 1e-6))%js = false ->
         (timeOfFlight <=? lit 0)%js = false ->
         (mu <=? lit 0)%js = false ->
         (LambertSolver.chord r1 r2 <? lit 1e-6)%js = false ->
         (Math_abs (LambertSolver.lambdaParameter r1 r2 prograde) >=? lit 1)%js = false ->
         (multiRevs =? lit 0)%js = true ->
         ((forall cons, exists e,
              outcome (LambertSolver.solve r1 r2 timeOfFlight mu prograde multiRevs) cons
              = Throw e /\ isTimeTooShort e)
          <-> (LambertSolver.normalizedTime r1 r2 timeOfFlight mu
               <? IzzoSolver.computeMinimumEnergyTime
                    (LambertSolver.lambdaParameter r1 r2 prograde))%js = true)).
Proof.
  split.
  2: { intros. apply solve_too_short_iff; assumption. }
  intros x1 y1 z1 x2 y2 z2 T mu prograde r1 r2 m1 m2 c s H1 H2 HT Hmu Hc.
  assert (Hs : 0 < s).
  { unfold s. lra. }
  destruct (@transferAngle_geometry x1 y1 z1 x2 y2 z2) as (theta & Ht & Hcos & Ep & Er).
  { fold m1. lra. }
  { fold m2. lra. }
  exists theta. split; [exact Ht |]. split; [exact Hcos |].
  cbv zeta.
  set (delta_nu := if prograde then theta else 2 * PI - theta).
  set (lambda := sqrt (m1 * m2) * cos (delta_nu / 2) / s).
  assert (Ea : LambertSolver.transferAngle r1 r2 prograde = Fin delta_nu).
  { unfold delta_nu, r1, r2. destruct prograde; assumption. }
  assert (El : LambertSolver.lambdaParameter r1 r2 prograde = Fin lambda).
  { unfold r1, r2. rewrite (lambdaParameter_vec _ _ _ _ _ _ _ Hs Ea). reflexivity. }
  assert (En : LambertSolver.normalizedTime r1 r2 (Fin T) (Fin mu)
               = Fin (sqrt (2 * mu / s ^ 3) * T)).
  { unfold r1, r2. rewrite (normalizedTime_vec _ _ _ _ _ _ T Hs Hmu). reflexivity. }
  assert (Hl : Rabs lambda < 1).
  { unfold lambda, s. apply shape_parameter_below_1; try lra.
    pose proof (COS_bound (delta_nu / 2)). lra. }
  assert (G1 : ((Vector3D.magnitude r1 <? lit 1e-6)
                || (Vector3D.magnitude r2 <? lit 1e-6))%js = false).
  { unfold r1, r2. rewrite !magnitude_vec. fold m1 m2. fin_arith.
    rewrite !Rltb_false by lra. reflexivity. }
  assert (G2 : (Fin T <=? lit 0)%js = false).
  { fin_arith. apply Rleb_false. lra. }
  assert (G3 : (Fin mu <=? lit 0)%js = false).
  { fin_arith. apply Rleb_false. lra. }
  assert (G4 : (LambertSolver.chord r1 r2 <? lit 1e-6)%js = false).
  { unfold r1, r2. rewrite chord_vec. fold c. fin_arith. apply Rltb_false. lra. }
  assert (G5 : (Math_abs (LambertSolver.lambdaParameter r1 r2 prograde) >=? lit 1)%js
               = false).
  { rewrite El. fin_arith. apply Rleb_false. lra. }
  assert (G6 : ((lit 0 : xreal) =? lit 0)%js = true).
  { fin_arith. apply Reqb_true. reflexivity. }
  assert (Em : IzzoSolver.computeMinimumEnergyTime (Fin lambda)
               = Fin ((1 - lambda ^ 3) / 3)) by apply computeMinimumEnergyTime_Fin.
  split; [exact Ea |]. split; [exact Hl |]. split.
  - rewrite (@solve_too_short_iff _ _ _ r1 r2 (Fin T) (Fin mu) prograde (lit 0)
               G1 G2 G3 G4 G5 G6).
    rewrite El, En, Em. fin_arith. apply Rltb_iff.
  - intros Hlt cons.
    rewrite (@solve_too_short _ _ _ r1 r2 (Fin T) (Fin mu) prograde (lit 0)
               G1 G2 G3 G4 G5 G6 cons).
    + rewrite El, En, Em. reflexivity.
    + rewrite El, En, Em. fin_arith. apply Rltb_true. exact Hlt.
Qed.

(** A failing run: from (7000, 0, 0) to (-8000, 0, 0) around the Earth in
    ten minutes.  The positions are opposite, so [lambda = 0] and
    [T_min = 1/3], while [T_norm] is about 0.29. *)
Lemma solve_time_too_short_witness :
  1e-6 <= norm3 7000 0 0 /\ 1e-6 <= norm3 (-8000) 0 0
  /\ 0 < 600 /\ 0 < 398600.4418
  /\ 1e-6 <= norm3 (-8000 - 7000) (0 - 0) (0 - 0)
  /\ forall cons,
       LambertSolver.solve (vec 7000 0 0) (vec (-8000) 0 0)
         (Fin 600) (Fin 398600.4418) true (lit 0) cons
       = (Throw (TimeOfFlightTooShort
                   (Fin (1 / 3))
                   (Fin (sqrt (2 * 398600.4418 / 15000 ^ 3) * 600))), cons).
Proof.
  assert (N1 : norm3 7000 0 0 = 7000) by (apply norm3_axis; lra).
  assert (N2 : norm3 (-8000) 0 0 = 8000)
    by (rewrite norm3_axis_neg by lra; lra).
  assert (N3 : norm3 (-8000 - 7000) (0 - 0) (0 - 0) = 15000).
  { replace (0 - 0) with 0 by ring. rewrite norm3_axis_neg by lra. lra. }
  assert (H1 : 1e-6 <= norm3 7000 0 0) by (rewrite N1; lra).
  assert (H2 : 1e-6 <= norm3 (-8000) 0 0) by (rewrite N2; lra).
  assert (H3 : 0 < 600) by lra.
  assert (H4 : 0 < 398600.4418) by lra.
  assert (H5 : 1e-6 <= norm3 (-8000 - 7000) (0 - 0) (0 - 0)) by (rewrite N3; lra).
  repeat (split; [assumption |]).
  destruct (proj1 solve_time_too_short 7000 0 0 (-8000) 0 0 600 398600.4418 true
              H1 H2 H3 H4 H5)
    as (theta & _ & _ & Ea & _ & _ & Hthrow).
  cbv zeta in Ea, Hthrow.
  rewrite transferAngle_opposite in Ea.
  assert (Et : theta = PI) by (injection Ea; intros E; symmetry; exact E).
  subst theta.
  rewrite N1, N2, N3 in Hthrow.
  replace ((7000 + 8000 + 15000) / 2) with 15000 in Hthrow by lra.
  rewrite cos_PI2 in Hthrow.
  replace ((1 - (sqrt (7000 * 8000) * 0 / 15000) ^ 3) / 3) with (1 / 3) in Hthrow
    by (field_simplify; lra).
  apply Hthrow.
  assert (Hq : 0 <= sqrt (2 * 398600.4418 / 15000 ^ 3) < 1 / 1800).
  { split; [apply sqrt_pos |].
    rewrite <- (sqrt_square (1 / 1800)) by lra.
    apply sqrt_lt_1_alt. split; lra. }
  lra.
Defined.

End TimeTooShort.

(** ** LambertSolver.solve: the outcomes and the console *)

Section SolveOutcomes.
Context {num : Type} {N : JSNumber num} {M : JSMath num}.
Local Open Scope js_scope.

(** X6.  In every number system, a call of [LambertSolver.solve] either
    throws one of eleven errors (the five input guards, time of flight too
    short, multi-revolution not implemented, the two errors of the root
    finder with the iteration cap 30, invalid semi-major axis, singular
    solution), or returns a result whose [convergenceIterations] is 30,
    whatever number of passes the root finder made, and whose
    [solutionType] is 'prograde' exactly when the [prograde] flag is set. *)
Theorem solve_outcomes
    (r1 r2 : Vector3D.t num) (timeOfFlight mu : num) (prograde : bool)
    (multiRevs : num) (c : Console num) :
  match LambertSolver.solve r1 r2 timeOfFlight mu prograde multiRevs c with
  | (Return r, _) =>
      LambertResult.convergenceIterations r = 30%nat
      /\ LambertResult.solutionType r
         = (if prograde then prograde_solution else retrograde_solution)
  | (Throw e, _) => isLambertError e
  end.
Proof.
  unfold LambertSolver.solve.
  destruct (_ || _); [exact I |]. rewrite bind_throwIf_false.
  destruct (timeOfFlight <=? lit 0); [exact I |]. rewrite bind_throwIf_false.
  destruct (mu <=? lit 0); [exact I |]. rewrite bind_throwIf_false.
  cbv zeta.
  destruct (LambertSolver.chord r1 r2 <? lit 1e-6); [exact I |].
  rewrite bind_throwIf_false.
  destruct (Math_abs _ >=? lit 1); [exact I |]. rewrite bind_throwIf_false.
  set (lambda := LambertSolver.lambdaParameter r1 r2 prograde).
  set (T := LambertSolver.normalizedTime r1 r2 timeOfFlight mu).
  destruct (multiRevs =? lit 0); [| exact I].
  destruct (T <? IzzoSolver.computeMinimumEnergyTime lambda); [exact I |].
  unfold bind at 1. unfold bind at 1. cbn [throwIf ret].
  destruct (solveForX_ends lambda T LambertSolver.tolerance LambertSolver.maxIterations c)
    as [(x & Hx & _) | [Hx | Hx]]; rewrite Hx; [| reflexivity | exact I].
  unfold IzzoSolver.calculateLagrangeCoefficients, bind, throwIf, warn, ret, throw.
  repeat match goal with
         | |- context [if ?b then _ else _] => destruct b
         end;
    cbn; auto.
Qed.

End SolveOutcomes.

Section DeterminantCheck.
Import Exact.
Local Open Scope R_scope.

(** With [fdot] computed as [(f * gdot - 1) / g], the determinant
    [f * gdot - fdot * g] is 1 or [NaN], whatever [f * gdot] and [g] are. *)
Lemma determinant_residual (P g : xreal) :
  (Math_abs (P - (P - lit 1) / g * g - lit 1) >? lit 1e-10)%js = false.
Proof.
  destruct P as [p | | |], g as [y | | |]; try reflexivity.
  - destruct (Req_dec_T y 0) as [-> | Hy].
    + fin_arith.
      assert (Hq : mul (div (Fin (p - 1 / 1)) (Fin 0)) (Fin 0) = XNaN).
      { cbn. rewrite !(Reqb_true (eq_refl 0)).
        destruct (Reqb (p - 1 / 1) 0); [reflexivity |].
        destruct (Rltb 0 (p - 1 / 1)); cbn; rewrite scale_inf_0; reflexivity. }
      rewrite Hq. reflexivity.
    + fin_arith. rewrite div_Fin by exact Hy. fin_arith.
      apply Rltb_false.
      replace (p - (p - 1 / 1) / y * y - 1 / 1) with 0 by (field; exact Hy).
      rewrite Rabs_R0. lra.
  - cbn. rewrite scale_inf_0. reflexivity.
  - cbn. rewrite scale_inf_0. reflexivity.
  - cbn. unfold scale_inf.
    destruct (Rlt_dec y 0) as [Hy | Hy].
    + rewrite (Rltb_true Hy). cbn. unfold scale_inf.
      rewrite Reqb_false by lra. rewrite Rltb_false by lra. reflexivity.
    + rewrite (Rltb_false Hy). cbn. unfold scale_inf.
      destruct (Req_dec_T y 0) as [-> | Hy0].
      * rewrite (Reqb_true (eq_refl 0)). reflexivity.
      * rewrite (Reqb_false Hy0). rewrite Rltb_true by lra. reflexivity.
  - cbn. unfold scale_inf.
    destruct (Rlt_dec y 0) as [Hy | Hy].
    + rewrite (Rltb_true Hy). cbn. unfold scale_inf.
      rewrite Reqb_false by lra. rewrite Rltb_false by lra. reflexivity.
    + rewrite (Rltb_false Hy). cbn. unfold scale_inf.
      destruct (Req_dec_T y 0) as [-> | Hy0].
      * rewrite (Reqb_true (eq_refl 0)). reflexivity.
      * rewrite (Reqb_false Hy0). rewrite Rltb_true by lra. reflexivity.
Qed.

(** X7.  In exact arithmetic [LambertSolver.solve] never writes to the
    console, on any input: [calculateLagrangeCoefficients] computes [fdot]
    from the very constraint [f * gdot - fdot * g = 1] that [solve] then
    tests, so the determinant it tests is 1 or [NaN] and the warning
    'Lagrange coefficients determinant error' is out of reach; only
    rounding can raise it. *)
Theorem solve_never_warns
    (r1 r2 : Vector3D.t xreal) (timeOfFlight mu : xreal) (prograde : bool)
    (multiRevs : xreal) (c : Console xreal) :
  snd (LambertSolver.solve r1 r2 timeOfFlight mu prograde multiRevs c) = c.
Proof.
  unfold LambertSolver.solve.
  destruct (_ || _); [reflexivity |]. rewrite bind_throwIf_false.
  destruct (timeOfFlight <=? lit 0)%js; [reflexivity |]. rewrite bind_throwIf_false.
  destruct (mu <=? lit 0)%js; [reflexivity |]. rewrite bind_throwIf_false.
  cbv zeta.
  destruct (LambertSolver.chord r1 r2 <? lit 1e-6)%js; [reflexivity |].
  rewrite bind_throwIf_false.
  destruct (Math_abs _ >=? lit 1)%js; [reflexivity |]. rewrite bind_throwIf_false.
  set (lambda := LambertSolver.lambdaParameter r1 r2 prograde).
  set (T := LambertSolver.normalizedTime r1 r2 timeOfFlight mu).
  destruct (multiRevs =? lit 0)%js; [| reflexivity].
  destruct (T <? IzzoSolver.computeMinimumEnergyTime lambda)%js; [reflexivity |].
  unfold bind at 1. unfold bind at 1. cbn [throwIf ret].
  destruct (solveForX_ends lambda T LambertSolver.tolerance LambertSolver.maxIterations c)
    as [(x & Hx & _) | [Hx | Hx]]; rewrite Hx; [| reflexivity | reflexivity].
  unfold IzzoSolver.calculateLagrangeCoefficients. cbv zeta.
  unfold bind at 1. unfold bind at 1.
  destruct (_ <=? lit 0)%js; [reflexivity |].
  cbn [throwIf ret IzzoSolver.f IzzoSolver.g IzzoSolver.fdot IzzoSolver.gdot].
  rewrite determinant_residual.
  unfold bind, throwIf, ret, throw.
  destruct (Math_abs _ <? lit 1e-15)%js; reflexivity.
Qed.

End DeterminantCheck.

(** ** HohmannTransfer.calculate *)

Section HohmannCalculate.
Import Exact.
Local Open Scope R_scope.

Lemma visviva_nonneg (mu r r' : R) :
  0 < mu -> 0 < r -> 0 < r' ->
  0 <= mu * (2 / 1 / r - 1 / 1 / ((r + r') / (2 / 1))).
Proof.
  intros Hmu Hr Hr'.
  replace (2 / 1 / r - 1 / 1 / ((r + r') / (2 / 1)))
    with (2 * r' / (r * (r + r'))) by (field; lra).
  apply Rmult_le_pos; [lra |].
  apply Rmult_le_pos; [lra |].
  left. apply Rinv_0_lt_compat. apply Rmult_lt_0_compat; lra.
Qed.

(** What [calculate] returns for positive radii and a positive
    gravitational parameter. *)
Lemma hohmann_calculate_run (r1 r2 mu : R) (c : Console xreal) :
  0 < r1 -> 0 < r2 -> 0 < mu ->
  HohmannTransfer.calculate (Fin r1) (Fin r2) (Fin mu) c
  = (Return
       (HohmannResult.make
          (Fin (Rabs (transferSpeed mu r1 r2 - sqrt (mu / r1))))
          (Fin (Rabs (sqrt (mu / r2) - transferSpeed mu r2 r1)))
          (Fin (PI * sqrt (Rpower ((r1 + r2) / (2 / 1)) (3 / 1) / mu)
                * (1 / 1 / (3600 / 1))))
          (OrbitalElements.make (Fin ((r1 + r2) / (2 / 1)))
             (Fin (Rabs (r2 - r1) / (r1 + r2)))
             (lit 0) (lit 0) (lit 0) (lit 0))), c).
Proof.
  intros H1 H2 Hmu.
  unfold HohmannTransfer.calculate. cbv zeta.
  fin_arith.
  rewrite (div_Fin (r1 + r2)) by lra.
  rewrite (div_Fin mu (b := r1)) by lra. rewrite (div_Fin mu (b := r2)) by lra.
  rewrite (div_Fin (2 / 1) (b := r1)) by lra. rewrite (div_Fin (2 / 1) (b := r2)) by lra.
  assert (Ha : 0 < (r1 + r2) / (2 / 1)) by lra.
  rewrite (div_Fin (1 / 1) (b := (r1 + r2) / (2 / 1))) by lra.
  fin_arith.
  assert (0 < mu / r1) by (apply Rdiv_lt_0_compat; lra).
  assert (0 < mu / r2) by (apply Rdiv_lt_0_compat; lra).
  rewrite (sqrt_Fin (a := mu / r1)) by lra.
  rewrite (sqrt_Fin (a := mu / r2)) by lra.
  pose proof (visviva_nonneg Hmu H1 H2) as V1.
  pose proof (visviva_nonneg Hmu H2 H1) as V2.
  replace (r2 + r1) with (r1 + r2) in V2 by ring.
  rewrite (sqrt_Fin V1), (sqrt_Fin V2).
  rewrite pow_Fin by lra.
  rewrite div_Fin by lra.
  assert (Hp : 0 < Rpower ((r1 + r2) / (2 / 1)) (3 / 1) / mu).
  { apply Rdiv_lt_0_compat; [| lra]. unfold Rpower. apply exp_pos. }
  rewrite sqrt_Fin by lra. fin_arith.
  rewrite (div_Fin (Rabs (r2 - r1))) by lra.
  unfold UnitConverter.secondsToHours, UnitConverter.HOURS_PER_SECOND.
  fin_arith. rewrite (div_Fin (1 / 1)) by lra. fin_arith.
  assert (Hs : 0 <= PI * sqrt (Rpower ((r1 + r2) / (2 / 1)) (3 / 1) / mu)).
  { apply Rmult_le_pos; [left; apply PI_RGT_0 | apply sqrt_pos]. }
  rewrite Rltb_false by lra. eff_step.
  unfold transferSpeed. replace (r2 + r1) with (r1 + r2) by ring.
  reflexivity.
Qed.

(** X8.  In exact arithmetic, for positive radii [r1], [r2] and a positive
    [mu], [HohmannTransfer.calculate] returns (it does not throw) and
    leaves the console alone; both burns are at least 0 and the
    eccentricity of the transfer orbit is in [0, 1).  The calculation is
    reversible: with [r1] and [r2] swapped, [deltaV1] and [deltaV2] are
    swapped, and the transfer time and the transfer orbit are the same.
    Equal radii give two zero burns and a circular orbit. *)
Theorem hohmann_calculate_reversible (r1 r2 mu : R) (c : Console xreal) :
  0 < r1 -> 0 < r2 -> 0 < mu ->
  exists out back d1 d2 e,
    HohmannTransfer.calculate (Fin r1) (Fin r2) (Fin mu) c = (Return out, c)
    /\ HohmannTransfer.calculate (Fin r2) (Fin r1) (Fin mu) c = (Return back, c)
    /\ HohmannResult.deltaV1 out = Fin d1 /\ HohmannResult.deltaV2 out = Fin d2
    /\ 0 <= d1 /\ 0 <= d2
    /\ HohmannResult.deltaV1 back = Fin d2 /\ HohmannResult.deltaV2 back = Fin d1
    /\ HohmannResult.transferTime back = HohmannResult.transferTime out
    /\ HohmannResult.transferOrbit back = HohmannResult.transferOrbit out
    /\ OrbitalElements.eccentricity (HohmannResult.transferOrbit out) = Fin e
    /\ 0 <= e < 1
    /\ (r1 = r2 -> d1 = 0 /\ d2 = 0 /\ e = 0).
Proof.
  intros H1 H2 Hmu.
  do 2 eexists.
  exists (Rabs (transferSpeed mu r1 r2 - sqrt (mu / r1))),
         (Rabs (sqrt (mu / r2) - transferSpeed mu r2 r1)),
         (Rabs (r2 - r1) / (r1 + r2)).
  rewrite (hohmann_calculate_run c H1 H2 Hmu), (hohmann_calculate_run c H2 H1 Hmu).
  split; [reflexivity |]. split; [reflexivity |].
  cbn [HohmannResult.deltaV1 HohmannResult.deltaV2 HohmannResult.transferTime
       HohmannResult.transferOrbit OrbitalElements.eccentricity].
  split; [reflexivity |]. split; [reflexivity |].
  split; [apply Rabs_pos |]. split; [apply Rabs_pos |].
  split; [f_equal; apply Rabs_minus_sym |].
  split; [f_equal; apply Rabs_minus_sym |].
  split; [replace (r2 + r1) with (r1 + r2) by ring; reflexivity |].
  split.
  { replace (r2 + r1) with (r1 + r2) by ring.
    rewrite (Rabs_minus_sym r1 r2). reflexivity. }
  split; [reflexivity |].
  split.
  { split.
    - apply Rmult_le_pos; [apply Rabs_pos |]. left. apply Rinv_0_lt_compat. lra.
    - apply Rmult_lt_reg_r with (r1 + r2); [lra |].
      unfold Rdiv. rewrite Rmult_assoc, Rinv_l, Rmult_1_r by lra.
      unfold Rabs. destruct (Rcase_abs (r2 - r1)); lra. }
  intros <-.
  assert (Ev : transferSpeed mu r1 r1 = sqrt (mu / r1)).
  { unfold transferSpeed. f_equal. field. lra. }
  rewrite Ev. replace (sqrt (mu / r1) - sqrt (mu / r1)) with 0 by ring.
  replace (r1 - r1) with 0 by ring.
  rewrite Rabs_R0. repeat split; lra.
Qed.

(** From a 6571 km orbit to a 42164 km orbit around the Earth. *)
Lemma hohmann_calculate_reversible_witness :
  0 < 6571 /\ 0 < 42164 /\ 0 < 398600.4418
  /\ exists out back d1 d2,
      HohmannTransfer.calculate (Fin 6571) (Fin 42164) (Fin 398600.4418) []
      = (Return out, [])
      /\ HohmannTransfer.calculate (Fin 42164) (Fin 6571) (Fin 398600.4418) []
         = (Return back, [])
      /\ HohmannResult.deltaV1 out = Fin d1 /\ HohmannResult.deltaV2 out = Fin d2
      /\ HohmannResult.deltaV1 back = Fin d2 /\ HohmannResult.deltaV2 back = Fin d1.
Proof.
  assert (H1 : 0 < 6571) by lra.
  assert (H2 : 0 < 42164) by lra.
  assert (H3 : 0 < 398600.4418) by lra.
  split; [exact H1 |]. split; [exact H2 |]. split; [exact H3 |].
  destruct (hohmann_calculate_reversible [] H1 H2 H3)
    as (out & back & d1 & d2 & e & A & B & C & D & _ & _ & E & F & _).
  exists out, back, d1, d2. repeat split; assumption.
Defined.

End HohmannCalculate.

(** ** LunarOrbitInsertion.calculateOptimalLOI *)

Section LOIAlwaysThrows.
Import Exact.
Local Open Scope R_scope.

(** The cube of a negative number, as [Math.pow] computes it. *)
Lemma pow_cube_neg (b : R) :
  b < 0 -> Math_pow (Fin b) (Fin (3 / 1)) = Fin (b * b * b).
Proof.
  intros Hb. cbn [Math_pow xreal_math xpow].
  replace (3 / 1) with 3 by lra.
  rewrite Reqb_false by lra. rewrite Rltb_false by lra. rewrite Reqb_false by lra.
  unfold is_integer. rewrite Int_part_IZR. rewrite Reqb_true by reflexivity.
  f_equal. simpl. lra.
Qed.

(** The apoapsis of the capture orbit comes out as
    [- r_target - r_periapsis]: the semi-major axis is negative, its cube is
    negative, the period is the square root of a negative number, and
    [secondsToHours] refuses the [NaN]. *)
Lemma calculateCaptureOrbitInsertion_not_finite (v : xreal) (r p : R) c :
  0 < r -> 0 < p ->
  LunarOrbitInsertion.calculateCaptureOrbitInsertion v (Fin r) (Fin p) c
  = (Throw TimeNotFinite, c).
Proof.
  intros Hr Hp.
  unfold LunarOrbitInsertion.calculateCaptureOrbitInsertion. cbv zeta.
  unfold CONSTANTS.MU_MOON, CONSTANTS.MOON_RADIUS.
  set (mu := 49027779 / 10000).
  assert (Hmu : mu = 49027779 / 10000) by reflexivity.
  assert (HE : (- lit 4902.7779 / (lit 2 * Fin r))%js = Fin (- mu / (2 / 1 * r))).
  { fin_arith. rewrite div_Fin by lra. reflexivity. }
  rewrite HE.
  assert (Hapo : (lit 4902.7779 / (lit 2 * Fin (- mu / (2 / 1 * r))) - Fin p)%js
                 = Fin (- r - p)).
  { fin_arith. fold mu.
    assert (H2 : 2 / 1 * (- mu / (2 / 1 * r)) <> 0).
    { unfold Rdiv. apply Rmult_integral_contrapositive_currified; [lra |].
      apply Rmult_integral_contrapositive_currified; [lra |].
      apply Rinv_neq_0_compat. lra. }
    rewrite div_Fin by exact H2. fin_arith. f_equal. field. lra. }
  rewrite Hapo.
  fin_arith. rewrite Rltb_false by lra.
  assert (Hpow : Math_pow (Fin ((p + (- r - p)) / (2 / 1))) (Fin (3 / 1))
                 = Fin ((p + (- r - p)) / (2 / 1) * ((p + (- r - p)) / (2 / 1))
                        * ((p + (- r - p)) / (2 / 1)))).
  { apply pow_cube_neg. lra. }
  assert (Hperiod :
    (lit 2 * Math_PI
     * Math_sqrt (Math_pow ((Fin p + Fin (- r - p)) / lit 2) (lit 3) / lit 4902.7779)
     / lit 2)%js = XNaN).
  { fin_arith. rewrite (div_Fin (p + (- r - p))) by lra. rewrite Hpow.
    rewrite div_Fin by lra.
    assert (Hneg : (p + (- r - p)) / (2 / 1) * ((p + (- r - p)) / (2 / 1))
                   * ((p + (- r - p)) / (2 / 1)) / (49027779 / 10000) < 0).
    { replace ((p + (- r - p)) / (2 / 1)) with (- (r / 2)) by lra.
      assert (0 < r / 2 * (r / 2) * (r / 2)) by (repeat apply Rmult_lt_0_compat; lra).
      assert (0 < / (49027779 / 10000)) by (apply Rinv_0_lt_compat; lra).
      unfold Rdiv at 4. nra. }
    cbn [Math_sqrt xreal_number xsqrt]. rewrite Rltb_true by exact Hneg.
    reflexivity. }
  fin_arith.
  match goal with
  | |- context [UnitConverter.secondsToHours ?s] =>
      replace s with XNaN
  end.
  reflexivity.
Qed.

Lemma getOptimalPeriapsis_positive (v r : R) :
  0 < v -> 1737 < r ->
  exists q, LunarOrbitInsertion.getOptimalPeriapsis (Fin v) (Fin r) = Fin q /\ 0 < q.
Proof.
  intros Hv Hr.
  unfold LunarOrbitInsertion.getOptimalPeriapsis, CONSTANTS.MOON_RADIUS. cbv zeta.
  fin_arith. rewrite (div_Fin v) by lra. fin_arith.
  eexists. split; [reflexivity |].
  set (tf := Rmin (v / (2 / 1)) (1 / 1)).
  assert (Htf : 0 < tf <= 1).
  { unfold tf, Rmin. destruct (Rle_dec _ _); lra. }
  nra.
Qed.

(** X9.  In exact arithmetic, for every [v_infinity] in (0, 5] km/s and
    every [r_target] in (1737, 17370] km, with [r_periapsis] omitted or
    between 0 and 17370 km (ten lunar radii, the largest target radius the
    function accepts), [LunarOrbitInsertion.calculateOptimalLOI] throws
    'Time must be finite'.  The capture-orbit branch computes the apoapsis
    as [-r_target - r_periapsis], so the semi-major axis of the capture
    orbit is negative, its period is [NaN], and
    [UnitConverter.secondsToHours] rejects it before the two strategies are
    compared. *)
Theorem calculateOptimalLOI_never_returns
    (v r : R) (r_periapsis : option xreal) (c : Console xreal) :
  0 < v <= 5 -> 1737 < r <= 17370 ->
  match r_periapsis with
  | None => True
  | Some rp => exists p, rp = Fin p /\ 0 <= p <= 17370
  end ->
  LunarOrbitInsertion.calculateOptimalLOI (Fin v) (Fin r) r_periapsis c
  = (Throw TimeNotFinite, c).
Proof.
  intros Hv Hr Hp.
  unfold LunarOrbitInsertion.calculateOptimalLOI, CONSTANTS.MOON_RADIUS.
  fin_arith. decide_cmp. eff_step.
  destruct (getOptimalPeriapsis_positive (v := v) (r := r)) as [q [Eq Hq]]; try lra.
  assert (Hcap : exists p, 0 < p /\
    match r_periapsis with
    | Some r0 =>
        if truthy r0 then r0
        else LunarOrbitInsertion.getOptimalPeriapsis (Fin v) (Fin r)
    | None => LunarOrbitInsertion.getOptimalPeriapsis (Fin v) (Fin r)
    end = Fin p).
  { destruct r_periapsis as [rp |].
    - destruct Hp as [p [-> Hp]].
      destruct (Req_dec_T p 0) as [-> | Hne].
      + exists q. split; [exact Hq |].
        unfold truthy. fin_arith. rewrite Reqb_true by lra. exact Eq.
      + exists p. split; [lra |].
        unfold truthy. fin_arith. rewrite Reqb_false by lra. reflexivity.
    - exists q. split; [exact Hq | exact Eq]. }
  destruct Hcap as [p [Hp0 Ep]]. rewrite Ep.
  unfold bind at 1.
  rewrite calculateCaptureOrbitInsertion_not_finite by lra.
  reflexivity.
Qed.

(** An approach at 1 km/s to a 100 km orbit around the Moon, through a
    capture orbit with its periapsis at 50 km. *)
Lemma calculateOptimalLOI_never_returns_witness :
  0 < 1 <= 5 /\ 1737 < 1837 <= 17370
  /\ (exists p, Fin 1787 = Fin p /\ 0 <= p <= 17370)
  /\ LunarOrbitInsertion.calculateOptimalLOI (Fin 1) (Fin 1837) (Some (Fin 1787)) []
     = (Throw TimeNotFinite, []).
Proof.
  assert (H1 : 0 < 1 <= 5) by lra.
  assert (H2 : 1737 < 1837 <= 17370) by lra.
  assert (H3 : exists p, Fin 1787 = Fin p /\ 0 <= p <= 17370).
  { exists 1787. split; [reflexivity | lra]. }
  split; [exact H1 |]. split; [exact H2 |]. split; [exact H3 |].
  exact (@calculateOptimalLOI_never_returns 1 1837 (Some (Fin 1787)) [] H1 H2 H3).
Defined.

End LOIAlwaysThrows.

(** ** FuelOptimizer *)

Section BurnTime.
Import Exact.
Local Open Scope R_scope.

Lemma calculateGravityLossFactor_range (b w : R) :
  0 <= b -> 1 / 2 < w ->
  exists k, FuelOptimizer.calculateGravityLossFactor (Fin b) (Fin w) = Fin k
            /\ 0 <= k < 1 / 10.
Proof.
  intros Hb Hw. unfold FuelOptimizer.calculateGravityLossFactor. cbv zeta.
  fin_arith. destruct (Rlt_dec b (60 / 1)) as [H | H].
  - rewrite (Rltb_true H). exists (0 / 1). split; [reflexivity | lra].
  - rewrite (Rltb_false H).
    rewrite (div_Fin b) by lra. rewrite (div_Fin (1 / 1)) by lra. fin_arith.
    eexists. split; [reflexivity |].
    set (tf := Rmin (b / (600 / 1)) (1 / 1)).
    set (th := Rmax (1 / 10) (1 / 1 / w)).
    assert (Htf : 0 <= tf <= 1).
    { unfold tf. split.
      - apply Rmin_glb; [| lra]. apply Rmult_le_pos; [lra |].
        left. apply Rinv_0_lt_compat. lra.
      - pose proof (Rmin_r (b / (600 / 1)) (1 / 1)). lra. }
    assert (Hth : 0 < th < 2).
    { unfold th. split.
      - pose proof (Rmax_l (1 / 10) (1 / 1 / w)). lra.
      - apply Rmax_lub_lt; [lra |].
        apply Rmult_lt_reg_r with w; [lra |].
        unfold Rdiv. rewrite Rmult_assoc, Rinv_l by lra. lra. }
    nra.
Qed.

(** The burn time of the constant-thrust model, and the finite-burn
    correction applied above a thrust-to-weight ratio of 0.5. *)
Lemma calculateVariableMassBurnTime_value (m0 mf w ve g0 : R) :
  0 < mf <= m0 -> 0 < w -> 0 < ve -> 0 < g0 ->
  exists t,
    FuelOptimizer.calculateVariableMassBurnTime (Fin m0) (Fin mf) (Fin w) (Fin ve) (Fin g0)
    = Fin t
    /\ (w <= 1 / 2 -> t = (m0 - mf) / (w * m0 * g0 / ve))
    /\ (1 / 2 < w ->
        (m0 - mf) / (w * m0 * g0 / ve) <= t
        <= 11 / 10 * ((m0 - mf) / (w * m0 * g0 / ve))).
Proof.
  intros Hm Hw Hve Hg.
  unfold FuelOptimizer.calculateVariableMassBurnTime. cbv zeta.
  fin_arith.
  assert (HF : 0 < w * m0 * g0) by (repeat apply Rmult_lt_0_compat; lra).
  assert (Hmfr : 0 < w * m0 * g0 / ve) by (apply Rdiv_lt_0_compat; lra).
  rewrite (div_Fin (w * m0 * g0)) by lra.
  rewrite (div_Fin (m0 - mf)) by lra.
  set (b := (m0 - mf) / (w * m0 * g0 / ve)).
  assert (Hb : 0 <= b).
  { unfold b. apply Rmult_le_pos; [lra |]. left. apply Rinv_0_lt_compat. lra. }
  fin_arith. destruct (Rlt_dec (5 / 10) w) as [H | H].
  - rewrite (Rltb_true H).
    destruct (@calculateGravityLossFactor_range b w) as [k [Ek Hk]]; [lra | lra |].
    rewrite Ek. fin_arith.
    exists (Rmin (b * (1 / 1 + k)) (b * (12 / 10))). split; [reflexivity |].
    split; [intros; lra |]. intros _.
    rewrite Rmin_left by nra. nra.
  - rewrite (Rltb_false H). exists b. split; [reflexivity |].
    split; [reflexivity | intros; lra].
Qed.

(** X10.  In exact arithmetic, for a final mass [mf > 0], an initial mass
    [m0 >= mf], and positive thrust-to-weight ratio, exhaust velocity and
    gravity, [calculateVariableMassBurnTime] returns the constant-thrust
    burn time [b = (m0 - mf) / (twRatio * m0 * g0 / ve)] when
    [twRatio <= 0.5], and a time between [b] and [1.1 * b] when
    [twRatio > 0.5]: the gravity-loss factor is below 0.1 there (at most
    0.05 times a thrust factor below 2), so the 'cap at 20% correction' of
    the code is never the smaller argument of its [Math.min]. *)
Theorem burn_time_correction_below_cap (m0 mf w ve g0 : R) :
  0 < mf <= m0 -> 0 < w -> 0 < ve -> 0 < g0 ->
  exists t,
    FuelOptimizer.calculateVariableMassBurnTime (Fin m0) (Fin mf) (Fin w) (Fin ve) (Fin g0)
    = Fin t
    /\ (w <= 1 / 2 -> t = (m0 - mf) / (w * m0 * g0 / ve))
    /\ (1 / 2 < w ->
        (m0 - mf) / (w * m0 * g0 / ve) <= t
        <= 11 / 10 * ((m0 - mf) / (w * m0 * g0 / ve))).
Proof. apply calculateVariableMassBurnTime_value. Qed.

(** 7000 kg burnt down to 5000 kg at a thrust-to-weight ratio of 1. *)
Lemma burn_time_correction_below_cap_witness :
  0 < 5000 <= 7000 /\ 0 < 1 /\ 0 < 4413 /\ 0 < 9.80665
  /\ exists t,
      FuelOptimizer.calculateVariableMassBurnTime
        (Fin 7000) (Fin 5000) (Fin 1) (Fin 4413) (Fin 9.80665)
      = Fin t
      /\ (1 / 2 < 1 ->
          (7000 - 5000) / (1 * 7000 * 9.80665 / 4413) <= t
          <= 11 / 10 * ((7000 - 5000) / (1 * 7000 * 9.80665 / 4413))).
Proof.
  assert (H1 : 0 < 5000 <= 7000) by lra.
  assert (H2 : 0 < 1) by lra.
  assert (H3 : 0 < 4413) by lra.
  assert (H4 : 0 < 9.80665) by lra.
  split; [exact H1 |]. split; [exact H2 |]. split; [exact H3 |]. split; [exact H4 |].
  destruct (burn_time_correction_below_cap H1 H2 H3 H4) as (t & Et & _ & Ht).
  exists t. split; assumption.
Defined.

(** Rounding to [d] decimals does not take a number below an integer it is
    at least equal to. *)
Lemma toFixed_lower (d : nat) (k : Z) (x : R) :
  (0 <= k)%Z -> IZR k <= x ->
  exists y, toFixed d (Fin x) = Fin y /\ IZR k <= y.
Proof.
  intros Hk Hx. cbn [toFixed xreal_math xtoFixed].
  assert (H0 : 0 <= x) by (apply IZR_le in Hk; lra).
  destruct (Rleb (10 ^ 21) (Rabs x)); [exists x; split; [reflexivity | exact Hx] |].
  rewrite Rltb_false by lra.
  eexists. split; [reflexivity |].
  rewrite Rabs_pos_eq by exact H0.
  assert (Hp : 0 < 10 ^ d) by (apply pow_lt; lra).
  apply Rmult_le_reg_r with (10 ^ d); [exact Hp |].
  unfold Rdiv. rewrite Rmult_assoc, Rinv_l, Rmult_1_r by lra.
  replace (10 ^ d) with (IZR (10 ^ Z.of_nat d)) at 1
    by (rewrite <- pow_IZR; reflexivity).
  rewrite <- mult_IZR. apply IZR_le. apply Int_part_lower.
  rewrite mult_IZR, <- pow_IZR.
  assert (IZR k * 10 ^ d <= x * 10 ^ d) by (apply Rmult_le_compat_r; lra).
  lra.
Qed.

(** A valid call of [FuelOptimizer.calculate] returns. *)
Lemma fuel_calculate_runs (dv m i w : R) (c : Console xreal) :
  0 <= dv <= 20 -> 0 < m -> 0 < i -> 0 < w <= 2 ->
  exists r c' mr pm bt,
    FuelOptimizer.calculate (Fin dv) (Fin m) (Fin i) (Fin w) c = (Return r, c')
    /\ FuelOptimization.massRatio r = Fin mr /\ 1 <= mr
    /\ FuelOptimization.propellantMass r = Fin pm /\ 0 <= pm
    /\ FuelOptimization.burnTime r = Fin bt /\ 0 <= bt
    /\ FuelOptimization.specificImpulse r = Fin i.
Proof.
  intros Hdv Hm0 Hi0 [Hw0 Hw2].
  unfold FuelOptimizer.calculate, UnitConverter.validateDeltaV,
    UnitConverter.kmPerSecToMPerSec, UnitConverter.MS_PER_KMS,
    UnitConverter.SECONDS_PER_HOUR. cbv zeta.
  fin_arith. decide_cmp. eff_step.
  set (ve := i * (980665 / 100000)).
  assert (Hve : 0 < ve) by (unfold ve; nra).
  rewrite (div_Fin (dv * (1000 / 1))) by lra. fin_arith.
  set (e := exp (dv * (1000 / 1) / ve)).
  assert (He : 1 <= e).
  { assert (H : 0 <= dv * (1000 / 1) / ve).
    { apply Rmult_le_pos; [lra |]. left. apply Rinv_0_lt_compat. lra. }
    unfold e. destruct H as [H | H].
    - apply exp_increasing in H. rewrite exp_0 in H. lra.
    - rewrite <- H, exp_0. lra. }
  decide_cmp. eff_step.
  assert (Hpm : 0 <= m * e - m) by nra.
  decide_cmp. eff_step.
  assert (Hg : 0 < 980665 / 100000) by lra.
  assert (Hmm : 0 < m <= m * e) by nra.
  destruct (calculateVariableMassBurnTime_value (m0 := m * e) (mf := m) (w := w)
              (ve := ve) (g0 := 980665 / 100000))
    as (t & Et & Ht1 & Ht2); try lra.
  rewrite Et.
  assert (Hb : 0 <= (m * e - m) / (w * (m * e) * (980665 / 100000) / ve)).
  { apply Rmult_le_pos; [lra |]. left. apply Rinv_0_lt_compat.
    apply Rdiv_lt_0_compat; [| lra]. repeat apply Rmult_lt_0_compat; lra. }
  assert (Ht : 0 <= t).
  { destruct (Rle_dec w (1 / 2)) as [Hle | Hgt].
    - rewrite (Ht1 Hle). exact Hb.
    - assert (H : 1 / 2 < w) by lra. specialize (Ht2 H). lra. }
  fin_arith. decide_cmp. eff_step.
  destruct (@toFixed_lower 4 1 e) as (mr & Emr & Hmr); [lia | lra |].
  destruct (@toFixed_lower 1 0 (m * e - m)) as (pm & Epm & Hpm'); [lia | lra |].
  destruct (@toFixed_lower 1 0 t) as (bt & Ebt & Hbt); [lia | lra |].
  unfold bind.
  destruct (Rltb (m * (10 / 1)) (m * e - m));
    destruct (Rltb (3600 / 1) t);
    cbn [warn ret];
    try (unfold UnitConverter.secondsToHours; fin_arith; decide_cmp; eff_step);
    do 2 eexists; exists mr, pm, bt;
    (split; [reflexivity |]);
    cbn [FuelOptimization.massRatio FuelOptimization.propellantMass
         FuelOptimization.burnTime FuelOptimization.specificImpulse];
    repeat split; auto.
Qed.


(** X11.  In exact arithmetic, for a delta-V in [0, 20] km/s, a dry mass
    in [1, 10^9] kg, a specific impulse in [3, 10^6] s and a
    thrust-to-weight ratio in [0.001, 2], [FuelOptimizer.calculate] returns
    (none of its errors is thrown): the mass ratio it reports is at
    least 1, the propellant mass and the burn time are at least 0, and the
    specific impulse is the one given.  The console may have gained the
    high-propellant or the long-burn warning. *)
Theorem fuel_calculate_valid_inputs (dv m i w : R) (c : Console xreal) :
  0 <= dv <= 20 -> 1 <= m <= 10 ^ 9 -> 3 <= i <= 10 ^ 6 -> 1 / 1000 <= w <= 2 ->
  exists r c' mr pm bt,
    FuelOptimizer.calculate (Fin dv) (Fin m) (Fin i) (Fin w) c = (Return r, c')
    /\ FuelOptimization.massRatio r = Fin mr /\ 1 <= mr
    /\ FuelOptimization.propellantMass r = Fin pm /\ 0 <= pm
    /\ FuelOptimization.burnTime r = Fin bt /\ 0 <= bt
    /\ FuelOptimization.specificImpulse r = Fin i.
Proof.
  intros Hdv [Hm _] [Hi _] [Hw Hw2].
  apply fuel_calculate_runs; lra.
Qed.

(** The engine's own spacecraft (5000 kg dry, 450 s, T/W 0.3) at 3 km/s. *)
Lemma fuel_calculate_valid_inputs_witness :
  0 <= 3 <= 20 /\ 1 <= 5000 <= 10 ^ 9 /\ 3 <= 450 <= 10 ^ 6 /\ 1 / 1000 <= 0.3 <= 2
  /\ exists r c' mr pm bt,
      FuelOptimizer.calculate (Fin 3) (Fin 5000) (Fin 450) (Fin 0.3) []
      = (Return r, c')
      /\ FuelOptimization.massRatio r = Fin mr /\ 1 <= mr
      /\ FuelOptimization.propellantMass r = Fin pm /\ 0 <= pm
      /\ FuelOptimization.burnTime r = Fin bt /\ 0 <= bt
      /\ FuelOptimization.specificImpulse r = Fin 450.
Proof.
  assert (H1 : 0 <= 3 <= 20) by lra.
  assert (H2 : 1 <= 5000 <= 10 ^ 9) by lra.
  assert (H3 : 3 <= 450 <= 10 ^ 6) by lra.
  assert (H4 : 1 / 1000 <= 0.3 <= 2) by lra.
  split; [exact H1 |]. split; [exact H2 |]. split; [exact H3 |]. split; [exact H4 |].
  exact (fuel_calculate_valid_inputs [] H1 H2 H3 H4).
Defined.

End BurnTime.

(** ** calculateEfficiency *)

Section Percentage.
Local Open Scope js_scope.

Lemma SFltb_SFleb (a b : spec_float) : SFltb a b = true -> SFleb a b = true.
Proof.
  unfold SFltb, SFleb. destruct (SFcompare a b) as [[| |] |]; auto.
Qed.

(** [Math.max(0, Math.min(100, z))] on doubles. *)
Lemma clamp_percent_binary64 (z : IEEE754.binary64) :
  let e := Math_max (lit 0) (Math_min (lit 100) z) in
  isNaN e = true \/ ((lit 0 <=? e) && (e <=? lit 100)) = true.
Proof.
  cbv zeta.
  change (lit 0 : IEEE754.binary64) with (S754_zero false).
  set (hundred := (lit 100 : IEEE754.binary64)).
  assert (Hh : hundred = S754_finite false 7036874417766400 (-46))
    by (vm_compute; reflexivity).
  assert (H0h : SFleb (S754_zero false) hundred = true) by (vm_compute; reflexivity).
  assert (H00 : SFleb (S754_zero false) (S754_zero false) = true)
    by (vm_compute; reflexivity).
  assert (Hmin : Math_min hundred z
                 = match z with
                   | S754_nan => S754_nan
                   | _ => if SFltb z hundred then z else hundred
                   end).
  { rewrite Hh. destruct z; reflexivity. }
  rewrite Hmin.
  destruct z as [s | s | | s m e]; try (left; reflexivity).
  - destruct (SFltb (S754_zero s) hundred) eqn:E.
    + right. cbn. destruct s; vm_compute; reflexivity.
    + right. rewrite Hh. vm_compute. reflexivity.
  - destruct (SFltb (S754_infinity s) hundred) eqn:E.
    + right. destruct s; [vm_compute; reflexivity |].
      rewrite Hh in E. vm_compute in E. discriminate.
    + right. rewrite Hh. vm_compute. reflexivity.
  - destruct (SFltb (S754_finite s m e) hundred) eqn:E.
    + right.
      change (Math_max (S754_zero false) (S754_finite s m e))
        with (if SFltb (S754_zero false) (S754_finite s m e)
              then S754_finite s m e else S754_zero false).
      destruct (SFltb (S754_zero false) (S754_finite s m e)) eqn:E0.
      * cbn [leb IEEE754.binary64_number].
        rewrite (SFltb_SFleb _ _ E0), (SFltb_SFleb _ _ E). reflexivity.
      * cbn [leb IEEE754.binary64_number]. rewrite H00, H0h. reflexivity.
    + right. rewrite Hh. vm_compute. reflexivity.
Qed.

Lemma clamp_percent_xreal (z : Exact.xreal) :
  let e := Math_max (lit 0) (Math_min (lit 100) z) in
  isNaN e = true \/ ((lit 0 <=? e) && (e <=? lit 100)) = true.
Proof.
  cbv zeta. destruct z as [x | | |].
  - right. fin_arith.
    rewrite Rleb_true, Rleb_true; [reflexivity | |].
    + apply Rmax_lub; [lra |]. pose proof (Rmin_l (100 / 1) x). lra.
    + pose proof (Rmax_l (0 / 1) (Rmin (100 / 1) x)). lra.
  - right. rewrite !lit_Fin.
    change (Math_min (Exact.Fin (IZR (Qnum 100) / IZR (Z.pos (Qden 100)))) Exact.PInf)
      with (Exact.Fin (IZR (Qnum 100) / IZR (Z.pos (Qden 100)))).
    fin_arith. rewrite Rleb_true, Rleb_true; [reflexivity | |].
    + apply Rmax_lub; lra.
    + pose proof (Rmax_l (0 / 1) (100 / 1)). lra.
  - right. rewrite !lit_Fin.
    change (Math_min (Exact.Fin (IZR (Qnum 100) / IZR (Z.pos (Qden 100)))) Exact.NInf)
      with Exact.NInf.
    change (Math_max (Exact.Fin (IZR (Qnum 0) / IZR (Z.pos (Qden 0)))) Exact.NInf)
      with (Exact.Fin (IZR (Qnum 0) / IZR (Z.pos (Qden 0)))).
    fin_arith. rewrite Rleb_true, Rleb_true by lra. reflexivity.
  - left. reflexivity.
Qed.

(** X12.  [calculateEfficiency] returns a percentage or [NaN], for every
    input: on IEEE doubles and in exact arithmetic alike, the result of
    [Math.max(0, Math.min(100, ...))] is [NaN] or a number [e] with
    [0 <= e] and [e <= 100]; no infinity and no value outside the range
    gets through, whatever the delta-V and the radii are. *)
Theorem calculateEfficiency_is_a_percentage :
  (forall deltaV r1 r2 : IEEE754.binary64,
      let e := calculateEfficiency deltaV r1 r2 in
      isNaN e = true \/ ((lit 0 <=? e) && (e <=? lit 100)) = true)
  /\ (forall deltaV r1 r2 : Exact.xreal,
         let e := calculateEfficiency deltaV r1 r2 in
         isNaN e = true \/ ((lit 0 <=? e) && (e <=? lit 100)) = true).
Proof.
  split; intros deltaV r1 r2; unfold calculateEfficiency; cbv zeta.
  - apply clamp_percent_binary64.
  - apply clamp_percent_xreal.
Qed.

End Percentage.

(** ** The trajectory points *)

Section Counters.
Import Exact.
Local Open Scope R_scope.

Lemma ofNat_Fin (n : nat) : ofNat n = Fin (INR n).
Proof.
  unfold ofNat. rewrite lit_Fin. cbn [inject_Z Qnum Qden].
  rewrite INR_IZR_INZ. f_equal. field.
Qed.

Lemma toCount_INR (n : nat) : toCount (Fin (INR n)) = n.
Proof.
  cbn [toCount xreal_math xtoCount]. rewrite INR_IZR_INZ, Int_part_IZR.
  apply Nat2Z.id.
Qed.

(** A loop [for (let i = 0; i <= n; i++)] over a counted [n] runs through
    [0, 1, ..., n]; one that starts at 1 runs through [1, ..., n]. *)
Lemma upFrom0_INR (n : nat) : upFrom0 (Fin (INR n)) = seq 0 (S n).
Proof.
  unfold upFrom0. fin_arith. rewrite toCount_INR.
  rewrite Rleb_true; [reflexivity |].
  pose proof (pos_INR n). lra.
Qed.

Lemma upFrom1_INR (n : nat) : upFrom1 (Fin (INR n)) = seq 1 n.
Proof. unfold upFrom1. rewrite toCount_INR. reflexivity. Qed.

Lemma nth_map_seq (A : Type) (f : nat -> A) (start len i : nat) (d : A) :
  (i < len)%nat -> nth i (map f (seq start len)) d = f (start + i)%nat.
Proof.
  intros H.
  rewrite (nth_indep _ d (f 0%nat)) by (rewrite length_map, length_seq; exact H).
  rewrite map_nth, seq_nth by exact H. reflexivity.
Qed.

End Counters.

Section LambertPoints.
Import Exact.
Local Open Scope R_scope.

(** X13.  In exact arithmetic, for positions with finite components and a
    count [n >= 1], [generateLambertTrajectoryPoints] returns [n + 1]
    points, the [i]-th being [r1 + (i / n) (r2 - r1)]: equally spaced
    points of the straight segment from [r1] (the first) to [r2] (the
    last).  The Lambert solution passed in plays no part. *)
Theorem generateLambertTrajectoryPoints_segment
    (a1 b1 c1 a2 b2 c2 : R) (solution : LambertResult.t xreal) (n : nat) :
  (0 < n)%nat ->
  let points :=
    generateLambertTrajectoryPoints (vec a1 b1 c1) (vec a2 b2 c2) solution (ofNat n) in
  List.length points = S n
  /\ (forall i : nat, (i <= n)%nat ->
        nth i points (vec 0 0 0)
        = vec (a1 + INR i / INR n * (a2 - a1))
              (b1 + INR i / INR n * (b2 - b1))
              (c1 + INR i / INR n * (c2 - c1)))
  /\ nth 0 points (vec 0 0 0) = vec a1 b1 c1
  /\ nth n points (vec 0 0 0) = vec a2 b2 c2.
Proof.
  intros Hn points.
  assert (Hpos : 0 < INR n) by (apply lt_0_INR; exact Hn).
  assert (Hlen : List.length points = S n).
  { subst points. unfold generateLambertTrajectoryPoints.
    rewrite ofNat_Fin, upFrom0_INR, length_map, length_seq. reflexivity. }
  assert (Hnth : forall i : nat, (i <= n)%nat ->
            nth i points (vec 0 0 0)
            = vec (a1 + INR i / INR n * (a2 - a1))
                  (b1 + INR i / INR n * (b2 - b1))
                  (c1 + INR i / INR n * (c2 - c1))).
  { intros i Hi. subst points. unfold generateLambertTrajectoryPoints.
    rewrite ofNat_Fin, upFrom0_INR.
    rewrite nth_map_seq by lia. cbv zeta. cbn [plus].
    rewrite ofNat_Fin. rewrite div_Fin by lra.
    unfold Vector3D.add, Vector3D.multiply, vec.
    cbn [Vector3D.x Vector3D.y Vector3D.z]. fin_arith.
    f_equal; f_equal; field; lra. }
  split; [exact Hlen |]. split; [exact Hnth |]. split.
  - rewrite Hnth by lia. unfold vec. change (INR 0) with 0.
    f_equal; f_equal; field; lra.
  - rewrite Hnth by lia. unfold vec. f_equal; f_equal; field; lra.
Qed.

(** The engine's own call: 100 intervals from the parking orbit to the
    distance of the Moon. *)
Lemma generateLambertTrajectoryPoints_segment_witness :
  (0 < 100)%nat
  /\ forall solution : LambertResult.t xreal,
      List.length (generateLambertTrajectoryPoints (vec 6571 0 0) (vec 384400 0 0)
                     solution (ofNat 100)) = 101%nat.
Proof.
  assert (H : (0 < 100)%nat) by lia.
  split; [exact H |].
  intros solution.
  exact (proj1 (@generateLambertTrajectoryPoints_segment
                  6571 0 0 384400 0 0 solution 100 H)).
Defined.

End LambertPoints.

Section HalfEllipse.
Import Exact.
Local Open Scope R_scope.

Variables r1 r2 : R.
Hypothesis r1_pos : 0 < r1.
Hypothesis r2_pos : 0 < r2.

Let a := (r1 + r2) / (2 / 1).
Let e := Rabs (r2 - r1) / (r1 + r2).

Lemma eccentricity_range : 0 <= e < 1.
Proof.
  unfold e. split.
  - apply Rmult_le_pos; [apply Rabs_pos |]. left. apply Rinv_0_lt_compat. lra.
  - apply Rmult_lt_reg_r with (r1 + r2); [lra |].
    unfold Rdiv. rewrite Rmult_assoc, Rinv_l, Rmult_1_r by lra.
    unfold Rabs. destruct (Rcase_abs (r2 - r1)); lra.
Qed.

Lemma periapsis_radius : a * (1 / 1 - e * e) / (1 / 1 + e * 1) = Rmin r1 r2.
Proof.
  pose proof eccentricity_range as He.
  replace (a * (1 / 1 - e * e) / (1 / 1 + e * 1)) with (a * (1 - e)) by (field; lra).
  unfold a, e, Rmin, Rabs.
  destruct (Rcase_abs (r2 - r1)), (Rle_dec r1 r2); try lra; field; lra.
Qed.

Lemma apoapsis_radius : a * (1 / 1 - e * e) / (1 / 1 + e * -1) = Rmax r1 r2.
Proof.
  pose proof eccentricity_range as He.
  replace (a * (1 / 1 - e * e) / (1 / 1 + e * -1)) with (a * (1 + e)) by (field; lra).
  unfold a, e, Rmax, Rabs.
  destruct (Rcase_abs (r2 - r1)), (Rle_dec r1 r2); try lra; field; lra.
Qed.

(** The point of the half ellipse at true anomaly [theta]. *)
Lemma ellipse_point (theta : R) :
  (let r := (Fin a * (lit 1 - Fin e * Fin e) / (lit 1 + Fin e * Math_cos (Fin theta)))%js in
   Vector3D.new (r * Math_cos (Fin theta))%js (r * Math_sin (Fin theta))%js (lit 0))
  = vec (a * (1 / 1 - e * e) / (1 / 1 + e * cos theta) * cos theta)
        (a * (1 / 1 - e * e) / (1 / 1 + e * cos theta) * sin theta) 0.
Proof.
  cbv zeta. pose proof eccentricity_range as He.
  pose proof (COS_bound theta) as Hc.
  fin_arith.
  assert (Hden : 1 / 1 + e * cos theta <> 0) by nra.
  rewrite div_Fin by exact Hden. fin_arith.
  unfold vec. f_equal. f_equal. lra.
Qed.

End HalfEllipse.

Section HohmannPointsShape.
Import Exact.
Local Open Scope R_scope.

(** X14.  In exact arithmetic, for positive radii and a count [n >= 1],
    [generateHohmannTrajectoryPoints] returns [n + 1] points of a half
    ellipse that starts at [(min(r1, r2), 0, 0)] and ends at
    [(-max(r1, r2), 0, 0)]: the path always runs from the periapsis to the
    apoapsis, so for an inward transfer ([r1 > r2]) it starts at [r2], not
    at [r1]. *)
Theorem generateHohmannTrajectoryPoints_endpoints (r1 r2 : R) (n : nat) :
  0 < r1 -> 0 < r2 -> (0 < n)%nat ->
  let points := generateHohmannTrajectoryPoints (Fin r1) (Fin r2) (ofNat n) in
  List.length points = S n
  /\ nth 0 points (vec 0 0 0) = vec (Rmin r1 r2) 0 0
  /\ nth n points (vec 0 0 0) = vec (- Rmax r1 r2) 0 0.
Proof.
  intros H1 H2 Hn points. subst points.
  unfold generateHohmannTrajectoryPoints. cbv zeta.
  rewrite ofNat_Fin, upFrom0_INR.
  assert (Hpos : 0 < INR n) by (apply lt_0_INR; exact Hn).
  split; [| split].
  - rewrite length_map, length_seq. reflexivity.
  - rewrite nth_map_seq by lia. cbn [plus].
    rewrite ofNat_Fin. fin_arith.
    rewrite (div_Fin (r1 + r2)) by lra.
    rewrite (div_Fin (Rabs (r2 - r1))) by lra.
    rewrite (div_Fin (PI * INR 0)) by lra.
    replace (PI * INR 0 / INR n) with 0 by (change (INR 0) with 0; field; lra).
    pose proof (ellipse_point H1 H2 0) as E. cbv zeta in E.
    revert E. fin_arith. intros E. rewrite E.
    rewrite cos_0, sin_0.
    rewrite Rmult_1_r, Rmult_0_r.
    rewrite (periapsis_radius H1 H2). reflexivity.
  - rewrite nth_map_seq by lia. cbn [plus].
    rewrite ofNat_Fin. fin_arith.
    rewrite (div_Fin (r1 + r2)) by lra.
    rewrite (div_Fin (Rabs (r2 - r1))) by lra.
    rewrite (div_Fin (PI * INR n)) by lra.
    replace (PI * INR n / INR n) with PI by (field; lra).
    pose proof (ellipse_point H1 H2 PI) as E. cbv zeta in E.
    revert E. fin_arith. intros E. rewrite E.
    rewrite cos_PI, sin_PI.
    rewrite Rmult_0_r.
    rewrite (apoapsis_radius H1 H2).
    unfold vec. f_equal. f_equal. lra.
Qed.

(** An inward transfer, from 42164 km down to 6571 km, in 50 intervals. *)
Lemma generateHohmannTrajectoryPoints_endpoints_witness :
  0 < 42164 /\ 0 < 6571 /\ (0 < 50)%nat
  /\ nth 0 (generateHohmannTrajectoryPoints (Fin 42164) (Fin 6571) (ofNat 50))
       (vec 0 0 0)
     = vec (Rmin 42164 6571) 0 0.
Proof.
  assert (H1 : 0 < 42164) by lra.
  assert (H2 : 0 < 6571) by lra.
  assert (H3 : (0 < 50)%nat) by lia.
  split; [exact H1 |]. split; [exact H2 |]. split; [exact H3 |].
  exact (proj1 (proj2 (generateHohmannTrajectoryPoints_endpoints H1 H2 H3))).
Defined.

End HohmannPointsShape.

Section PatchedConicPoints.
Import Exact.
Local Open Scope R_scope.

Lemma floor_four_fifths (m : nat) :
  Math_floor (Fin (INR (5 * m)) * lit 0.8)%js = Fin (INR (4 * m)).
Proof.
  fin_arith. cbn [Math_floor xreal_math xfloor]. f_equal.
  replace (INR (5 * m) * (8 / 10)) with (IZR (Z.of_nat (4 * m))).
  - rewrite Int_part_IZR. symmetry. apply INR_IZR_INZ.
  - rewrite <- INR_IZR_INZ, !mult_INR. simpl. lra.
Qed.

(** X15.  In exact arithmetic, for a positive [r_earth], a lunar sphere of
    influence inside [r_moon] and a count [numPoints = 5 m] with [m >= 1]
    (the engine passes 100), [generatePatchedConicTrajectoryPoints]
    returns [5 m + 1] points: [4 m + 1] on a half ellipse from
    [(min(r_earth, s), 0, 0)] to [(-max(r_earth, s), 0, 0)], where
    [s = r_moon - lunarSOI], followed by [m] points with
    [x = s + (j / m) (r_moon - s)] and
    [y = sin((j / m) pi / 2) * lunarSOI * 0.1], the last being
    [(r_moon, lunarSOI / 10, 0)].  The Earth phase thus ends on the side of
    the Earth away from the Moon, at [x = -max(r_earth, s)], and the lunar
    phase resumes at [x > s]: the polyline jumps across the Earth between
    point [4 m] and point [4 m + 1]. *)
Theorem generatePatchedConicTrajectoryPoints_shape
    (r_earth r_moon lunarSOI : R) (m : nat) :
  0 < r_earth -> 0 < r_moon - lunarSOI -> (0 < m)%nat ->
  let soiTransition := r_moon - lunarSOI in
  let points :=
    generatePatchedConicTrajectoryPoints (Fin r_earth) (Fin r_moon) (Fin lunarSOI)
      (ofNat (5 * m)) in
  List.length points = S (5 * m)
  /\ nth 0 points (vec 0 0 0) = vec (Rmin r_earth soiTransition) 0 0
  /\ nth (4 * m) points (vec 0 0 0) = vec (- Rmax r_earth soiTransition) 0 0
  /\ (forall j : nat, (1 <= j <= m)%nat ->
        nth (4 * m + j) points (vec 0 0 0)
        = vec (soiTransition + INR j / INR m * (r_moon - soiTransition))
              (sin (INR j / INR m * PI / 2) * lunarSOI * (1 / 10)) 0)
  /\ nth (5 * m) points (vec 0 0 0) = vec r_moon (lunarSOI * (1 / 10)) 0.
Proof.
  intros He Hs Hm soiTransition points.
  assert (Hs' : 0 < soiTransition) by exact Hs.
  assert (Hpos : 0 < INR m) by (apply lt_0_INR; exact Hm).
  assert (Hpos4 : 0 < INR (4 * m)) by (apply lt_0_INR; lia).
  subst points. unfold generatePatchedConicTrajectoryPoints. cbv zeta.
  rewrite ofNat_Fin, floor_four_fifths.
  replace (Fin (INR (5 * m)) - Fin (INR (4 * m)))%js with (Fin (INR m))
    by (fin_arith; f_equal; rewrite !mult_INR; simpl; lra).
  rewrite upFrom0_INR, upFrom1_INR.
  replace (Fin r_moon - Fin lunarSOI)%js with (Fin soiTransition) by reflexivity.
  replace ((Fin r_earth + Fin soiTransition) / lit 2)%js
    with (Fin ((r_earth + soiTransition) / (2 / 1)))
    by (fin_arith; rewrite div_Fin by lra; reflexivity).
  replace (Math_abs (Fin soiTransition - Fin r_earth) / (Fin r_earth + Fin soiTransition))%js
    with (Fin (Rabs (soiTransition - r_earth) / (r_earth + soiTransition)))
    by (fin_arith; rewrite div_Fin by lra; reflexivity).
  match goal with
  | |- context [map ?f (seq 0 (S (4 * m))) ++ map ?g (seq 1 m)] =>
      set (earthPhase := map f (seq 0 (S (4 * m))));
      set (lunarPhase := map g (seq 1 m))
  end.
  assert (Hlen1 : List.length earthPhase = S (4 * m)).
  { subst earthPhase. rewrite length_map, length_seq. reflexivity. }
  assert (Hlen2 : List.length lunarPhase = m).
  { subst lunarPhase. rewrite length_map, length_seq. reflexivity. }
  assert (Hlunar : forall j : nat, (1 <= j <= m)%nat ->
    nth (4 * m + j) (earthPhase ++ lunarPhase) (vec 0 0 0)
    = vec (soiTransition + INR j / INR m * (r_moon - soiTransition))
          (sin (INR j / INR m * PI / 2) * lunarSOI * (1 / 10)) 0).
  { intros j Hj.
    rewrite app_nth2 by (rewrite Hlen1; lia). rewrite Hlen1.
    replace (4 * m + j - S (4 * m))%nat with (j - 1)%nat by lia.
    subst lunarPhase. rewrite nth_map_seq by lia.
    replace (1 + (j - 1))%nat with j by lia.
    cbv zeta. rewrite ofNat_Fin. rewrite div_Fin by lra. fin_arith.
    rewrite div_Fin by lra. fin_arith.
    replace (2 / 1) with 2 by lra. replace (0 / 1) with 0 by lra. reflexivity. }
  split; [| split; [| split; [| split]]].
  - rewrite length_app, Hlen1, Hlen2. lia.
  - rewrite app_nth1 by (rewrite Hlen1; lia).
    subst earthPhase. rewrite nth_map_seq by lia. cbn [plus].
    rewrite ofNat_Fin. fin_arith. rewrite (div_Fin (PI * INR 0)) by lra.
    replace (PI * INR 0 / INR (4 * m)) with 0 by (change (INR 0) with 0; field; lra).
    pose proof (ellipse_point He Hs' 0) as E. cbv zeta in E.
    revert E. fin_arith. intros E. rewrite E.
    rewrite cos_0, sin_0, Rmult_1_r, Rmult_0_r.
    rewrite (periapsis_radius He Hs'). reflexivity.
  - rewrite app_nth1 by (rewrite Hlen1; lia).
    subst earthPhase. rewrite nth_map_seq by lia. cbn [plus].
    rewrite ofNat_Fin. fin_arith. rewrite (div_Fin (PI * INR (4 * m))) by lra.
    replace (PI * INR (4 * m) / INR (4 * m)) with PI by (field; lra).
    pose proof (ellipse_point He Hs' PI) as E. cbv zeta in E.
    revert E. fin_arith. intros E. rewrite E.
    rewrite cos_PI, sin_PI, Rmult_0_r.
    rewrite (apoapsis_radius He Hs').
    unfold vec. f_equal. f_equal. lra.
  - exact Hlunar.
  - replace (5 * m)%nat with (4 * m + m)%nat by lia.
    rewrite Hlunar by lia.
    replace (INR m / INR m) with 1 by (field; lra).
    replace (1 * PI / 2) with (PI / 2) by lra.
    rewrite sin_PI2. unfold vec, soiTransition. f_equal; f_equal; lra.
Qed.

(** The engine's own call: 100 points, a sphere of influence of 66183 km. *)
Lemma generatePatchedConicTrajectoryPoints_shape_witness :
  0 < 6571 /\ 0 < 384400 - 66183 /\ (0 < 20)%nat
  /\ nth (4 * 20)
       (generatePatchedConicTrajectoryPoints (Fin 6571) (Fin 384400) (Fin 66183)
          (ofNat (5 * 20)))
       (vec 0 0 0)
     = vec (- Rmax 6571 (384400 - 66183)) 0 0.
Proof.
  assert (H1 : 0 < 6571) by lra.
  assert (H2 : 0 < 384400 - 66183) by lra.
  assert (H3 : (0 < 20)%nat) by lia.
  split; [exact H1 |]. split; [exact H2 |]. split; [exact H3 |].
  exact (proj1 (proj2 (proj2
           (generatePatchedConicTrajectoryPoints_shape H1 H2 H3)))).
Defined.

End PatchedConicPoints.

(** ** TrajectoryEngine.generateEarthMoonTrajectory *)

Section EngineGuards.
Context {num : Type} {N : JSNumber num} {M : JSMath num}.
Local Open Scope js_scope.

(** X16.  In every number system: with a launch date whose time is not
    [NaN] and a flight time that [validateMissionTime] accepts, a transfer
    type that is not one of 'hohmann', 'lambert', 'bi_elliptic' makes
    [generateEarthMoonTrajectory] throw 'Invalid transfer type: ...' with
    that type, and leaves the console alone.  (The type 'custom', which the
    route accepts, is such a type.) *)
Theorem generate_rejects_unknown_type
    (d : Date num) (transferType : string) (flightTime : num) (c : Console num) :
  isNaN (getTime d) = false ->
  (flightTime <? lit 0.1) = false ->
  (flightTime >? lit 8760) = false ->
  existsb (String.eqb transferType) TrajectoryEngine.validTypes = false ->
  TrajectoryEngine.generateEarthMoonTrajectory (Some d) transferType flightTime c
  = (Throw (InvalidTransferType transferType), c).
Proof.
  intros Hd H1 H2 Ht.
  unfold TrajectoryEngine.generateEarthMoonTrajectory.
  rewrite Hd, bind_throwIf_false.
  unfold bind at 1. rewrite validateMissionTime_run, H1, H2, Ht.
  reflexivity.
Qed.

(** X17.  In every number system: with the type 'hohmann',
    [generateEarthMoonTrajectory] does not depend on the flight time it is
    given, as long as [validateMissionTime] accepts it: two accepted flight
    times give the same outcome (the same result or the same error) and the
    same console.  The branch overwrites [flightTime] with the total time
    of the patched-conic transfer before anything reads it. *)
Theorem generate_hohmann_ignores_flightTime
    (d : option (Date num)) (t1 t2 : num) (c : Console num) :
  (t1 <? lit 0.1) = false -> (t1 >? lit 8760) = false ->
  (t2 <? lit 0.1) = false -> (t2 >? lit 8760) = false ->
  TrajectoryEngine.generateEarthMoonTrajectory d "hohmann" t1 c
  = TrajectoryEngine.generateEarthMoonTrajectory d "hohmann" t2 c.
Proof.
  intros A1 A2 B1 B2.
  unfold TrajectoryEngine.generateEarthMoonTrajectory.
  destruct (match d with None => true | Some d0 => isNaN (getTime d0) end).
  - reflexivity.
  - rewrite !bind_throwIf_false.
    change (existsb (String.eqb "hohmann") TrajectoryEngine.validTypes) with true.
    change (String.eqb "hohmann" "hohmann") with true. cbv iota.
    unfold bind.
    rewrite !validateMissionTime_run, A1, A2, B1, B2.
    reflexivity.
Qed.

(** X27.  In every number system: [generateEarthMoonTrajectory] looks at
    its launch date in the first guard only.  Two launch dates whose time
    values are not [NaN] give, for the same transfer type and flight time,
    the same outcome (the same result in every field, or the same error) and
    the same console: nothing of the trajectory depends on when the launch
    takes place. *)
Theorem generate_ignores_launchDate
    (d1 d2 : Date num) (transferType : string) (flightTime : num) (c : Console num) :
  isNaN (getTime d1) = false -> isNaN (getTime d2) = false ->
  TrajectoryEngine.generateEarthMoonTrajectory (Some d1) transferType flightTime c
  = TrajectoryEngine.generateEarthMoonTrajectory (Some d2) transferType flightTime c.
Proof.
  intros H1 H2.
  unfold TrajectoryEngine.generateEarthMoonTrajectory.
  rewrite H1, H2. reflexivity.
Qed.

End EngineGuards.

Section EngineGuardsRuns.
Import Exact.
Local Open Scope R_scope.

(** The type 'custom' on a valid date, for 72 hours. *)
Lemma generate_rejects_unknown_type_witness :
  TrajectoryEngine.generateEarthMoonTrajectory
    (Some {| getTime := Fin 0 |}) "custom" (Fin 72) []
  = (Throw (InvalidTransferType "custom"), []).
Proof.
  apply generate_rejects_unknown_type.
  - reflexivity.
  - fin_arith. apply Rltb_false. lra.
  - fin_arith. apply Rltb_false. lra.
  - reflexivity.
Defined.

(** One hour and thirty days give the same Hohmann trajectory. *)
Lemma generate_hohmann_ignores_flightTime_witness :
  TrajectoryEngine.generateEarthMoonTrajectory
    (Some {| getTime := Fin 0 |}) "hohmann" (Fin 1) []
  = TrajectoryEngine.generateEarthMoonTrajectory
      (Some {| getTime := Fin 0 |}) "hohmann" (Fin 720) [].
Proof.
  apply generate_hohmann_ignores_flightTime;
    fin_arith; apply Rltb_false; lra.
Defined.

(** The first second of 1970 and a day in 2026, on the 'lambert' path. *)
Lemma generate_ignores_launchDate_witness :
  isNaN (getTime {| getTime := Fin 0 |}) = false
  /\ isNaN (getTime {| getTime := Fin 1793577600000 |}) = false
  /\ TrajectoryEngine.generateEarthMoonTrajectory
       (Some {| getTime := Fin 0 |}) "lambert" (Fin 72) []
     = TrajectoryEngine.generateEarthMoonTrajectory
         (Some {| getTime := Fin 1793577600000 |}) "lambert" (Fin 72) [].
Proof.
  assert (H1 : isNaN (getTime {| getTime := Fin 0 |}) = false) by reflexivity.
  assert (H2 : isNaN (getTime {| getTime := Fin 1793577600000 |}) = false)
    by reflexivity.
  split; [exact H1 |]. split; [exact H2 |].
  exact (generate_ignores_launchDate
           {| getTime := Fin 0 |} {| getTime := Fin 1793577600000 |}
           "lambert" (Fin 72) [] H1 H2).
Defined.

End EngineGuardsRuns.

Section AlignedPositions.
Import Exact.
Local Open Scope R_scope.

Variables a b : R.
Hypothesis a_pos : 0 < a.
Hypothesis a_lt_b : a < b.

Lemma atan2_0_pos x : 0 < x -> Math_atan2 (Fin 0) (Fin x) = Fin 0.
Proof.
  intros H. cbn. rewrite Rltb_true by lra. f_equal.
  replace (0 / x) with 0 by (field; lra). apply atan_0.
Qed.

(** Two positions on the same ray from the attracting body: the transfer
    angle is zero. *)
Lemma transferAngle_aligned :
  LambertSolver.transferAngle (vec a 0 0) (vec b 0 0) true = Fin 0.
Proof.
  unfold LambertSolver.transferAngle. cbv zeta.
  rewrite !magnitude_vec, !norm3_axis by lra.
  unfold Vector3D.dot, Vector3D.cross, vec. cbn [Vector3D.x Vector3D.y Vector3D.z].
  fin_arith.
  change (Vector3D.magnitude
            {| Vector3D.x := Fin ?u; Vector3D.y := Fin ?v; Vector3D.z := Fin ?w |})
    with (Vector3D.magnitude (vec u v w)).
  rewrite magnitude_vec.
  replace (0 * 0 - 0 * 0) with 0 by ring.
  replace (0 * b - a * 0) with 0 by ring.
  replace (a * 0 - 0 * b) with 0 by ring.
  rewrite norm3_0.
  assert (Hab : a * b <> 0) by nra.
  rewrite !div_Fin by exact Hab. fin_arith.
  replace (0 / (a * b)) with 0 by (field; lra).
  replace ((a * b + 0 * 0 + 0 * 0) / (a * b)) with 1 by (field; lra).
  replace (Rmin (1 / 1) 1) with 1 by (rewrite Rmin_left; lra).
  replace (Rmax (- (1 / 1)) 1) with 1 by (rewrite Rmax_right; lra).
  rewrite atan2_0_pos by lra.
  fin_arith. rewrite Rltb_false by lra. reflexivity.
Qed.

Lemma chord_aligned : LambertSolver.chord (vec a 0 0) (vec b 0 0) = Fin (b - a).
Proof.
  rewrite chord_vec. replace (0 - 0) with 0 by ring.
  rewrite norm3_axis by lra. reflexivity.
Qed.

Lemma semiperimeter_aligned :
  LambertSolver.semiperimeter (vec a 0 0) (vec b 0 0) = Fin b.
Proof.
  unfold LambertSolver.semiperimeter. rewrite chord_aligned, !magnitude_vec.
  rewrite !norm3_axis by lra.
  fin_arith. rewrite div_Fin by lra. f_equal. lra.
Qed.

Lemma lambda_aligned :
  LambertSolver.lambdaParameter (vec a 0 0) (vec b 0 0) true = Fin (sqrt (a * b) / b).
Proof.
  unfold LambertSolver.lambdaParameter. cbv zeta.
  rewrite transferAngle_aligned, semiperimeter_aligned, !magnitude_vec.
  rewrite !norm3_axis by lra.
  fin_arith. rewrite sqrt_Fin by nra. rewrite div_Fin by lra. fin_arith.
  rewrite div_Fin by lra. f_equal.
  replace (0 / (2 / 1)) with 0 by (field; lra).
  rewrite cos_0. lra.
Qed.

Lemma normalizedTime_aligned (tof mu : R) :
  0 < mu ->
  LambertSolver.normalizedTime (vec a 0 0) (vec b 0 0) (Fin tof) (Fin mu)
  = Fin (sqrt (2 / 1 * mu / (b * b * b)) * tof).
Proof.
  intros Hmu. unfold LambertSolver.normalizedTime. cbv zeta.
  rewrite semiperimeter_aligned. fin_arith.
  assert (Hb : b * b * b <> 0).
  { assert (0 < b * b * b) by (repeat apply Rmult_lt_0_compat; lra). lra. }
  rewrite div_Fin by exact Hb.
  assert (0 < 2 / 1 * mu / (b * b * b)).
  { apply Rdiv_lt_0_compat; [lra |]. repeat apply Rmult_lt_0_compat; lra. }
  rewrite sqrt_Fin by lra. reflexivity.
Qed.

End AlignedPositions.

Section LambertBranch.
Import Exact.
Local Open Scope R_scope.

(** The positions the engine gives the Lambert solver, and what the solver
    makes of a flight time of [h] hours. *)
Lemma solve_earth_moon_too_short (h : R) c :
  0 < h <= 24 ->
  exists tmin t,
    LambertSolver.solve (vec 6571 0 0) (vec 384400 0 0) (Fin (h * 3600))
      CONSTANTS.MU_EARTH true (Fin 0) c
    = (Throw (TimeOfFlightTooShort (Fin tmin) (Fin t)), c)
    /\ t < tmin.
Proof.
  intros Hh.
  assert (Ha : 0 < 6571) by lra.
  assert (Hab : 6571 < 384400) by lra.
  pose proof (lambda_aligned Ha Hab) as Hl.
  assert (Hmu : 0 < 3986004418 / 10000) by lra.
  pose proof (normalizedTime_aligned Ha Hab (h * 3600) Hmu) as HT.
  assert (Hmue : CONSTANTS.MU_EARTH = Fin (3986004418 / 10000)).
  { unfold CONSTANTS.MU_EARTH. fin_arith. reflexivity. }
  rewrite Hmue.
  set (lam := sqrt (6571 * 384400) / 384400) in *.
  set (t := sqrt (2 / 1 * (3986004418 / 10000) / (384400 * 384400 * 384400))
            * (h * 3600)) in *.
  assert (Hs1 : 50258 < sqrt (6571 * 384400) < 50259) by (apply sqrt_between; lra).
  assert (Hlam : 0.1307 < lam < 0.13075).
  { unfold lam. split.
    - apply Rmult_lt_reg_r with 384400; [lra |].
      unfold Rdiv. rewrite Rmult_assoc, Rinv_l by lra. lra.
    - apply Rmult_lt_reg_r with 384400; [lra |].
      unfold Rdiv. rewrite Rmult_assoc, Rinv_l by lra. lra. }
  assert (Hs2 : 0 < sqrt (2 / 1 * (3986004418 / 10000) / (384400 * 384400 * 384400))
                < 375 / 100000000).
  { apply sqrt_between; lra. }
  assert (Ht : 0 < t < 0.324) by (unfold t; nra).
  assert (Hl3 : lam ^ 3 < 0.0023) by (simpl; nra).
  exists ((1 - lam ^ 3) / 3), t. split; [| lra].
  rewrite <- computeMinimumEnergyTime_Fin, <- Hl, <- HT.
  apply solve_too_short.
  - rewrite !magnitude_vec, !norm3_axis by lra. fin_arith. decide_cmp. reflexivity.
  - fin_arith. decide_cmp. reflexivity.
  - fin_arith. decide_cmp. reflexivity.
  - rewrite (chord_aligned Hab). fin_arith. decide_cmp. reflexivity.
  - rewrite Hl. fin_arith. rewrite Rabs_pos_eq by lra. decide_cmp. reflexivity.
  - fin_arith. decide_cmp. reflexivity.
  - rewrite HT, Hl, computeMinimumEnergyTime_Fin. fin_arith. apply Rltb_true. lra.
Qed.

(** X18.  In exact arithmetic: with a valid launch date and the type
    'lambert', every flight time from 0.1 to 24 hours makes
    [generateEarthMoonTrajectory] throw 'Time of flight too short', with a
    normalized time below the minimum it reports.  The engine puts the
    departure and the arrival on the same ray from the Earth (6571 km and
    384400 km on the x axis), for which lambda is about 0.13, the
    minimum-energy time about 0.3326, and the normalized time about 0.0135
    per hour, so the bound is crossed near 24.7 hours. *)
Theorem generate_lambert_too_short (d : Date xreal) (h : R) (c : Console xreal) :
  isNaN (getTime d) = false ->
  0.1 <= h <= 24 ->
  exists tmin t,
    TrajectoryEngine.generateEarthMoonTrajectory (Some d) "lambert" (Fin h) c
    = (Throw (TimeOfFlightTooShort (Fin tmin) (Fin t)), c)
    /\ t < tmin.
Proof.
  intros Hd Hh.
  destruct (@solve_earth_moon_too_short h c) as (tmin & t & Hs & Hlt); [lra |].
  exists tmin, t. split; [| exact Hlt].
  unfold TrajectoryEngine.generateEarthMoonTrajectory.
  rewrite Hd. rewrite bind_throwIf_false.
  unfold bind at 1. rewrite validateMissionTime_run.
  fin_arith. decide_cmp.
  change (existsb (String.eqb "lambert") TrajectoryEngine.validTypes) with true.
  rewrite bind_throwIf_false.
  change (String.eqb "lambert" "hohmann") with false.
  change (String.eqb "lambert" "lambert") with true.
  cbv iota. unfold bind at 1. unfold bind at 1. unfold bind at 1.
  unfold UnitConverter.hoursToSeconds, UnitConverter.SECONDS_PER_HOUR,
    CONSTANTS.EARTH_RADIUS, CONSTANTS.EARTH_LOW_ORBIT, CONSTANTS.EARTH_MOON_DISTANCE.
  fin_arith. decide_cmp. eff_step.
  replace (6371 / 1 + 200 / 1) with 6571 by lra.
  replace (384400 / 1) with 384400 by lra.
  replace (0 / 1) with 0 by lra.
  replace (h * (3600 / 1)) with (h * 3600) by lra.
  change (Vector3D.new (Fin ?u) (Fin ?v) (Fin ?w)) with (vec u v w).
  rewrite Hs. reflexivity.
Qed.

(** A Lambert transfer in twelve hours. *)
Lemma generate_lambert_too_short_witness :
  isNaN (getTime {| getTime := Fin 0 |}) = false
  /\ 0.1 <= 12 <= 24
  /\ exists tmin t,
      TrajectoryEngine.generateEarthMoonTrajectory
        (Some {| getTime := Fin 0 |}) "lambert" (Fin 12) []
      = (Throw (TimeOfFlightTooShort (Fin tmin) (Fin t)), [])
      /\ t < tmin.
Proof.
  assert (H1 : isNaN (getTime {| getTime := Fin 0 |}) = false) by reflexivity.
  assert (H2 : 0.1 <= 12 <= 24) by lra.
  split; [exact H1 |]. split; [exact H2 |].
  exact (@generate_lambert_too_short {| getTime := Fin 0 |} 12 [] H1 H2).
Defined.

End LambertBranch.

(** ** NumericalValidator *)

Section ValidatorSteps.
Import NumericalValidator.
Context {num : Type}.

Lemma rejectIf_passes (b : bool) (e : Error num) c :
  fst (rejectIf b e c) = None <-> b = false.
Proof. unfold rejectIf. destruct b; cbn; split; intros; congruence. Qed.

Lemma rejectIf_andThen_passes (b : bool) (e : Error num) (k : Check num) c :
  fst (andThen (rejectIf b e) k c) = None <-> b = false /\ fst (k c) = None.
Proof.
  unfold andThen, rejectIf. destruct b; cbn.
  - split; [discriminate | intros [H _]; discriminate].
  - split; [intros H; split; [reflexivity | exact H] | intros [_ H]; exact H].
Qed.

Lemma rejectIf_andThen_false (e : Error num) (k : Check num) c :
  andThen (rejectIf false e) k c = k c.
Proof. reflexivity. Qed.

End ValidatorSteps.

Section ValidatorBodies.
Import Exact.
Local Open Scope R_scope.

Lemma radiusOf_Fin body : NumericalValidator.radiusOf body = Fin (bodyRadius body).
Proof.
  destruct body; unfold NumericalValidator.radiusOf, CONSTANTS.EARTH_RADIUS,
    CONSTANTS.MOON_RADIUS, bodyRadius; fin_arith; f_equal; lra.
Qed.

Lemma muOf_Fin body : NumericalValidator.muOf body = Fin (bodyMu body).
Proof.
  destruct body; unfold NumericalValidator.muOf, CONSTANTS.MU_EARTH,
    CONSTANTS.MU_MOON, bodyMu; fin_arith; f_equal; lra.
Qed.

Lemma bodyRadius_pos body : 0 < bodyRadius body.
Proof. destruct body; unfold bodyRadius; lra. Qed.

Lemma bodyMu_pos body : 0 < bodyMu body.
Proof. destruct body; unfold bodyMu; lra. Qed.

(** The square of a number, as [**] computes it. *)
Lemma pow_two (x : R) : Math_pow (Fin x) (Fin (2 / 1)) = Fin (x * x).
Proof.
  cbn [Math_pow xreal_math xpow].
  replace (2 / 1) with 2 by lra.
  rewrite Reqb_false by lra.
  destruct (Rlt_dec 0 x) as [Hx | Hx].
  - rewrite (Rltb_true Hx). f_equal.
    change 2 with (INR 2). rewrite Rpower_pow by exact Hx. simpl. ring.
  - rewrite (Rltb_false Hx).
    destruct (Req_dec_T x 0) as [-> | Hx0].
    + rewrite (Reqb_true (eq_refl 0)). rewrite Rltb_true by lra. f_equal. ring.
    + rewrite (Reqb_false Hx0). unfold is_integer.
      rewrite Int_part_IZR. rewrite Reqb_true by reflexivity.
      f_equal. simpl. lra.
Qed.

Lemma squares_norm (a b c : R) :
  Math_sqrt (Math_pow (Fin a) (lit 2) + Math_pow (Fin b) (lit 2)
             + Math_pow (Fin c) (lit 2))%js
  = Fin (norm3 a b c).
Proof.
  rewrite lit_Fin. change (Qnum 2) with 2%Z. change (Qden 2) with 1%positive.
  rewrite !pow_two. fin_arith. rewrite sqrt_Fin by nra. reflexivity.
Qed.

End ValidatorBodies.

Section ValidatorDeltaV.
Import Exact.
Local Open Scope R_scope.

(** X19.  [NumericalValidator.validateDeltaV] accepts exactly the real
    delta-V values in [0, 15] km/s, and writes the high-delta-V warning for
    those above 10; below 0 it throws the negative error and above 15 the
    excessive one.  Of the special values, +Infinity and -Infinity are
    caught by the two range tests, so the 'Non-finite delta-V' error is
    thrown for [NaN] alone.  [UnitConverter.validateDeltaV], which has no
    such last test, lets the [NaN] of IEEE doubles through. *)
Theorem validator_validateDeltaV_envelope (context : string)
    (c : list (NumericalValidator.Warning xreal)) :
  (forall x, 0 <= x <= 10 ->
     NumericalValidator.validateDeltaV (Fin x) context c = (None, c))
  /\ (forall x, 10 < x <= 15 ->
        NumericalValidator.validateDeltaV (Fin x) context c
        = (None, c ++ [NumericalValidator.HighDeltaV context (Fin x)]))
  /\ (forall x, x < 0 ->
        NumericalValidator.validateDeltaV (Fin x) context c
        = (Some (NumericalValidator.NegativeDeltaV context (Fin x)), c))
  /\ (forall x, 15 < x ->
        NumericalValidator.validateDeltaV (Fin x) context c
        = (Some (NumericalValidator.ExcessiveDeltaV context (Fin x)), c))
  /\ NumericalValidator.validateDeltaV XNaN context c
     = (Some (NumericalValidator.NonFiniteDeltaV context), c)
  /\ NumericalValidator.validateDeltaV PInf context c
     = (Some (NumericalValidator.ExcessiveDeltaV context PInf), c)
  /\ NumericalValidator.validateDeltaV NInf context c
     = (Some (NumericalValidator.NegativeDeltaV context NInf), c)
  /\ NumericalValidator.validateDeltaV (S754_nan : IEEE754.binary64) context []
     = (Some (NumericalValidator.NonFiniteDeltaV context), [])
  /\ UnitConverter.validateDeltaV (S754_nan : IEEE754.binary64) [] = (Return tt, []).
Proof.
  unfold NumericalValidator.validateDeltaV.
  repeat split; try reflexivity; intros x Hx; fin_arith; decide_cmp; reflexivity.
Qed.

(** A delta-V of 12 km/s for an 'escape' burn. *)
Lemma validator_validateDeltaV_envelope_witness :
  10 < 12 <= 15
  /\ NumericalValidator.validateDeltaV (Fin 12) "escape" []
     = (None, [NumericalValidator.HighDeltaV "escape" (Fin 12)]).
Proof.
  assert (H : 10 < 12 <= 15) by lra.
  split; [exact H |].
  exact (proj1 (proj2 (validator_validateDeltaV_envelope "escape" [])) 12 H).
Defined.

End ValidatorDeltaV.

Section ValidatorElements.
Import Exact.
Local Open Scope R_scope.

(** X20.  For orbital elements that are real numbers,
    [validateOrbitalElements] accepts exactly when the semi-major axis is
    at most 1000 body radii, the eccentricity is in [0, 1), the periapsis
    [a (1 - e)] is above the surface, the inclination is in [0, 180] and
    the three other angles are in [0, 360); its first test (semi-major axis
    above the surface) never decides, being implied by the periapsis test.
    The console is never written.  There is no finiteness test: elements
    that are all [NaN] are accepted, in exact arithmetic and on IEEE
    doubles. *)
Theorem validateOrbitalElements_envelope
    (a e i raan w nu : R) (body : NumericalValidator.CentralBody)
    (c : list (NumericalValidator.Warning xreal)) :
  let elements :=
    OrbitalElements.make (Fin a) (Fin e) (Fin i) (Fin raan) (Fin w) (Fin nu) in
  (fst (NumericalValidator.validateOrbitalElements elements body c) = None
   <-> a <= bodyRadius body * 1000
       /\ 0 <= e < 1
       /\ bodyRadius body < a * (1 - e)
       /\ 0 <= i <= 180
       /\ 0 <= raan < 360 /\ 0 <= w < 360 /\ 0 <= nu < 360)
  /\ snd (NumericalValidator.validateOrbitalElements elements body c) = c
  /\ NumericalValidator.validateOrbitalElements
       (OrbitalElements.make XNaN XNaN XNaN XNaN XNaN XNaN) body c
     = (None, c)
  /\ NumericalValidator.validateOrbitalElements
       (OrbitalElements.make (S754_nan : IEEE754.binary64) S754_nan S754_nan
          S754_nan S754_nan S754_nan) body []
     = (None, []).
Proof.
  cbv zeta. pose proof (bodyRadius_pos body) as HR.
  split; [| split; [| split]].
  - unfold NumericalValidator.validateOrbitalElements. cbv zeta.
    cbn [OrbitalElements.semiMajorAxis OrbitalElements.eccentricity
         OrbitalElements.inclination OrbitalElements.rightAscension
         OrbitalElements.argOfPerigee OrbitalElements.trueAnomaly].
    rewrite radiusOf_Fin. fin_arith.
    rewrite !rejectIf_andThen_passes, rejectIf_passes.
    rewrite !orb_false_iff, !Rltb_false_iff, !Rleb_false_iff.
    split; intros H; repeat split; try lra; try nra.
  - unfold NumericalValidator.validateOrbitalElements. cbv zeta.
    unfold NumericalValidator.andThen, NumericalValidator.rejectIf.
    repeat match goal with
           | |- context [if ?b then _ else _] => destruct b; cbn [fst snd]
           end; reflexivity.
  - destruct body; reflexivity.
  - destruct body; reflexivity.
Qed.

End ValidatorElements.

Section ValidatorVelocity.
Import Exact.
Local Open Scope R_scope.

(** X21.  For a position and a velocity with real components, of
    magnitudes [r] and [v], [validateVelocityVector] accepts exactly when
    [r] is above the surface of the body and
    [0.1 sqrt(mu / r) <= v <= 1.5 sqrt(2 mu / r)]; in particular the
    circular speed [sqrt(mu / r)] is accepted at every [r] above the
    surface. *)
Theorem validateVelocityVector_envelope
    (px py pz vx vy vz : R) (body : NumericalValidator.CentralBody)
    (c : list (NumericalValidator.Warning xreal)) :
  let r := norm3 px py pz in
  let v := norm3 vx vy vz in
  (fst (NumericalValidator.validateVelocityVector (vec px py pz) (vec vx vy vz) body c)
   = None
   <-> bodyRadius body < r
       /\ sqrt (bodyMu body / r) * (1 / 10) <= v
       /\ v <= sqrt (2 * bodyMu body / r) * (15 / 10))
  /\ (bodyRadius body < r -> v = sqrt (bodyMu body / r) ->
      NumericalValidator.validateVelocityVector (vec px py pz) (vec vx vy vz) body c
      = (None, c)).
Proof.
  cbv zeta.
  pose proof (bodyRadius_pos body) as HR. pose proof (bodyMu_pos body) as HM.
  unfold NumericalValidator.validateVelocityVector. cbv zeta.
  unfold vec. cbn [Vector3D.x Vector3D.y Vector3D.z].
  rewrite !squares_norm, radiusOf_Fin, muOf_Fin.
  set (r := norm3 px py pz). set (v := norm3 vx vy vz).
  assert (Hv : 0 <= v) by (unfold v, norm3; apply sqrt_pos).
  fin_arith.
  destruct (Rle_dec r (bodyRadius body)) as [Hr | Hr].
  - rewrite (Rleb_true Hr). split.
    + split; [discriminate | lra].
    + intros; lra.
  - rewrite (Rleb_false Hr). rewrite rejectIf_andThen_false.
    assert (Hr0 : r <> 0) by lra.
    rewrite !div_Fin by exact Hr0.
    assert (H1 : 0 < 2 / 1 * bodyMu body / r) by (apply Rdiv_lt_0_compat; lra).
    assert (H2 : 0 < bodyMu body / r) by (apply Rdiv_lt_0_compat; lra).
    rewrite !sqrt_Fin by lra. fin_arith.
    replace (2 / 1 * bodyMu body / r) with (2 * bodyMu body / r) by lra.
    split.
    + rewrite !rejectIf_andThen_passes, rejectIf_passes.
      cbn [negb orb]. rewrite !Rltb_false_iff.
      split; intros H; repeat split; try lra; try tauto.
    + intros _ Ev.
      assert (Hs : sqrt (bodyMu body / r) <= sqrt (2 * bodyMu body / r)).
      { apply sqrt_le_1_alt. unfold Rdiv. nra. }
      pose proof (sqrt_pos (bodyMu body / r)) as Hp.
      rewrite Ev.
      rewrite (@Rltb_false (sqrt (2 * bodyMu body / r) * (15 / 10))) by lra.
      rewrite rejectIf_andThen_false.
      rewrite (@Rltb_false (sqrt (bodyMu body / r))) by lra.
      reflexivity.
Qed.

(** The circular orbit of radius 7000 km around the Earth. *)
Lemma validateVelocityVector_envelope_witness :
  bodyRadius NumericalValidator.earth < norm3 7000 0 0
  /\ norm3 0 (sqrt (bodyMu NumericalValidator.earth / norm3 7000 0 0)) 0
     = sqrt (bodyMu NumericalValidator.earth / norm3 7000 0 0)
  /\ NumericalValidator.validateVelocityVector (vec 7000 0 0)
       (vec 0 (sqrt (bodyMu NumericalValidator.earth / norm3 7000 0 0)) 0)
       NumericalValidator.earth []
     = (None, []).
Proof.
  assert (H1 : bodyRadius NumericalValidator.earth < norm3 7000 0 0).
  { rewrite norm3_axis by lra. unfold bodyRadius. lra. }
  assert (H2 : norm3 0 (sqrt (bodyMu NumericalValidator.earth / norm3 7000 0 0)) 0
               = sqrt (bodyMu NumericalValidator.earth / norm3 7000 0 0)).
  { unfold norm3 at 1.
    replace (0 * 0 + sqrt (bodyMu NumericalValidator.earth / norm3 7000 0 0)
                     * sqrt (bodyMu NumericalValidator.earth / norm3 7000 0 0) + 0 * 0)
      with (sqrt (bodyMu NumericalValidator.earth / norm3 7000 0 0)
            * sqrt (bodyMu NumericalValidator.earth / norm3 7000 0 0)) by ring.
    apply sqrt_square. apply sqrt_pos. }
  split; [exact H1 |]. split; [exact H2 |].
  exact (proj2 (validateVelocityVector_envelope 7000 0 0
                  0 (sqrt (bodyMu NumericalValidator.earth / norm3 7000 0 0)) 0
                  NumericalValidator.earth []) H1 H2).
Defined.

End ValidatorVelocity.

Section ValidatorTransfer.
Import Exact.
Local Open Scope R_scope.

(** X22.  In exact arithmetic, for two radii above the surface of the
    body, the transfer time that [HohmannTransfer.calculateTransferTime]
    computes for them (half the period of the ellipse through both, with
    the gravitational parameter of the body) passes
    [validateTransferParameters]: it is positive, at most the period of an
    orbit of ten times the larger radius, and at least a quarter of the
    period of the transfer ellipse. *)
Theorem hohmann_time_passes_validateTransferParameters
    (r1 r2 : R) (body : NumericalValidator.CentralBody)
    (c : list (NumericalValidator.Warning xreal)) :
  bodyRadius body < r1 -> bodyRadius body < r2 ->
  NumericalValidator.validateTransferParameters (Fin r1) (Fin r2)
    (HohmannTransfer.calculateTransferTime (Fin r1) (Fin r2)
       (NumericalValidator.muOf body))
    body c
  = (None, c).
Proof.
  intros H1 H2.
  pose proof (bodyRadius_pos body) as HR. pose proof (bodyMu_pos body) as HM.
  unfold NumericalValidator.validateTransferParameters,
    HohmannTransfer.calculateTransferTime. cbv zeta.
  rewrite radiusOf_Fin, muOf_Fin. fin_arith.
  rewrite !Rleb_false by lra. cbn [orb]. rewrite rejectIf_andThen_false.
  rewrite (div_Fin (r1 + r2)) by lra.
  set (a := (r1 + r2) / (2 / 1)).
  set (big := Rmax r1 r2 * (10 / 1)).
  assert (Ha : 0 < a) by (unfold a; lra).
  assert (Hab : a <= big).
  { unfold a, big. pose proof (Rmax_l r1 r2). pose proof (Rmax_r r1 r2). lra. }
  rewrite !pow_Fin by lra.
  rewrite !div_Fin by lra.
  assert (Pa : 0 < Rpower a (3 / 1)) by (unfold Rpower; apply exp_pos).
  assert (Pab : Rpower a (3 / 1) <= Rpower big (3 / 1)).
  { apply Rle_Rpower_l; lra. }
  assert (Qa : 0 < Rpower a (3 / 1) / bodyMu body) by (apply Rdiv_lt_0_compat; lra).
  assert (Qab : Rpower a (3 / 1) / bodyMu body <= Rpower big (3 / 1) / bodyMu body).
  { unfold Rdiv. apply Rmult_le_compat_r; [| exact Pab].
    left. apply Rinv_0_lt_compat. exact HM. }
  rewrite !sqrt_Fin by lra. fin_arith.
  rewrite (div_Fin (2 / 1 * PI * sqrt (Rpower a (3 / 1) / bodyMu body))) by lra.
  rewrite (div_Fin (2 / 1 * PI * sqrt (Rpower a (3 / 1) / bodyMu body)) (b := 4 / 1))
    by lra.
  fin_arith.
  pose proof PI_RGT_0 as Hpi.
  assert (Sa : 0 < sqrt (Rpower a (3 / 1) / bodyMu body)) by (apply sqrt_lt_R0; exact Qa).
  assert (Sab : sqrt (Rpower a (3 / 1) / bodyMu body)
                <= sqrt (Rpower big (3 / 1) / bodyMu body)).
  { apply sqrt_le_1_alt. exact Qab. }
  assert (T : 0 < PI * sqrt (Rpower a (3 / 1) / bodyMu body))
    by (apply Rmult_lt_0_compat; assumption).
  assert (T2 : PI * sqrt (Rpower a (3 / 1) / bodyMu body)
               <= PI * sqrt (Rpower big (3 / 1) / bodyMu body))
    by (apply Rmult_le_compat_l; lra).
  rewrite Rleb_false by lra. rewrite rejectIf_andThen_false.
  rewrite Rltb_false by lra. rewrite rejectIf_andThen_false.
  rewrite Rltb_false by lra. reflexivity.
Qed.

(** From 6571 km to 384400 km around the Earth. *)
Lemma hohmann_time_passes_validateTransferParameters_witness :
  bodyRadius NumericalValidator.earth < 6571
  /\ bodyRadius NumericalValidator.earth < 384400
  /\ NumericalValidator.validateTransferParameters (Fin 6571) (Fin 384400)
       (HohmannTransfer.calculateTransferTime (Fin 6571) (Fin 384400)
          (NumericalValidator.muOf NumericalValidator.earth))
       NumericalValidator.earth []
     = (None, []).
Proof.
  assert (H1 : bodyRadius NumericalValidator.earth < 6571) by (unfold bodyRadius; lra).
  assert (H2 : bodyRadius NumericalValidator.earth < 384400) by (unfold bodyRadius; lra).
  split; [exact H1 |]. split; [exact H2 |].
  exact (@hohmann_time_passes_validateTransferParameters
           6571 384400 NumericalValidator.earth [] H1 H2).
Defined.

End ValidatorTransfer.

Section ValidatorConvergence.
Import Exact.
Local Open Scope R_scope.

(** X23.  With real [iterations], [maxIterations] and [tolerance]:
    [validateConvergence] throws the failed-to-converge error exactly when
    [iterations >= maxIterations], whatever the error is.  Otherwise a
    real error is accepted, with the large-error warning exactly when it
    exceeds 1000 tolerances (a negative error of any size passes in
    silence, there being no absolute value); [NaN] and -Infinity are
    rejected as non-finite without a warning, and +Infinity is rejected
    after the warning has been written. *)
Theorem validateConvergence_envelope (iterations maxIterations tolerance : R)
    (c : list (NumericalValidator.Warning xreal)) :
  let run error :=
    NumericalValidator.validateConvergence (Fin iterations) error
      (Fin maxIterations) (Fin tolerance) c in
  let warning error :=
    NumericalValidator.LargeConvergenceError error (Fin tolerance) in
  (maxIterations <= iterations ->
   forall error,
     run error = (Some (NumericalValidator.FailedToConverge (Fin maxIterations) error), c))
  /\ (iterations < maxIterations ->
      (forall x, x <= tolerance * 1000 -> run (Fin x) = (None, c))
      /\ (forall x, tolerance * 1000 < x ->
            run (Fin x) = (None, c ++ [warning (Fin x)]))
      /\ run XNaN = (Some NumericalValidator.NonFiniteError, c)
      /\ run PInf = (Some NumericalValidator.NonFiniteError, c ++ [warning PInf])
      /\ run NInf = (Some NumericalValidator.NonFiniteError, c)).
Proof.
  cbv zeta. unfold NumericalValidator.validateConvergence. split.
  - intros H error. fin_arith. rewrite (Rleb_true H). reflexivity.
  - intros H. fin_arith. rewrite Rleb_false by lra.
    rewrite rejectIf_andThen_false.
    repeat split; try reflexivity; intros x Hx; fin_arith; decide_cmp; reflexivity.
Qed.

(** Twelve iterations out of a hundred, ending on an error of 1e-6 for a
    tolerance of 1e-12. *)
Lemma validateConvergence_envelope_witness :
  12 < 100 /\ 1e-12 * 1000 < 1e-6
  /\ NumericalValidator.validateConvergence (Fin 12) (Fin 1e-6) (Fin 100) (Fin 1e-12) []
     = (None, [NumericalValidator.LargeConvergenceError (Fin 1e-6) (Fin 1e-12)]).
Proof.
  assert (H1 : 12 < 100) by lra.
  assert (H2 : 1e-12 * 1000 < 1e-6) by lra.
  split; [exact H1 |]. split; [exact H2 |].
  exact (proj1 (proj2 (proj2 (validateConvergence_envelope 12 100 1e-12 []) H1)) 1e-6 H2).
Defined.

End ValidatorConvergence.

Section ValidatorEnergy.
Import Exact.
Local Open Scope R_scope.

(** X24.  With real energies and tolerance, [validateEnergyConservation]
    never writes to the console, and: for [energy1 <> 0] it accepts exactly
    when [|energy1 - energy2| <= tolerance * |energy1|]; for [energy1 = 0]
    it accepts exactly when [energy2 = 0] too, the relative error being
    [0 / 0 = NaN], which no comparison rejects (and +Infinity otherwise). *)
Theorem validateEnergyConservation_envelope (energy1 energy2 tolerance : R)
    (context : string) (c : list (NumericalValidator.Warning xreal)) :
  let run :=
    NumericalValidator.validateEnergyConservation (Fin energy1) (Fin energy2)
      (Fin tolerance) context c in
  snd run = c
  /\ (energy1 <> 0 ->
      (fst run = None <-> Rabs (energy1 - energy2) <= tolerance * Rabs energy1))
  /\ (energy1 = 0 -> (fst run = None <-> energy2 = 0)).
Proof.
  cbv zeta. unfold NumericalValidator.validateEnergyConservation. cbv zeta.
  fin_arith. cbn [negb orb]. split; [| split].
  - unfold NumericalValidator.andThen, NumericalValidator.rejectIf.
    destruct (_ >? _)%js; reflexivity.
  - intros H1. assert (Ha : 0 < Rabs energy1) by (apply Rabs_pos_lt; exact H1).
    rewrite div_Fin by lra. fin_arith.
    rewrite rejectIf_andThen_passes, rejectIf_passes, Rltb_false_iff.
    split.
    + intros [H _].
      apply Rmult_le_compat_r with (r := Rabs energy1) in H; [| lra].
      unfold Rdiv in H. rewrite Rmult_assoc, Rinv_l, Rmult_1_r in H by lra. exact H.
    + intros H. split; [| reflexivity].
      apply Rmult_le_reg_r with (Rabs energy1); [exact Ha |].
      unfold Rdiv. rewrite Rmult_assoc, Rinv_l, Rmult_1_r by lra. exact H.
  - intros ->. replace (0 - energy2) with (- energy2) by ring.
    rewrite Rabs_R0, Rabs_Ropp.
    destruct (Req_dec_T energy2 0) as [-> | H2].
    + rewrite Rabs_R0, div_0_0. split; [reflexivity | intros _; reflexivity].
    + assert (0 < Rabs energy2) by (apply Rabs_pos_lt; exact H2).
      rewrite div_Fin_0 by lra. split; [discriminate | intros; contradiction].
Qed.

(** Two zero energies. *)
Lemma validateEnergyConservation_envelope_witness :
  fst (NumericalValidator.validateEnergyConservation (Fin 0) (Fin 0) (Fin 1e-6)
         "calculation" [])
  = None.
Proof.
  apply (proj2 (proj2 (validateEnergyConservation_envelope 0 0 1e-6 "calculation" []))
           eq_refl).
  reflexivity.
Defined.

End ValidatorEnergy.

(** ** The Hohmann branch of the engine *)

Section HohmannBranch.
Import Exact.
Local Open Scope R_scope.

Lemma generatePatchedConicTrajectoryPoints_length
    (r_earth r_moon lunarSOI : xreal) (m : nat) :
  List.length (generatePatchedConicTrajectoryPoints r_earth r_moon lunarSOI
                 (ofNat (5 * m))) = S (5 * m).
Proof.
  unfold generatePatchedConicTrajectoryPoints. cbv zeta.
  rewrite ofNat_Fin, floor_four_fifths.
  replace (Fin (INR (5 * m)) - Fin (INR (4 * m)))%js with (Fin (INR m))
    by (fin_arith; f_equal; rewrite !mult_INR; simpl; lra).
  rewrite upFrom0_INR, upFrom1_INR.
  rewrite length_app, !length_map, !length_seq. lia.
Qed.

(** Rounding to three decimals keeps a number between two bounds that have
    three decimals themselves. *)
Lemma round_thousandths_between (lo hi : Z) (x : R) :
  IZR lo <= x * 1000 <= IZR hi ->
  exists y, (Math_round (Fin x * lit 1000) / lit 1000)%js = Fin y
            /\ IZR lo / 1000 <= y <= IZR hi / 1000.
Proof.
  intros [Hlo Hhi]. fin_arith. rewrite div_Fin by lra.
  eexists. split; [reflexivity |].
  replace (x * (1000 / 1)) with (x * 1000) by lra.
  assert (L : (lo <= Int_part (x * 1000 + / 2))%Z) by (apply Int_part_lower; lra).
  assert (U : (Int_part (x * 1000 + / 2) <= hi)%Z).
  { destruct (base_Int_part (x * 1000 + / 2)) as [B _].
    assert (B' : IZR (Int_part (x * 1000 + / 2)) < IZR (hi + 1))
      by (rewrite plus_IZR; lra).
    apply lt_IZR in B'. lia. }
  apply IZR_le in L. apply IZR_le in U. lra.
Qed.

(** X25.  In exact arithmetic: with a valid launch date and a flight time
    that [validateMissionTime] accepts, the type 'hohmann' (the default)
    makes [generateEarthMoonTrajectory] return a result: its [totalDeltaV]
    is between 2.217 and 2.220 km/s, it has 101 trajectory points and two
    orbital elements, a [hohmannTransfer] and no [lambertSolution], and a
    propellant mass that is not negative. *)
Theorem generate_hohmann_returns (d : Date xreal) (h : R) (c : Console xreal) :
  isNaN (getTime d) = false ->
  0.1 <= h <= 8760 ->
  exists r c' dv,
    TrajectoryEngine.generateEarthMoonTrajectory (Some d) "hohmann" (Fin h) c
    = (Return r, c')
    /\ TrajectoryResult.totalDeltaV r = Fin dv /\ 2.217 <= dv <= 2.22
    /\ List.length (TrajectoryResult.trajectoryPoints r) = 101%nat
    /\ List.length (TrajectoryResult.orbitalElements r) = 2%nat
    /\ Calculations.hohmannTransfer (TrajectoryResult.calculations r) <> None
    /\ Calculations.lambertSolution (TrajectoryResult.calculations r) = None
    /\ exists pm,
        FuelOptimization.propellantMass
          (Calculations.fuelOptimization (TrajectoryResult.calculations r)) = Fin pm
        /\ 0 <= pm.
Proof.
  intros Hd Hh.
  destruct (calculateEarthMoonTransfer_run c) as (t & soi & dv & Ht & Hsoi & Bsoi & Hdv & Bdv & _).
  assert (F1 : 0 <= dv <= 20) by lra.
  assert (F2 : 0 < 5000 / 1) by lra.
  assert (F3 : 0 < 450 / 1) by lra.
  assert (F4 : 0 < 3 / 10 <= 2) by lra.
  destruct (fuel_calculate_runs c F1 F2 F3 F4)
    as (fo & c' & mr & pm & bt & Hfo & _ & _ & Hpm & Bpm & _).
  destruct (@round_thousandths_between 2217 2220 dv) as (y & Ey & By); [lra |].
  unfold TrajectoryEngine.generateEarthMoonTrajectory.
  rewrite Hd, bind_throwIf_false.
  unfold bind at 1. rewrite validateMissionTime_run.
  fin_arith. decide_cmp.
  change (existsb (String.eqb "hohmann") TrajectoryEngine.validTypes) with true.
  rewrite bind_throwIf_false.
  change (String.eqb "hohmann" "hohmann") with true. cbv iota.
  unfold bind at 1. unfold bind at 1. rewrite Ht. cbn [ret].
  cbn [TrajectoryEngine.b_totalDeltaV TrajectoryEngine.b_flightTime
       TrajectoryEngine.b_hohmannResult TrajectoryEngine.b_lambertResult
       TrajectoryEngine.b_trajectoryPoints TrajectoryEngine.b_orbitalElements].
  rewrite Hdv.
  unfold CONSTANTS.SPACECRAFT_DRY_MASS, CONSTANTS.SPECIFIC_IMPULSE. fin_arith.
  unfold bind at 1. rewrite Hfo. cbn [ret].
  revert Ey. fin_arith. intros Ey.
  do 2 eexists. exists y. split; [reflexivity |].
  cbn [TrajectoryResult.totalDeltaV TrajectoryResult.trajectoryPoints
       TrajectoryResult.orbitalElements TrajectoryResult.calculations
       Calculations.hohmannTransfer Calculations.lambertSolution
       Calculations.fuelOptimization].
  split; [exact Ey |]. split; [lra |].
  split.
  { change (Fin (100 / 1)) with (ofNat (5 * 20) : xreal).
    apply generatePatchedConicTrajectoryPoints_length. }
  split; [reflexivity |]. split; [discriminate |]. split; [reflexivity |].
  exists pm. split; assumption.
Qed.

(** A launch on a valid date with the default flight time of 72 hours. *)
Lemma generate_hohmann_returns_witness :
  isNaN (getTime {| getTime := Fin 0 |}) = false
  /\ 0.1 <= 72 <= 8760
  /\ exists r c' dv,
      TrajectoryEngine.generateEarthMoonTrajectory
        (Some {| getTime := Fin 0 |}) "hohmann" (Fin 72) []
      = (Return r, c')
      /\ TrajectoryResult.totalDeltaV r = Fin dv /\ 2.217 <= dv <= 2.22
      /\ List.length (TrajectoryResult.trajectoryPoints r) = 101%nat.
Proof.
  assert (H1 : isNaN (getTime {| getTime := Fin 0 |}) = false) by reflexivity.
  assert (H2 : 0.1 <= 72 <= 8760) by lra.
  split; [exact H1 |]. split; [exact H2 |].
  destruct (@generate_hohmann_returns {| getTime := Fin 0 |} 72 [] H1 H2)
    as (r & c' & dv & A & B & C & D & _).
  exists r, c', dv. repeat split; assumption || apply C.
Defined.

End HohmannBranch.

(** ** LunarOrbitInsertion.calculateDirectInsertion *)

Section DirectInsertion.
Import Exact.
Local Open Scope R_scope.

(** What [calculateDirectInsertion] makes of a real approach speed and a
    positive radius. *)
Lemma calculateDirectInsertion_totalDeltaV (v r : R) :
  0 < r ->
  LOIResult.totalDeltaV (LunarOrbitInsertion.calculateDirectInsertion (Fin v) (Fin r))
  = Fin (sqrt (v * v + 2 / 1 * (49027779 / 10000) / r) - sqrt (49027779 / 10000 / r)).
Proof.
  intros Hr.
  unfold LunarOrbitInsertion.calculateDirectInsertion, CONSTANTS.MU_MOON. cbv zeta.
  cbn [LOIResult.totalDeltaV]. fin_arith.
  rewrite !div_Fin by lra. fin_arith.
  assert (H1 : 0 < 2 / 1 * (49027779 / 10000) / r) by (apply Rdiv_lt_0_compat; lra).
  assert (H2 : 0 < 49027779 / 10000 / r) by (apply Rdiv_lt_0_compat; lra).
  rewrite !sqrt_Fin by nra. reflexivity.
Qed.

(** X26.  In exact arithmetic, for a real approach speed and a positive
    target radius, [calculateDirectInsertion] returns the strategy 'direct'
    with no capture burn and a total delta-V
    [sqrt(v^2 + 2 mu / r) - sqrt(mu / r)] that is positive and grows with
    the approach speed; its feasibility flags are consistent, in that a
    result marked feasible for propulsion (below 2.5 km/s) is also marked
    feasible for navigation (below 3 km/s). *)
Theorem calculateDirectInsertion_deltaV (v v' r : R) :
  0 < r -> 0 <= v < v' ->
  let result := LunarOrbitInsertion.calculateDirectInsertion (Fin v) (Fin r) in
  let faster := LunarOrbitInsertion.calculateDirectInsertion (Fin v') (Fin r) in
  exists dv dv',
    LOIResult.totalDeltaV result = Fin dv
    /\ LOIResult.totalDeltaV faster = Fin dv'
    /\ 0 < dv < dv'
    /\ LOIResult.insertionDeltaV result = Fin dv
    /\ LOIResult.captureOrbitDeltaV result = lit 0
    /\ LOIResult.strategy result = direct
    /\ (Feasibility.propulsive (LOIResult.feasibility result) = true ->
        Feasibility.navigation (LOIResult.feasibility result) = true).
Proof.
  intros Hr Hv. cbv zeta.
  rewrite !calculateDirectInsertion_totalDeltaV by exact Hr.
  assert (H2 : 0 < 49027779 / 10000 / r) by (apply Rdiv_lt_0_compat; lra).
  assert (E : 2 / 1 * (49027779 / 10000) / r = 2 * (49027779 / 10000 / r)) by (field; lra).
  do 2 eexists. split; [reflexivity |]. split; [reflexivity |].
  split.
  { rewrite E. split.
    - assert (sqrt (49027779 / 10000 / r)
              < sqrt (v * v + 2 * (49027779 / 10000 / r)))
        by (apply sqrt_lt_1_alt; nra).
      lra.
    - assert (sqrt (v * v + 2 * (49027779 / 10000 / r))
              < sqrt (v' * v' + 2 * (49027779 / 10000 / r)))
        by (apply sqrt_lt_1_alt; nra).
      lra. }
  split.
  { rewrite <- (calculateDirectInsertion_totalDeltaV v Hr). reflexivity. }
  split; [reflexivity |]. split; [reflexivity |].
  unfold LunarOrbitInsertion.calculateDirectInsertion,
    LunarOrbitInsertion.assessFeasibility. cbv zeta.
  cbn [LOIResult.feasibility Feasibility.propulsive Feasibility.navigation].
  set (dv := (Math_sqrt _ - Math_sqrt _)%js).
  destruct dv as [x | | |]; try discriminate.
  - fin_arith. rewrite !Rltb_iff. lra.
  - intros _. reflexivity.
Qed.

(** Approaches at 0.8 and at 1 km/s to a 100 km orbit around the Moon. *)
Lemma calculateDirectInsertion_deltaV_witness :
  0 < 1837 /\ 0 <= 0.8 < 1
  /\ exists dv dv',
      LOIResult.totalDeltaV
        (LunarOrbitInsertion.calculateDirectInsertion (Fin 0.8) (Fin 1837)) = Fin dv
      /\ LOIResult.totalDeltaV
           (LunarOrbitInsertion.calculateDirectInsertion (Fin 1) (Fin 1837)) = Fin dv'
      /\ 0 < dv < dv'.
Proof.
  assert (H1 : 0 < 1837) by lra.
  assert (H2 : 0 <= 0.8 < 1) by lra.
  split; [exact H1 |]. split; [exact H2 |].
  destruct (calculateDirectInsertion_deltaV H1 H2) as (dv & dv' & A & B & C & _).
  exists dv, dv'. repeat split; assumption || apply C.
Defined.

End DirectInsertion.
